(** * Series Codex: a shallow embedding of [newfile.py] and its properties

    The program is a menu-driven command-line tool that keeps one JSON
    document (series, books, master characters / locations / lore and
    timelines) in memory and rewrites it to disk after every change.

    Modelling conventions.
    - A Python [str] is a Rocq [string]; the text helpers ([lower], [strip],
      [isdigit], [int], [in]) are modelled on ASCII text, bytes above 127 are
      carried through unchanged. Where a property depends on what the
      interpreter's [isdigit] and [int] answer on other text, or on [int]
      raising, the two builtins are taken as they are ([Builtins]).
    - A Python [int] is a [Z]; [None] is [None] of an [option].
    - A dict used as a record (a book, a character, ...) is a [Record]; a dict
      used as a map and only looked up by key ([book_char_profiles],
      [master_ids]) is a [gmap]; a dict whose iteration order is observed
      ([name_to_ids], [theme_counts]) is an association list in insertion
      order.
    - The document is mutated in place in the source; here every operation
      takes the document and returns the new one, and a book that the source
      holds by reference is addressed by its position in [books].
    - The answers read with [input_prompt] are arguments of the operation, in
      the order they are asked for; clock readings are arguments too.
    - [print] and [pretty] calls are recorded as a list of output items where a
      property speaks about what is shown.
    - The file is its text, or [None] while it does not exist; [save_data]
      and [load_data] act on it through [Json.dumps] and [Json.loads], which
      model [json.dump(data, f, indent=2, ensure_ascii=False)] and
      [json.load(f)]. The [save_data(data)] that ends an operation leaves the
      document as it is and is not repeated in the operation's function. *)

From Stdlib Require Import ZArith Ascii String List Bool Lia QArith.
From stdpp Require Import base list strings gmap fin_maps pretty.

Local Open Scope Z_scope.

(** ** Python text primitives *)

Module Py.

(** [c.lower()] for one ASCII character. *)
Definition lower_char (c : ascii) : ascii :=
  let n := nat_of_ascii c in
  if ((65 <=? n)%nat && (n <=? 90)%nat)%bool then ascii_of_nat (n + 32) else c.

(** [s.lower()] *)
Fixpoint lower (s : string) : string :=
  match s with
  | EmptyString => EmptyString
  | String c s' => String (lower_char c) (lower s')
  end.

(** [s.startswith(p)], written out so that it computes by pattern matching. *)
Fixpoint startswith (p s : string) : bool :=
  match p, s with
  | EmptyString, _ => true
  | String _ _, EmptyString => false
  | String a p', String b s' => (Ascii.eqb a b && startswith p' s')%bool
  end.

(** [needle in hay]: substring test. The empty string occurs in every
    string. *)
Fixpoint contains (needle hay : string) : bool :=
  (startswith needle hay ||
   match hay with
   | EmptyString => false
   | String _ hay' => contains needle hay'
   end)%bool.

(** [c.isspace()] on ASCII: tab, newline, vertical tab, form feed, carriage
    return, the four separators 28..31 and the space. *)
Definition isspace (c : ascii) : bool :=
  let n := nat_of_ascii c in
  (((9 <=? n)%nat && (n <=? 13)%nat) || ((28 <=? n)%nat && (n <=? 32)%nat))%bool.

Fixpoint lstrip (s : string) : string :=
  match s with
  | EmptyString => EmptyString
  | String c s' => if isspace c then lstrip s' else s
  end.

(** [s.rstrip()]: the white space that ends the string is dropped, from the
    last character backwards. *)
Fixpoint rstrip (s : string) : string :=
  match s with
  | EmptyString => EmptyString
  | String c s' =>
      match rstrip s' with
      | EmptyString => if isspace c then EmptyString else String c EmptyString
      | r => String c r
      end
  end.

(** [s.strip()] *)
Definition strip (s : string) : string := rstrip (lstrip s).

(** Value of an ASCII decimal digit. *)
Definition digit_val (c : ascii) : option Z :=
  let n := nat_of_ascii c in
  if ((48 <=? n)%nat && (n <=? 57)%nat)%bool then Some (Z.of_nat (n - 48)) else None.

Definition is_digit_char (c : ascii) : bool :=
  match digit_val c with Some _ => true | None => false end.

Fixpoint all_digits (s : string) : bool :=
  match s with
  | EmptyString => true
  | String c s' => (is_digit_char c && all_digits s')%bool
  end.

(** [s.isdigit()] on ASCII text: non-empty and made of the digits 0 to 9
    only. Of text outside ASCII the interpreter's [isdigit] accepts more, see
    [Builtins]. *)
Definition isdigit (s : string) : bool :=
  match s with
  | EmptyString => false
  | String _ _ => all_digits s
  end.

(** The digits of an integer literal after its sign, read left to right.
    [acc] is the value so far, [prev_digit] tells whether the previous
    character was a digit: an underscore is accepted only between two
    digits. *)
Fixpoint int_digits (acc : Z) (prev_digit : bool) (s : string) : option Z :=
  match s with
  | EmptyString => if prev_digit then Some acc else None
  | String c s' =>
      match digit_val c with
      | Some d => int_digits (10 * acc + d) true s'
      | None =>
          if (Ascii.eqb c "_" && prev_digit)%bool
          then match s' with
               | EmptyString => None
               | String c' _ =>
                   if is_digit_char c' then int_digits acc false s' else None
               end
          else None
      end
  end.

(** [int(s)] in base ten; [None] stands for [ValueError]. Surrounding
    white space is ignored, one sign is allowed. *)
Definition int (s : string) : option Z :=
  match strip s with
  | EmptyString => None
  | String c s' =>
      if Ascii.eqb c "-" then option_map Z.opp (int_digits 0 false s')
      else if Ascii.eqb c "+" then int_digits 0 false s'
      else int_digits 0 false (String c s')
  end.

(** The number that a string of decimal digits denotes. *)
Fixpoint digits_value (acc : Z) (s : string) : Z :=
  match s with
  | EmptyString => acc
  | String c s' =>
      digits_value (10 * acc + match digit_val c with Some d => d | None => 0 end) s'
  end.

(** [sep.join(l)] *)
Fixpoint join (sep : string) (l : list string) : string :=
  match l with
  | [] => EmptyString
  | [x] => x
  | x :: l' => x +:+ sep +:+ join sep l'
  end.

(** [str(n)] for an integer, as an f-string renders it. *)
Definition str_int (n : Z) : string := pretty n.

End Py.

(** ** Personality analysis (lines 75-95) *)

Definition conscientious_sentence : string :=
  "High conscientiousness — likely reliable, structured, and plan-driven.".
Definition agreeable_sentence : string :=
  "High agreeableness — likely cooperative and empathetic.".
Definition low_agreeable_sentence : string :=
  "Low agreeableness — may be blunt or confrontational.".
Definition open_sentence : string :=
  "High openness — imaginative and curious; likely to pursue novel choices.".
Definition neurotic_sentence : string :=
  "Emotional sensitivity — may react strongly under stress.".
Definition outgoing_sentence : string :=
  "Outgoing — gains energy from others, socially proactive.".
Definition reserved_sentence : string :=
  "Reserved — internal processing, may prefer solitude or a small circle.".
Definition no_signal_sentence : string :=
  "No strong signals detected from input; personality summary unavailable.".

(** [if cond: traits.append(sentence)] *)
Definition append_if (cond : bool) (sentence : string) (traits : list string) : list string :=
  if cond then traits ++ [sentence] else traits.

Definition personality_traits (t : string) : list string :=
  let traits := [] in
  let traits := append_if (Py.contains "conscientious" t || Py.contains "conscientiousness" t
                           || Py.contains "organized" t) conscientious_sentence traits in
  let traits := append_if (Py.contains "agreeable" t || Py.contains "kind" t
                           || Py.contains "friendly" t) agreeable_sentence traits in
  let traits := append_if (Py.contains "low agree" t || Py.contains "not agreeable" t
                           || Py.contains "blunt" t) low_agreeable_sentence traits in
  let traits := append_if (Py.contains "open" t || Py.contains "curious" t
                           || Py.contains "creative" t) open_sentence traits in
  let traits := append_if (Py.contains "neurotic" t || Py.contains "anxious" t
                           || Py.contains "sensitive" t) neurotic_sentence traits in
  let traits := append_if (Py.contains "extro" t || Py.contains "outgoing" t
                           || Py.contains "social" t) outgoing_sentence traits in
  let traits := append_if (Py.contains "intro" t || Py.contains "quiet" t
                           || Py.contains "reserved" t) reserved_sentence traits in
  traits.

Definition analyze_personality_text (personality_text : string) : string :=
  let t := Py.lower personality_text in
  let traits := personality_traits t in
  match traits with
  | [] => no_signal_sentence
  | _ => Py.join " " traits
  end.

(** ** The data model (the default structure of [load_data], and the dicts
       built by [create_book], [create_master_character] and the other
       create branches) *)

Module Profile.
(** A value of [book_char_profiles]. *)
Record t := mk { role_in_book : string; notes : string }.
(** [{"role_in_book": "", "notes": ""}] *)
Definition empty : t := mk "" "".
End Profile.

Module Event.
(** An entry of a book's [timeline]. *)
Record t := mk { when : string; desc : string }.
End Event.

Module Book.
Record t := mk {
  id : string;
  title : string;
  number : option Z;
  logline : string;
  planned_length : option Z;
  plot_outline : list string;
  characters : list string;
  book_char_profiles : gmap string Profile.t;
  timeline : list Event.t;
  themes : list string;
  created_at : string
}.

Definition set_characters (cs : list string) (b : t) : t :=
  mk (id b) (title b) (number b) (logline b) (planned_length b) (plot_outline b)
     cs (book_char_profiles b) (timeline b) (themes b) (created_at b).

Definition set_book_char_profiles (ps : gmap string Profile.t) (b : t) : t :=
  mk (id b) (title b) (number b) (logline b) (planned_length b) (plot_outline b)
     (characters b) ps (timeline b) (themes b) (created_at b).

Definition set_basic_info (ti : string) (nu : option Z) (lo : string) (b : t) : t :=
  mk (id b) ti nu lo (planned_length b) (plot_outline b)
     (characters b) (book_char_profiles b) (timeline b) (themes b) (created_at b).
End Book.

Module Character.
Record t := mk {
  id : string;
  name : string;
  role : string;
  personality : string;
  personality_analysis : string;
  series_arc : string;
  notes : string;
  created_at : string
}.
End Character.

Module Location.
Record t := mk {
  id : string;
  name : string;
  brief : string;
  evolution : string;
  created_at : string
}.
End Location.

Module Lore.
Record t := mk {
  id : string;
  title : string;
  summary : string;
  created_at : string
}.
End Lore.

Module MasterEvent.
(** An entry of the master timeline. *)
Record t := mk { when : string; desc : string; book_id : option string }.
End MasterEvent.

Module Series.
Record t := mk {
  title : string;
  genre : string;
  logline : string;
  planned_books : option Z;
  interconnection_style : string;
  protagonist_overall_arc : string;
  updated_at : string
}.
End Series.

Module Master.
Record t := mk {
  characters : list Character.t;
  locations : list Location.t;
  lore : list Lore.t
}.
End Master.

Module Meta.
Record t := mk { created_at : string }.
End Meta.

(** The root document, [data] in the source. *)
Record document := mkDocument {
  meta : Meta.t;
  series : option Series.t;
  books : list Book.t;
  master : Master.t;
  timeline : list MasterEvent.t
}.

Definition set_books (bs : list Book.t) (data : document) : document :=
  mkDocument (meta data) (series data) bs (master data) (timeline data).

Definition set_master (m : Master.t) (data : document) : document :=
  mkDocument (meta data) (series data) (books data) m (timeline data).

Definition set_master_characters (cs : list Character.t) (data : document) : document :=
  set_master (Master.mk cs (Master.locations (master data)) (Master.lore (master data))) data.

Definition set_master_locations (ls : list Location.t) (data : document) : document :=
  set_master (Master.mk (Master.characters (master data)) ls (Master.lore (master data))) data.

Definition set_master_lore (ls : list Lore.t) (data : document) : document :=
  set_master (Master.mk (Master.characters (master data)) (Master.locations (master data)) ls) data.

(** The default structure of [load_data] (lines 41-47). *)
Definition default_document (iso : string) : document :=
  mkDocument (Meta.mk iso) None [] (Master.mk [] [] []) [].

(** ** Selection from a numbered list (lines 54-69)

    [answer] is the line read at the prompt; with an empty list nothing is
    read and the result is [None]. *)
Definition choose_from_list (items : list string) (answer : string) : option nat :=
  match items with
  | [] => None
  | _ =>
      let s := Py.strip answer in
      if String.eqb s "" then None
      else match Py.int s with
           | None => None
           | Some n =>
               let idx := n - 1 in
               if ((0 <=? idx) && (idx <? Z.of_nat (length items)))%bool
               then Some (Z.to_nat idx) else None
           end
  end.

(** ** Books (lines 163-186, 267-275) *)

(** [int(x) if x.isdigit() else default] on ASCII text and with [int]
    without a limit on the digits. There [int] does not raise on a text that
    [isdigit] accepts, see [int_of_isdigit], and the inner default is never
    taken. With the interpreter's own builtins [int] can raise here; that
    call is [int_if_isdigit_run] below. *)
Definition int_if_isdigit (x : string) (default : option Z) : option Z :=
  if Py.isdigit x
  then match Py.int x with Some n => Some n | None => default end
  else default.

(** [x or default] on strings. *)
Definition or_keep (x default : string) : string :=
  if String.eqb x "" then default else x.

Definition create_book (data : document)
    (title_in number_in brief_in planned_length_in : string)
    (ts : Z) (iso : string) : document :=
  let title := Py.strip title_in in
  let number := int_if_isdigit (Py.strip number_in) None in
  let brief := Py.strip brief_in in
  let planned_length := int_if_isdigit (Py.strip planned_length_in) None in
  let book :=
    Book.mk ("book_" +:+ Py.str_int (Z.of_nat (length (books data)) + 1) +:+ "_" +:+ Py.str_int ts)
            title number brief planned_length [] [] ∅ [] [] iso in
  set_books (books data ++ [book]) data.

(** [edit_book_basic_info] on the book itself, on ASCII text; the three
    answers are used as typed, without stripping. With the interpreter's own
    builtins the call is [edit_basic_info_run] below. *)
Definition edit_basic_info (book : Book.t) (title_in num_in logline_in : string) : Book.t :=
  let title := or_keep title_in (Book.title book) in
  let number := int_if_isdigit num_in (Book.number book) in
  let logline := or_keep logline_in (Book.logline book) in
  Book.set_basic_info title number logline book.

(** [edit_book_basic_info(data, book)], the book being [data["books"][bidx]]. *)
Definition edit_book_basic_info (data : document) (bidx : nat)
    (title_in num_in logline_in : string) : document :=
  match books data !! bidx with
  | Some book => set_books (<[bidx := edit_basic_info book title_in num_in logline_in]> (books data)) data
  | None => data
  end.

(** ** Editing the basic information with the interpreter's own builtins
       (lines 267-275)

    [str.isdigit] and [int] are builtins of the interpreter. On text outside
    ASCII and on long texts they do more than [Py.isdigit] and [Py.int]:
    [isdigit] holds of the digits of every script and of characters such as
    the superscript two, on which [int] raises ValueError, and since
    Python 3.11 [int] raises ValueError on a text of more than
    [sys.int_max_str_digits] digits, 4300 unless configured. Line 272 calls
    [int] without a handler, after line 270 has replaced the title. The
    functions of this section take the two builtins as they are, whatever
    they answer, and keep the exception. *)

Module Builtins.

Record t : Type := mk {
  isdigit : string -> bool;     (* [s.isdigit()] *)
  int : string -> option Z      (* [int(s)]; [None] stands for ValueError *)
}.

End Builtins.

(** The value of an expression, or the ValueError that it raises. *)
Inductive result (A : Type) : Type :=
| Value (a : A)
| ValueError.

Arguments Value {A} a.
Arguments ValueError {A}.

(** How a call on an object ends: it returns, or a ValueError leaves it;
    both times with the object as the call has made it by then. *)
Inductive outcome (A : Type) : Type :=
| Returned (a : A)
| Raised (a : A).

Arguments Returned {A} a.
Arguments Raised {A} a.

(** [int(x) if x.isdigit() else default] *)
Definition int_if_isdigit_run (py : Builtins.t) (x : string) (default : option Z)
    : result (option Z) :=
  if Builtins.isdigit py x
  then match Builtins.int py x with
       | Some n => Value (Some n)
       | None => ValueError
       end
  else Value default.

(** [edit_book_basic_info] on the book itself. The title is assigned first
    (line 270); a ValueError of line 272 leaves the call before the number and
    the logline are assigned, and before [save_data]. *)
Definition edit_basic_info_run (py : Builtins.t) (book : Book.t)
    (title_in num_in logline_in : string) : outcome Book.t :=
  let title := or_keep title_in (Book.title book) in
  match int_if_isdigit_run py num_in (Book.number book) with
  | ValueError => Raised (Book.set_basic_info title (Book.number book) (Book.logline book) book)
  | Value number =>
      let logline := or_keep logline_in (Book.logline book) in
      Returned (Book.set_basic_info title number logline book)
  end.

(** The builtins on ASCII text without a limit on the digits: there [int]
    does not raise on a text that [isdigit] accepts, and
    [edit_basic_info_run] is [edit_basic_info]. *)
Definition ascii_builtins : Builtins.t := Builtins.mk Py.isdigit Py.int.




(** ** Master characters (lines 377-404) *)

Definition create_master_character (data : document)
    (name_in role_in personality_in series_arc_in notes_in : string)
    (ts : Z) (iso : string) : document :=
  let name := Py.strip name_in in
  let role := Py.strip role_in in
  let personality := Py.strip personality_in in
  let series_arc := Py.strip series_arc_in in
  let notes := Py.strip notes_in in
  let cid := "char_" +:+ Py.str_int (Z.of_nat (length (Master.characters (master data))) + 1)
                     +:+ "_" +:+ Py.str_int ts in
  let character :=
    Character.mk cid name role personality (analyze_personality_text personality)
                 series_arc notes iso in
  set_master_characters (Master.characters (master data) ++ [character]) data.

Fixpoint find_master_character_in (cs : list Character.t) (cid : string) : option Character.t :=
  match cs with
  | [] => None
  | c :: cs' => if String.eqb (Character.id c) cid then Some c else find_master_character_in cs' cid
  end.

Definition find_master_character (data : document) (cid : string) : option Character.t :=
  find_master_character_in (Master.characters (master data)) cid.

(** [x in l] for a list of strings. *)
Definition str_in (x : string) (l : list string) : bool :=
  existsb (String.eqb x) l.

(** [l.remove(x)]: drops the first occurrence ([x] is known to occur where the
    source calls it). *)
Fixpoint list_remove_first (x : string) (l : list string) : list string :=
  match l with
  | [] => []
  | y :: l' => if String.eqb y x then l' else y :: list_remove_first x l'
  end.

(** The body of the loop over the books in the delete branch (lines 446-448). *)
Definition remove_reference (cid : string) (b : Book.t) : Book.t :=
  if str_in cid (Book.characters b)
  then Book.set_book_char_profiles (delete cid (Book.book_char_profiles b))
         (Book.set_characters (list_remove_first cid (Book.characters b)) b)
  else b.

(** Branch [4] of [manage_master_characters] (lines 438-450) once an index
    has been chosen: [pop(idx)], then the loop over the books. *)
Definition delete_master_character_at (data : document) (idx : nat) : document :=
  match Master.characters (master data) !! idx with
  | None => data
  | Some c =>
      let data := set_master_characters (delete idx (Master.characters (master data))) data in
      set_books (map (remove_reference (Character.id c)) (books data)) data
  end.

(** Branch [4] of [manage_master_characters] with the answer typed at the
    selection prompt. *)
Definition delete_master_character (data : document) (answer : string) : document :=
  let names := map (fun c => Character.name c +:+ " (" +:+ Character.role c +:+ ")")
                   (Master.characters (master data)) in
  match choose_from_list names answer with
  | None => data
  | Some idx => delete_master_character_at data idx
  end.

(** ** Master locations and lore: create and delete branches
       (lines 472-485, 497-504, 527-533, 544-551) *)

Definition create_master_location (data : document)
    (name_in brief_in evolution_in : string) (ts : Z) (iso : string) : document :=
  let name := Py.strip name_in in
  let brief := Py.strip brief_in in
  let evolution := Py.strip evolution_in in
  let lid := "loc_" +:+ Py.str_int (Z.of_nat (length (Master.locations (master data))) + 1)
                    +:+ "_" +:+ Py.str_int ts in
  set_master_locations (Master.locations (master data) ++ [Location.mk lid name brief evolution iso]) data.

Definition delete_master_location (data : document) (answer : string) : document :=
  let names := map Location.name (Master.locations (master data)) in
  match choose_from_list names answer with
  | None => data
  | Some idx => set_master_locations (delete idx (Master.locations (master data))) data
  end.

Definition create_master_lore (data : document)
    (title_in summary_in : string) (ts : Z) (iso : string) : document :=
  let title := Py.strip title_in in
  let summary := Py.strip summary_in in
  let lid := "lore_" +:+ Py.str_int (Z.of_nat (length (Master.lore (master data))) + 1)
                     +:+ "_" +:+ Py.str_int ts in
  set_master_lore (Master.lore (master data) ++ [Lore.mk lid title summary iso]) data.

Definition delete_master_lore (data : document) (answer : string) : document :=
  let names := map Lore.title (Master.lore (master data)) in
  match choose_from_list names answer with
  | None => data
  | Some idx => set_master_lore (delete idx (Master.lore (master data))) data
  end.

(** ** Book characters (lines 281-351), one function per menu branch; the
       book is [data["books"][bidx]]. *)

(** Branch [2]: add a master character to the book. *)
Definition add_existing_character (data : document) (bidx : nat) (answer : string) : document :=
  match books data !! bidx with
  | None => data
  | Some book =>
      match choose_from_list (map Character.name (Master.characters (master data))) answer with
      | None => data
      | Some idx =>
          match Master.characters (master data) !! idx with
          | None => data
          | Some c =>
              let cid := Character.id c in
              if negb (str_in cid (Book.characters book))
              then
                let profiles :=
                  match Book.book_char_profiles book !! cid with
                  | Some _ => Book.book_char_profiles book
                  | None => <[cid := Profile.empty]> (Book.book_char_profiles book)
                  end in
                let book' := Book.set_book_char_profiles profiles
                               (Book.set_characters (Book.characters book ++ [cid]) book) in
                set_books (<[bidx := book']> (books data)) data
              else data
          end
      end
  end.

(** Branch [3], labelled "Create new master character and add it" in the
    menu: the two statements [create_master_character(data)] and
    [save_data(data)]. The book is not mentioned by either. *)
Definition create_and_add_character (data : document) (bidx : nat)
    (name_in role_in personality_in series_arc_in notes_in : string)
    (ts : Z) (iso : string) : document :=
  create_master_character data name_in role_in personality_in series_arc_in notes_in ts iso.

(** Branch [4]: edit the profile that the book keeps for one of its
    characters; an empty answer keeps the field. *)
Definition edit_book_character_profile (data : document) (bidx : nat)
    (answer role_in notes_in : string) : document :=
  match books data !! bidx with
  | None => data
  | Some book =>
      let names := map (fun cid => match find_master_character data cid with
                                   | Some m => Character.name m
                                   | None => "(missing:" +:+ cid +:+ ")"
                                   end) (Book.characters book) in
      match choose_from_list names answer with
      | None => data
      | Some sel =>
          match Book.characters book !! sel with
          | None => data
          | Some cid =>
              let profile := match Book.book_char_profiles book !! cid with
                             | Some p => p
                             | None => Profile.empty
                             end in
              let profile' := Profile.mk (or_keep role_in (Profile.role_in_book profile))
                                         (or_keep notes_in (Profile.notes profile)) in
              let book' := Book.set_book_char_profiles
                             (<[cid := profile']> (Book.book_char_profiles book)) book in
              set_books (<[bidx := book']> (books data)) data
          end
      end
  end.

(** Branch [5]: remove a character from the book. *)
Definition remove_book_character (data : document) (bidx : nat) (answer : string) : document :=
  match books data !! bidx with
  | None => data
  | Some book =>
      let names := map (fun cid => match find_master_character data cid with
                                   | Some m => Character.name m
                                   | None => "(missing:" +:+ cid +:+ ")"
                                   end) (Book.characters book) in
      match choose_from_list names answer with
      | None => data
      | Some sel =>
          match Book.characters book !! sel with
          | None => data
          | Some cid =>
              let book' := Book.set_book_char_profiles (delete cid (Book.book_char_profiles book))
                             (Book.set_characters (delete sel (Book.characters book)) book) in
              set_books (<[bidx := book']> (books data)) data
          end
      end
  end.

(** ** What the program shows

    [Print s] is [print(s)], [Pretty text indent] is [pretty(text, indent)],
    the call that hands [text] to [textwrap.fill]. *)
Inductive out :=
| Print (s : string)
| Pretty (text : string) (indent : nat).

(** The line feed that opens several messages. *)
Definition nl : string := String "010"%char EmptyString.

(** ** Continuity check (lines 640-666) *)

(** The two kinds of entry of [issues], with the values that their f-strings
    interpolate:
    - "Book '{b['title']}' references missing master character id {cid}"
    - "Multiple master characters share name '{name}' with ids {ids} —
      possible duplication." *)
Inductive issue :=
| MissingCharacter (book_title cid : string)
| SharedName (name : string) (ids : list string).

(** [{c["id"]: c for c in data["master"]["characters"]}] *)
Definition master_ids (cs : list Character.t) : gmap string Character.t :=
  foldl (fun m c => <[Character.id c := c]> m) ∅ cs.

(** The inner loop over [b["characters"]]. *)
Definition missing_in_book (ids : gmap string Character.t) (b : Book.t) : list issue :=
  flat_map (fun cid => match ids !! cid with
                       | None => [MissingCharacter (Book.title b) cid]
                       | Some _ => []
                       end) (Book.characters b).

(** [name_to_ids.setdefault(key, []).append(cid)] on a dict kept in insertion
    order. *)
Fixpoint setdefault_append (key cid : string) (d : list (string * list string))
    : list (string * list string) :=
  match d with
  | [] => [(key, [cid])]
  | (k, ids) :: d' =>
      if String.eqb k key then (k, ids ++ [cid]) :: d'
      else (k, ids) :: setdefault_append key cid d'
  end.

Definition name_to_ids (cs : list Character.t) : list (string * list string) :=
  foldl (fun d c => setdefault_append (Py.lower (Character.name c)) (Character.id c) d) [] cs.

(** The loop over [name_to_ids.items()]. *)
Definition shared_names (d : list (string * list string)) : list issue :=
  flat_map (fun entry => if (1 <? length (snd entry))%nat
                         then [SharedName (fst entry) (snd entry)] else []) d.

(** The list [issues] that [continuity_check] builds; it then prints one
    line per issue, or the no-issue line when the list is empty. *)
Definition continuity_check (data : document) : list issue :=
  let cs := Master.characters (master data) in
  let ids := master_ids cs in
  flat_map (missing_in_book ids) (books data) ++ shared_names (name_to_ids cs).

(** ** Thematic cohesion (lines 694-714) *)

(** [d.get(key, default)] on a dict kept in insertion order. *)
Fixpoint dict_get (d : list (string * nat)) (key : string) (default : nat) : nat :=
  match d with
  | [] => default
  | (k, n) :: d' => if String.eqb k key then n else dict_get d' key default
  end.

(** [d[key] = v]: an existing key keeps its place, a new key goes last. *)
Fixpoint dict_set (d : list (string * nat)) (key : string) (v : nat) : list (string * nat) :=
  match d with
  | [] => [(key, v)]
  | (k, n) :: d' =>
      if String.eqb k key then (k, v) :: d' else (k, n) :: dict_set d' key v
  end.

(** [theme_counts[key] = theme_counts.get(key, 0) + 1] *)
Definition bump (key : string) (d : list (string * nat)) : list (string * nat) :=
  dict_set d key (dict_get d key 0 + 1)%nat.

Definition theme_counts (bs : list Book.t) : list (string * nat) :=
  foldl (fun d b => foldl (fun d t => bump (Py.lower t) d) d (Book.themes b)) [] bs.

(** [cnt < total_books / 2], the quotient being the exact one. *)
Definition below_half (cnt total_books : nat) : bool :=
  negb (Qle_bool (inject_Z (Z.of_nat total_books) / inject_Z 2)
                 (inject_Z (Z.of_nat cnt))).

Definition total_books (data : document) : nat := Nat.max 1 (length (books data)).

(** The list [missing] of line 709. *)
Definition missing_themes (data : document) : list string :=
  map fst (filter (fun entry => below_half (snd entry) (total_books data) = true)
                  (theme_counts (books data))).

Definition no_themes_message : string :=
  "No themes recorded across books. Consider tagging themes for each book.".
Definition weak_themes_message : string :=
  "Some themes are not strong across the series; consider reinforcing themes that define your series identity.".
Definition consistent_themes_message : string :=
  nl +:+ "Observations: Themes appear consistently across books (as far as recorded).".

Definition thematic_cohesion (data : document) : list out :=
  let counts := theme_counts (books data) in
  Print (nl +:+ "--- Thematic Cohesion Analysis ---") ::
  match counts with
  | [] => [Print no_themes_message]
  | _ =>
      Print "Themes and coverage across books:" ::
      map (fun entry => Print ("- " +:+ fst entry +:+ ": appears in "
                               +:+ Py.str_int (Z.of_nat (snd entry)) +:+ " book(s)")) counts ++
      match missing_themes data with
      | [] => [Print consistent_themes_message]
      | _ => [Print (nl +:+ "Observations:"); Pretty weak_themes_message 2]
      end
  end.

(** ** The Oracle's advice (lines 740-775) *)

Definition oracle_header : list out :=
  [ Print (nl +:+ "--- The Oracle's Advice ---");
    Print "Type a focused query like:";
    Print "  - 'What conflicts could arise between [Character A] and [Character B]?'";
    Print "  - 'How can I escalate stakes in Book 2?'";
    Print "Or type 'examples' to see quick prompts." ].

Definition conflict_template (a b : string) : list out :=
  [ Print (nl +:+ "Possible conflicts between " +:+ a +:+ " and " +:+ b +:+ ":");
    Pretty ("1) Clashing motivations: " +:+ a +:+ " wants X while " +:+ b
            +:+ " needs Y, forcing them to collide.") 2;
    Pretty "2) Past secret revealed: one holds a secret that undermines trust." 2;
    Pretty "3) Resource/goal competition: both pursue the same scarce resource or position." 2;
    Pretty "Consider aligning conflict to your series themes for stronger cohesion." 2 ].

Definition no_two_names_message : string :=
  "I couldn't identify two character names from the master codex in your query. Try writing both character names exactly as they are in Master Characters.".

Definition escalation_template : list out :=
  [ Print (nl +:+ "Ways to escalate stakes:");
    Pretty "- Personal stakes: threaten what the protagonist values most (relationships, reputation, self-image)." 2;
    Pretty "- Societal stakes: push the world toward a tipping point (war, famine, collapse)." 2;
    Pretty "- Moral stakes: force character to choose between two bad options, revealing values." 2;
    Pretty "- Reveal a costly secret that changes goals and alliances." 2 ].

Definition general_advice : list out :=
  [ Print (nl +:+ "General advice:");
    Pretty "Use contrasts: pair proactive characters with reactive ones. Use consequences: each choice should change the world irreversibly. If unsure, describe a scene and I can offer targeted edits." 2 ].

(** [[name for name in char_names if name.lower() in qlower]] *)
Definition mentioned (data : document) (qlower : string) : list string :=
  let char_names := map Character.name (Master.characters (master data)) in
  filter (fun name => Py.contains (Py.lower name) qlower = true) char_names.

(** What [oracles_advice] prints after the header; [line] is the line typed at
    the prompt. The list [words] of line 754 is never read and is left out. *)
Definition oracle_response (data : document) (line : string) : list out :=
  let q := Py.strip line in
  if String.eqb q "" then [Print "No query entered."]
  else
    let qlower := Py.lower q in
    if (Py.contains "conflict" qlower && Py.contains "between" qlower)%bool then
      match mentioned data qlower with
      | a :: b :: _ => conflict_template a b
      | _ => [Print no_two_names_message]
      end
    else if (Py.contains "escalate" qlower || Py.contains "escalation" qlower
             || Py.contains "stakes" qlower)%bool then escalation_template
    else general_advice.

Definition oracles_advice (data : document) (line : string) : list out :=
  oracle_header ++ oracle_response data line.

(** ** The JSON text of a document ([json.dump] and [json.load])

    [save_data] and [load_data] hand the document to Python's [json] module.
    The module is modelled here on the values a document is made of: [None],
    booleans, integers, strings, lists, and dicts with string keys. A dict is
    a list of members in insertion order. Numbers with a fraction or an
    exponent do not occur in a document; a text that holds one is outside the
    model, and [loads] answers [None] for it as it does for a malformed text. *)

Module Json.

#[warnings="-register-all"]
Inductive value :=
| Null
| Bool (b : bool)
| Int (n : Z)
| Str (s : string)
| Arr (items : list value)
| Obj (members : list (string * value)).

(** The double quote and the backslash. *)
Definition dq : ascii := "034"%char.
Definition bs : ascii := "092"%char.

(** One lower-case hexadecimal digit. *)
Definition hex_digit (n : nat) : ascii :=
  if (n <? 10)%nat then ascii_of_nat (48 + n) else ascii_of_nat (87 + n).

(** The replacement of one character inside a string literal, as
    [ensure_ascii=False] does it: the quote, the backslash and the control
    characters are escaped, everything else is copied. *)
Definition escape_char (c : ascii) : string :=
  let n := nat_of_ascii c in
  if Ascii.eqb c dq then String bs (String dq EmptyString)
  else if Ascii.eqb c bs then String bs (String bs EmptyString)
  else if (n =? 10)%nat then String bs "n"
  else if (n =? 13)%nat then String bs "r"
  else if (n =? 9)%nat then String bs "t"
  else if (n =? 8)%nat then String bs "b"
  else if (n =? 12)%nat then String bs "f"
  else if (n <? 32)%nat
       then String bs (String "u" (String "0" (String "0"
              (String (hex_digit (n / 16)) (String (hex_digit (n mod 16)) EmptyString)))))
  else String c EmptyString.

Fixpoint escape (s : string) : string :=
  match s with
  | EmptyString => EmptyString
  | String c s' => escape_char c +:+ escape s'
  end.

(** A string literal. *)
Definition encode_str (s : string) : string :=
  String dq (escape s +:+ String dq EmptyString).

(** A line feed followed by the indentation of [level]. *)
Fixpoint spaces (n : nat) : string :=
  match n with
  | O => EmptyString
  | S n' => String " " (spaces n')
  end.

Definition newline_indent (level : nat) : string :=
  String "010"%char (spaces (2 * level)).

(** The items of a non-empty list after the first one, and the closing
    bracket on a line of its own; [dump] writes one item. *)
Definition dumps_items (dump : value -> string) (level : nat) : list value -> string :=
  fix rest (l : list value) : string :=
    match l with
    | [] => newline_indent level +:+ "]"
    | y :: l' => "," +:+ newline_indent (S level) +:+ dump y +:+ rest l'
    end.

(** The same for the members of a dict. *)
Definition dumps_members (dump : value -> string) (level : nat)
    : list (string * value) -> string :=
  fix rest (l : list (string * value)) : string :=
    match l with
    | [] => newline_indent level +:+ "}"
    | kv :: l' =>
        "," +:+ newline_indent (S level) +:+ encode_str (fst kv) +:+ ": "
        +:+ dump (snd kv) +:+ rest l'
    end.

(** [json.dumps(v, indent=2, ensure_ascii=False)] for a value that stands
    [level] containers deep. An empty list is "[]" and an empty dict is
    "{}"; otherwise every item stands on a line of its own, items are
    separated by "," and a key is followed by ": ". *)
Fixpoint dumps_at (level : nat) (v : value) : string :=
  match v with
  | Null => "null"
  | Bool true => "true"
  | Bool false => "false"
  | Int n => Py.str_int n
  | Str s => encode_str s
  | Arr [] => "[]"
  | Arr (x :: items) =>
      "[" +:+ newline_indent (S level) +:+ dumps_at (S level) x +:+
      dumps_items (dumps_at (S level)) level items
  | Obj [] => "{}"
  | Obj (kv :: members) =>
      "{" +:+ newline_indent (S level) +:+ encode_str (fst kv) +:+ ": "
      +:+ dumps_at (S level) (snd kv) +:+
      dumps_members (dumps_at (S level)) level members
  end.

Definition dumps (v : value) : string := dumps_at 0 v.

(** *** Reading *)

(** The white space between tokens: space, tab, line feed, carriage
    return. *)
Definition is_ws (c : ascii) : bool :=
  let n := nat_of_ascii c in
  ((n =? 32)%nat || (n =? 9)%nat || (n =? 10)%nat || (n =? 13)%nat)%bool.

Fixpoint skip_ws (s : string) : string :=
  match s with
  | EmptyString => EmptyString
  | String c s' => if is_ws c then skip_ws s' else s
  end.

Definition hex_val (c : ascii) : option nat :=
  let n := nat_of_ascii c in
  if ((48 <=? n) && (n <=? 57))%nat then Some (n - 48)%nat
  else if ((97 <=? n) && (n <=? 102))%nat then Some (n - 87)%nat
  else if ((65 <=? n) && (n <=? 70))%nat then Some (n - 55)%nat
  else None.

(** The character that follows a backslash, for the one-letter escapes. *)
Definition unescape (e : ascii) : option ascii :=
  if Ascii.eqb e dq then Some dq
  else if Ascii.eqb e bs then Some bs
  else if Ascii.eqb e "/" then Some "/"%char
  else if Ascii.eqb e "b" then Some "008"%char
  else if Ascii.eqb e "f" then Some "012"%char
  else if Ascii.eqb e "n" then Some "010"%char
  else if Ascii.eqb e "r" then Some "013"%char
  else if Ascii.eqb e "t" then Some "009"%char
  else None.

Definition prepend (c : ascii) (r : option (string * string)) : option (string * string) :=
  match r with
  | Some (x, rest) => Some (String c x, rest)
  | None => None
  end.

(** The body of a string literal, after its opening quote: the decoded
    string and the text after the closing quote. A control character must be
    escaped; a [\uXXXX] escape is decoded when it names an ASCII character
    (others are outside the model). *)
Fixpoint scanstring (s : string) : option (string * string) :=
  match s with
  | EmptyString => None
  | String c s' =>
      if Ascii.eqb c dq then Some (EmptyString, s')
      else if Ascii.eqb c bs then
        match s' with
        | EmptyString => None
        | String e s'' =>
            if Ascii.eqb e "u" then
              match s'' with
              | String h1 (String h2 (String h3 (String h4 s3))) =>
                  match hex_val h1, hex_val h2, hex_val h3, hex_val h4 with
                  | Some a, Some b, Some c', Some d =>
                      let n := (((a * 16 + b) * 16 + c') * 16 + d)%nat in
                      if (n <? 128)%nat then prepend (ascii_of_nat n) (scanstring s3) else None
                  | _, _, _, _ => None
                  end
              | _ => None
              end
            else
              match unescape e with
              | Some ch => prepend ch (scanstring s'')
              | None => None
              end
        end
      else if (nat_of_ascii c <? 32)%nat then None
      else prepend c (scanstring s')
  end.

(** A run of digits, read into [acc]. *)
Fixpoint read_digits (acc : N) (s : string) : N * string :=
  match s with
  | EmptyString => (acc, s)
  | String c s' =>
      match Py.digit_val c with
      | Some d => read_digits (10 * acc + Z.to_N d) s'
      | None => (acc, s)
      end
  end.

(** The integer part of a number: "0", or a digit from 1 to 9 followed by
    digits. *)
Definition scan_nat (s : string) : option (N * string) :=
  match s with
  | EmptyString => None
  | String c s' =>
      match Py.digit_val c with
      | Some d => if (d =? 0)%Z then Some (0%N, s') else Some (read_digits (Z.to_N d) s')
      | None => None
      end
  end.

(** The text goes on with a fraction or an exponent. *)
Definition float_tail (s : string) : bool :=
  match s with
  | EmptyString => false
  | String c _ => (Ascii.eqb c "." || Ascii.eqb c "e" || Ascii.eqb c "E")%bool
  end.

Definition scan_number (s : string) : option (value * string) :=
  match s with
  | EmptyString => None
  | String c s' =>
      if Ascii.eqb c "-" then
        match scan_nat s' with
        | Some (n, rest) => if float_tail rest then None else Some (Int (- Z.of_N n), rest)
        | None => None
        end
      else
        match scan_nat s with
        | Some (n, rest) => if float_tail rest then None else Some (Int (Z.of_N n), rest)
        | None => None
        end
  end.

(** [s] without the prefix [p], when it starts with [p]. *)
Fixpoint strip_prefix (p s : string) : option string :=
  match p, s with
  | EmptyString, _ => Some s
  | String _ _, EmptyString => None
  | String a p', String b s' => if Ascii.eqb a b then strip_prefix p' s' else None
  end.

(** [dict(pairs)]: a key that comes again keeps its place and takes the new
    value. *)
Fixpoint dict_put (k : string) (v : value) (d : list (string * value)) : list (string * value) :=
  match d with
  | [] => [(k, v)]
  | (k', v') :: d' => if String.eqb k' k then (k', v) :: d' else (k', v') :: dict_put k v d'
  end.

Definition dict_of_pairs (pairs : list (string * value)) : list (string * value) :=
  foldl (fun d kv => dict_put (fst kv) (snd kv) d) [] pairs.

(** One value at the start of [s]; the items of a list after "["; the
    members of a dict after "{". [fuel] bounds the nesting and the number of
    items, [loads] gives the length of the text. *)
Fixpoint parse_value (fuel : nat) (s : string) : option (value * string) :=
  match fuel with
  | O => None
  | S fuel =>
      match s with
      | EmptyString => None
      | String c s' =>
          if Ascii.eqb c "n" then option_map (pair Null) (strip_prefix "ull" s')
          else if Ascii.eqb c "t" then option_map (pair (Bool true)) (strip_prefix "rue" s')
          else if Ascii.eqb c "f" then option_map (pair (Bool false)) (strip_prefix "alse" s')
          else if Ascii.eqb c dq then
            match scanstring s' with
            | Some (x, rest) => Some (Str x, rest)
            | None => None
            end
          else if Ascii.eqb c "[" then
            match skip_ws s' with
            | EmptyString => None
            | String c1 s1 =>
                if Ascii.eqb c1 "]" then Some (Arr [], s1)
                else match parse_items fuel (String c1 s1) with
                     | Some (l, rest) => Some (Arr l, rest)
                     | None => None
                     end
            end
          else if Ascii.eqb c "{" then
            match skip_ws s' with
            | EmptyString => None
            | String c1 s1 =>
                if Ascii.eqb c1 "}" then Some (Obj [], s1)
                else match parse_members fuel (String c1 s1) with
                     | Some (l, rest) => Some (Obj (dict_of_pairs l), rest)
                     | None => None
                     end
            end
          else scan_number s
      end
  end
with parse_items (fuel : nat) (s : string) : option (list value * string) :=
  match fuel with
  | O => None
  | S fuel =>
      match parse_value fuel s with
      | None => None
      | Some (v, r) =>
          match skip_ws r with
          | EmptyString => None
          | String c r' =>
              if Ascii.eqb c "," then
                match parse_items fuel (skip_ws r') with
                | Some (l, rest) => Some (v :: l, rest)
                | None => None
                end
              else if Ascii.eqb c "]" then Some ([v], r')
              else None
          end
      end
  end
with parse_members (fuel : nat) (s : string) : option (list (string * value) * string) :=
  match fuel with
  | O => None
  | S fuel =>
      match s with
      | EmptyString => None
      | String c s' =>
          if Ascii.eqb c dq then
            match scanstring s' with
            | None => None
            | Some (k, r) =>
                match skip_ws r with
                | EmptyString => None
                | String c1 r1 =>
                    if Ascii.eqb c1 ":" then
                      match parse_value fuel (skip_ws r1) with
                      | None => None
                      | Some (v, r2) =>
                          match skip_ws r2 with
                          | EmptyString => None
                          | String c2 r3 =>
                              if Ascii.eqb c2 "," then
                                match parse_members fuel (skip_ws r3) with
                                | Some (l, rest) => Some ((k, v) :: l, rest)
                                | None => None
                                end
                              else if Ascii.eqb c2 "}" then Some ([(k, v)], r3)
                              else None
                          end
                      end
                    else None
                end
            end
          else None
      end
  end.

(** [json.loads(text)]: one value, with white space allowed around it and
    nothing else after it. *)
Definition loads (text : string) : option value :=
  match parse_value (S (String.length text)) (skip_ws text) with
  | Some (v, rest) =>
      match skip_ws rest with
      | EmptyString => Some v
      | String _ _ => None
      end
  | None => None
  end.

End Json.

(** ** The document as the JSON value that the program holds

    In the source the document is the dict itself; here [to_json] gives the
    dict of a document of the data model, with the keys of the source in the
    order of its dict literals. The members of [book_char_profiles] are
    listed in the order of the map. *)

Definition json_opt_int (o : option Z) : Json.value :=
  match o with
  | Some n => Json.Int n
  | None => Json.Null
  end.

Definition json_opt_str (o : option string) : Json.value :=
  match o with
  | Some s => Json.Str s
  | None => Json.Null
  end.

Definition json_strs (l : list string) : Json.value := Json.Arr (map Json.Str l).

Definition profile_to_json (p : Profile.t) : Json.value :=
  Json.Obj [("role_in_book", Json.Str (Profile.role_in_book p));
            ("notes", Json.Str (Profile.notes p))].

Definition event_to_json (e : Event.t) : Json.value :=
  Json.Obj [("when", Json.Str (Event.when e)); ("desc", Json.Str (Event.desc e))].

Definition profiles_to_json (m : gmap string Profile.t) : Json.value :=
  Json.Obj (map (fun kp => (fst kp, profile_to_json (snd kp))) (map_to_list m)).

Definition book_to_json (b : Book.t) : Json.value :=
  Json.Obj [("id", Json.Str (Book.id b));
            ("title", Json.Str (Book.title b));
            ("number", json_opt_int (Book.number b));
            ("logline", Json.Str (Book.logline b));
            ("planned_length", json_opt_int (Book.planned_length b));
            ("plot_outline", json_strs (Book.plot_outline b));
            ("characters", json_strs (Book.characters b));
            ("book_char_profiles", profiles_to_json (Book.book_char_profiles b));
            ("timeline", Json.Arr (map event_to_json (Book.timeline b)));
            ("themes", json_strs (Book.themes b));
            ("created_at", Json.Str (Book.created_at b))].

Definition character_to_json (c : Character.t) : Json.value :=
  Json.Obj [("id", Json.Str (Character.id c));
            ("name", Json.Str (Character.name c));
            ("role", Json.Str (Character.role c));
            ("personality", Json.Str (Character.personality c));
            ("personality_analysis", Json.Str (Character.personality_analysis c));
            ("series_arc", Json.Str (Character.series_arc c));
            ("notes", Json.Str (Character.notes c));
            ("created_at", Json.Str (Character.created_at c))].

Definition location_to_json (l : Location.t) : Json.value :=
  Json.Obj [("id", Json.Str (Location.id l));
            ("name", Json.Str (Location.name l));
            ("brief", Json.Str (Location.brief l));
            ("evolution", Json.Str (Location.evolution l));
            ("created_at", Json.Str (Location.created_at l))].

Definition lore_to_json (l : Lore.t) : Json.value :=
  Json.Obj [("id", Json.Str (Lore.id l));
            ("title", Json.Str (Lore.title l));
            ("summary", Json.Str (Lore.summary l));
            ("created_at", Json.Str (Lore.created_at l))].

Definition master_event_to_json (e : MasterEvent.t) : Json.value :=
  Json.Obj [("when", Json.Str (MasterEvent.when e));
            ("desc", Json.Str (MasterEvent.desc e));
            ("book_id", json_opt_str (MasterEvent.book_id e))].

Definition series_to_json (s : Series.t) : Json.value :=
  Json.Obj [("title", Json.Str (Series.title s));
            ("genre", Json.Str (Series.genre s));
            ("logline", Json.Str (Series.logline s));
            ("planned_books", json_opt_int (Series.planned_books s));
            ("interconnection_style", Json.Str (Series.interconnection_style s));
            ("protagonist_overall_arc", Json.Str (Series.protagonist_overall_arc s));
            ("updated_at", Json.Str (Series.updated_at s))].

Definition master_to_json (m : Master.t) : Json.value :=
  Json.Obj [("characters", Json.Arr (map character_to_json (Master.characters m)));
            ("locations", Json.Arr (map location_to_json (Master.locations m)));
            ("lore", Json.Arr (map lore_to_json (Master.lore m)))].

Definition to_json (data : document) : Json.value :=
  Json.Obj [("meta", Json.Obj [("created_at", Json.Str (Meta.created_at (meta data)))]);
            ("series", match series data with
                       | Some s => series_to_json s
                       | None => Json.Null
                       end);
            ("books", Json.Arr (map book_to_json (books data)));
            ("master", master_to_json (master data));
            ("timeline", Json.Arr (map master_event_to_json (timeline data)))].

(** ** Persistence (lines 33-51)

    The state of the file [DATA_FILE]: [None] while it does not exist, its
    text otherwise. *)
Definition disk : Type := option string.

(** [save_data(data)]: the file is opened for writing and receives the text
    of the whole document. *)
Definition save_data (data : document) (d : disk) : disk :=
  Some (Json.dumps (to_json data)).

(** [load_data()]: the value it returns and the state of the file
    afterwards; [None] when [json.load] fails. [iso] is the clock reading
    used when the default document is made. *)
Definition load_data (iso : string) (d : disk) : option (Json.value * disk) :=
  match d with
  | None =>
      let data := default_document iso in
      Some (to_json data, save_data data d)
  | Some text =>
      match Json.loads text with
      | Some v => Some (v, d)
      | None => None
      end
  end.

(** ** Further operations of the program

    The functions of [newfile.py] that the sections above do not need. *)

Definition set_series (s : option Series.t) (data : document) : document :=
  mkDocument (meta data) s (books data) (master data) (timeline data).

Definition set_timeline (t : list MasterEvent.t) (data : document) : document :=
  mkDocument (meta data) (series data) (books data) (master data) t.

Definition set_plot_outline (beats : list string) (b : Book.t) : Book.t :=
  Book.mk (Book.id b) (Book.title b) (Book.number b) (Book.logline b) (Book.planned_length b)
          beats (Book.characters b) (Book.book_char_profiles b) (Book.timeline b)
          (Book.themes b) (Book.created_at b).

Definition set_book_timeline (evs : list Event.t) (b : Book.t) : Book.t :=
  Book.mk (Book.id b) (Book.title b) (Book.number b) (Book.logline b) (Book.planned_length b)
          (Book.plot_outline b) (Book.characters b) (Book.book_char_profiles b) evs
          (Book.themes b) (Book.created_at b).

(** [edit_series_overview] (lines 122-158): [choice] is the answer at the
    menu, the six other answers are read only when the choice is "1". *)
Definition edit_series_overview (data : document)
    (choice title_in genre_in logline_in num_books_in inter_in arc_in : string)
    (iso : string) : document :=
  if String.eqb (Py.strip choice) "1" then
    set_series (Some (Series.mk (Py.strip title_in) (Py.strip genre_in) (Py.strip logline_in)
                                (int_if_isdigit (Py.strip num_books_in) None)
                                (Py.strip inter_in) (Py.strip arc_in) iso)) data
  else data.

(** The label of a book in [select_book_index] (line 193):
    "{title or '<untitled>'} (num:{number})". *)
Definition book_label (b : Book.t) : string :=
  or_keep (Book.title b) "<untitled>" +:+ " (num:" +:+
  match Book.number b with
  | Some n => Py.str_int n
  | None => "None"
  end +:+ ")".

(** [select_book_index] (lines 189-195). *)
Definition select_book_index (data : document) (answer : string) : option nat :=
  match books data with
  | [] => None
  | _ => choose_from_list (map book_label (books data)) answer
  end.

(** [manage_book_plot] (lines 243-264): [c_in] is the answer at the menu,
    [line] the answer at the prompt that follows (the beat as typed, or the
    selection). *)
Definition manage_book_plot (data : document) (bidx : nat) (c_in line : string) : document :=
  match books data !! bidx with
  | None => data
  | Some book =>
      let c := Py.strip c_in in
      if String.eqb c "1" then
        set_books (<[bidx := set_plot_outline (Book.plot_outline book ++ [line]) book]>
                     (books data)) data
      else if String.eqb c "2" then
        match choose_from_list (Book.plot_outline book) line with
        | Some i =>
            set_books (<[bidx := set_plot_outline (delete i (Book.plot_outline book)) book]>
                         (books data)) data
        | None => data
        end
      else data
  end.

(** The label of an event of a book (line 580). *)
Definition event_label (e : Event.t) : string :=
  Event.when e +:+ ": " +:+ Event.desc e.

(** [manage_book_timeline] (lines 561-586): with "1" the two lines are the
    date and the description, with "2" the first line is the selection. *)
Definition manage_book_timeline (data : document) (bidx : nat) (c_in line1 line2 : string)
    : document :=
  match books data !! bidx with
  | None => data
  | Some book =>
      let c := Py.strip c_in in
      if String.eqb c "1" then
        let ev := Event.mk (Py.strip line1) (Py.strip line2) in
        set_books (<[bidx := set_book_timeline (Book.timeline book ++ [ev]) book]>
                     (books data)) data
      else if String.eqb c "2" then
        match Book.timeline book with
        | [] => data
        | _ =>
            match choose_from_list (map event_label (Book.timeline book)) line1 with
            | Some idx =>
                set_books (<[bidx := set_book_timeline (delete idx (Book.timeline book)) book]>
                             (books data)) data
            | None => data
            end
        end
      else data
  end.

(** The label of an event of the master timeline (lines 615, 625). *)
Definition master_event_label (e : MasterEvent.t) : string :=
  MasterEvent.when e +:+ " - " +:+ MasterEvent.desc e.

(** [x or None] on a string. *)
Definition or_none (x : string) : option string :=
  if String.eqb x "" then None else Some x.

(** Branch [1] of [manage_master_timeline] (lines 605-611). *)
Definition add_master_event (data : document) (when_in desc_in book_id_in : string) : document :=
  let ev := MasterEvent.mk (Py.strip when_in) (Py.strip desc_in) (or_none (Py.strip book_id_in)) in
  set_timeline (timeline data ++ [ev]) data.

(** Branch [2] of [manage_master_timeline] (lines 612-623); the answers are
    used as typed. *)
Definition edit_master_event (data : document) (answer when_in desc_in book_id_in : string)
    : document :=
  match timeline data with
  | [] => data
  | _ =>
      match choose_from_list (map master_event_label (timeline data)) answer with
      | None => data
      | Some idx =>
          match timeline data !! idx with
          | None => data
          | Some e =>
              let e' := MasterEvent.mk (or_keep when_in (MasterEvent.when e))
                                       (or_keep desc_in (MasterEvent.desc e))
                                       (if String.eqb book_id_in "" then MasterEvent.book_id e
                                        else Some book_id_in) in
              set_timeline (<[idx := e']> (timeline data)) data
          end
      end
  end.

(** Branch [3] of [manage_master_timeline] (lines 624-630). *)
Definition remove_master_event (data : document) (answer : string) : document :=
  match choose_from_list (map master_event_label (timeline data)) answer with
  | None => data
  | Some idx => set_timeline (delete idx (timeline data)) data
  end.

(** Branch [3] of [manage_master_characters] (lines 424-437); the answers are
    used as typed, and the analysis is computed again. *)
Definition edit_master_character (data : document)
    (answer name_in role_in personality_in series_arc_in notes_in : string) : document :=
  let names := map (fun c => Character.name c +:+ " (" +:+ Character.role c +:+ ")")
                   (Master.characters (master data)) in
  match choose_from_list names answer with
  | None => data
  | Some idx =>
      match Master.characters (master data) !! idx with
      | None => data
      | Some char =>
          let personality := or_keep personality_in (Character.personality char) in
          let char' :=
            Character.mk (Character.id char)
                         (or_keep name_in (Character.name char))
                         (or_keep role_in (Character.role char))
                         personality
                         (analyze_personality_text personality)
                         (or_keep series_arc_in (Character.series_arc char))
                         (or_keep notes_in (Character.notes char))
                         (Character.created_at char) in
          set_master_characters (<[idx := char']> (Master.characters (master data))) data
      end
  end.

(** Branch [3] of [manage_master_locations] (lines 486-496). *)
Definition edit_master_location (data : document)
    (answer name_in brief_in evolution_in : string) : document :=
  match choose_from_list (map Location.name (Master.locations (master data))) answer with
  | None => data
  | Some idx =>
      match Master.locations (master data) !! idx with
      | None => data
      | Some loc =>
          let loc' := Location.mk (Location.id loc)
                                  (or_keep name_in (Location.name loc))
                                  (or_keep brief_in (Location.brief loc))
                                  (or_keep evolution_in (Location.evolution loc))
                                  (Location.created_at loc) in
          set_master_locations (<[idx := loc']> (Master.locations (master data))) data
      end
  end.

(** Branch [3] of [manage_master_lore] (lines 534-543). *)
Definition edit_master_lore (data : document) (answer title_in summary_in : string) : document :=
  match choose_from_list (map Lore.title (Master.lore (master data))) answer with
  | None => data
  | Some idx =>
      match Master.lore (master data) !! idx with
      | None => data
      | Some l =>
          let l' := Lore.mk (Lore.id l) (or_keep title_in (Lore.title l))
                            (or_keep summary_in (Lore.summary l)) (Lore.created_at l) in
          set_master_lore (<[idx := l']> (Master.lore (master data))) data
      end
  end.

(** What [choose_from_list] prints before it reads the answer (lines 55-59):
    "(none)" for an empty list, else one numbered line per item. *)
Fixpoint numbered_from (i : nat) (items : list string) : list out :=
  match items with
  | [] => []
  | it :: items' =>
      Print ("  [" +:+ Py.str_int (Z.of_nat i) +:+ "] " +:+ it) :: numbered_from (S i) items'
  end.

Definition choose_from_list_shown (items : list string) : list out :=
  match items with
  | [] => [Print "  (none)"]
  | _ => numbered_from 1 items
  end.

(** The list [appearances] of [character_arc_report] (lines 681-685): for
    every book that refers to the character, the title of the book and the
    role and notes of its profile, empty when there is no profile. *)
Definition appearances (data : document) (cid : string) : list (string * string * string) :=
  flat_map (fun b =>
              if str_in cid (Book.characters b) then
                match Book.book_char_profiles b !! cid with
                | Some prof => [(Book.title b, Profile.role_in_book prof, Profile.notes prof)]
                | None => [(Book.title b, "", "")]
                end
              else []) (books data).

Definition not_assigned_message : string := "(Character not assigned to any book yet.)".

(** [character_arc_report] (lines 669-691): everything it prints. *)
Definition character_arc_report (data : document) (answer : string) : list out :=
  let names := map Character.name (Master.characters (master data)) in
  Print (nl +:+ "--- Character Arc Report ---") :: choose_from_list_shown names ++
  match choose_from_list names answer with
  | None => []
  | Some idx =>
      match Master.characters (master data) !! idx with
      | None => []
      | Some c =>
          [ Print (nl +:+ "Character: " +:+ Character.name c);
            Print ("Master role: " +:+ Character.role c);
            Print ("Series arc: " +:+ Character.series_arc c);
            Print ("Personality analysis: " +:+ Character.personality_analysis c) ] ++
          match appearances data (Character.id c) with
          | [] => [Print not_assigned_message]
          | apps =>
              Print "Appearances by book:" ::
              map (fun a => Print ("- " +:+ fst (fst a) +:+ ": role: " +:+ snd (fst a)
                                   +:+ "; notes: " +:+ snd a)) apps
          end
      end
  end.

(** The list [issues] of [book_specific_analysis] (lines 784-788). *)
Definition book_issues (book : Book.t) : list string :=
  (match Book.plot_outline book with [] => ["No plot outline recorded."] | _ => [] end) ++
  (match Book.characters book with [] => ["No characters assigned to this book."] | _ => [] end).

Definition skeleton_message : string :=
  "This book has a skeleton outline and characters. Quick suggestions:".

(** [book_specific_analysis] (lines 781-796): everything it prints. *)
Definition book_specific_analysis (book : Book.t) : list out :=
  Print (nl +:+ "--- Book Analysis: " +:+ Book.title book +:+ " ---") ::
  match book_issues book with
  | [] =>
      [ Print skeleton_message;
        Print "- Ensure each major plot beat affects at least one character's arc.";
        Print "- Check that book-specific timeline events align with series timeline (Master Timeline)." ]
  | issues => Print "Observations:" :: map (fun it => Print ("- " +:+ it)) issues
  end.

(** ** The menus as a whole

    Every statement of [newfile.py] that changes the document sits in one of
    the branches modelled above. An [action] is one run of such a branch,
    with the lines typed at its prompts and the readings of the clock; the
    menus ([run_cli], [manage_book], [book_submenu], [view_master_codex] and
    the loops of the master menus) run them one after the other on the same
    document. A book is named by its position, which no branch changes. *)
Inductive action : Type :=
| EditSeriesOverview (choice title genre logline num_books inter arc : string) (iso : string)
| CreateBook (title number brief planned_length : string) (ts : Z) (iso : string)
| EditBookBasicInfo (bidx : nat) (title num logline : string)
| ManageBookPlot (bidx : nat) (c line : string)
| ManageBookTimeline (bidx : nat) (c line1 line2 : string)
| AddExistingCharacter (bidx : nat) (answer : string)
| CreateAndAddCharacter (bidx : nat) (name role personality series_arc notes : string)
                        (ts : Z) (iso : string)
| EditBookCharacterProfile (bidx : nat) (answer role notes : string)
| RemoveBookCharacter (bidx : nat) (answer : string)
| CreateMasterCharacter (name role personality series_arc notes : string) (ts : Z) (iso : string)
| EditMasterCharacter (answer name role personality series_arc notes : string)
| DeleteMasterCharacter (answer : string)
| CreateMasterLocation (name brief evolution : string) (ts : Z) (iso : string)
| EditMasterLocation (answer name brief evolution : string)
| DeleteMasterLocation (answer : string)
| CreateMasterLore (title summary : string) (ts : Z) (iso : string)
| EditMasterLore (answer title summary : string)
| DeleteMasterLore (answer : string)
| AddMasterEvent (when desc book_id : string)
| EditMasterEvent (answer when desc book_id : string)
| RemoveMasterEvent (answer : string).

Definition perform (data : document) (a : action) : document :=
  match a with
  | EditSeriesOverview c t g l n i p iso => edit_series_overview data c t g l n i p iso
  | CreateBook t n b p ts iso => create_book data t n b p ts iso
  | EditBookBasicInfo bidx t n l => edit_book_basic_info data bidx t n l
  | ManageBookPlot bidx c line => manage_book_plot data bidx c line
  | ManageBookTimeline bidx c l1 l2 => manage_book_timeline data bidx c l1 l2
  | AddExistingCharacter bidx answer => add_existing_character data bidx answer
  | CreateAndAddCharacter bidx n r p a o ts iso =>
      create_and_add_character data bidx n r p a o ts iso
  | EditBookCharacterProfile bidx answer r n => edit_book_character_profile data bidx answer r n
  | RemoveBookCharacter bidx answer => remove_book_character data bidx answer
  | CreateMasterCharacter n r p a o ts iso => create_master_character data n r p a o ts iso
  | EditMasterCharacter answer n r p a o => edit_master_character data answer n r p a o
  | DeleteMasterCharacter answer => delete_master_character data answer
  | CreateMasterLocation n b e ts iso => create_master_location data n b e ts iso
  | EditMasterLocation answer n b e => edit_master_location data answer n b e
  | DeleteMasterLocation answer => delete_master_location data answer
  | CreateMasterLore t s ts iso => create_master_lore data t s ts iso
  | EditMasterLore answer t s => edit_master_lore data answer t s
  | DeleteMasterLore answer => delete_master_lore data answer
  | AddMasterEvent w d b => add_master_event data w d b
  | EditMasterEvent answer w d b => edit_master_event data answer w d b
  | RemoveMasterEvent answer => remove_master_event data answer
  end.

(** The document after a list of actions. *)
Definition session (data : document) (acts : list action) : document :=
  foldl perform data acts.

(** ** Notions used to state the properties *)

(** Every character id that a book refers to is the id of a master
    character. *)
Definition references_resolve (data : document) : Prop :=
  forall b cid, b ∈ books data -> cid ∈ Book.characters b ->
    exists c, c ∈ Master.characters (master data) /\ Character.id c = cid.

(** No two master characters have the same name. *)
Definition names_unique (data : document) : Prop :=
  NoDup (map Character.name (Master.characters (master data))).

(** No two master characters have names that are equal once lower-cased. *)
Definition names_unique_ignoring_case (data : document) : Prop :=
  NoDup (map (fun c => Py.lower (Character.name c)) (Master.characters (master data))).

(** The reference list of a book holds no id twice, and the profile map has
    entries for referenced ids only. The book-character menu keeps both. *)
Definition book_in_sync (b : Book.t) : Prop :=
  NoDup (Book.characters b) /\
  forall cid, is_Some (Book.book_char_profiles b !! cid) -> cid ∈ Book.characters b.

(** Every book of the document has a reference list and a profile map that
    agree. *)
Definition books_in_sync (data : document) : Prop :=
  forall b, b ∈ books data -> book_in_sync b.

(** How many tags of a list are [t] once lower-cased. *)
Definition occ_tags (t : string) (tags : list string) : nat :=
  length (filter (fun tag => Py.lower tag = t) tags).

(** How many theme tags, over all books, are [t] once lower-cased. *)
Definition occurrences (t : string) (bs : list Book.t) : nat :=
  occ_tags t (flat_map Book.themes bs).

(** The dict that the two nested loops of [thematic_cohesion] build, when the
    tags of all books are read as one list. *)
Definition count_tags (tags : list string) : list (string * nat) :=
  foldl (fun d t => bump (Py.lower t) d) [] tags.

(** A JSON value whose dicts have no key twice, as every Python dict has. *)
#[warnings="-register-all"]
Inductive distinct_keys : Json.value -> Prop :=
| wf_Null : distinct_keys Json.Null
| wf_Bool b : distinct_keys (Json.Bool b)
| wf_Int n : distinct_keys (Json.Int n)
| wf_Str s : distinct_keys (Json.Str s)
| wf_Arr l : Forall distinct_keys l -> distinct_keys (Json.Arr l)
| wf_Obj m :
    NoDup (map fst m) -> Forall (fun kv => distinct_keys (snd kv)) m ->
    distinct_keys (Json.Obj m).

(** What may follow a number in a JSON text: no digit, no fraction, no
    exponent. *)
Definition number_end (s : string) : Prop :=
  match s with
  | EmptyString => True
  | String c _ => Py.digit_val c = None /\ Json.float_tail s = false
  end.

(** The first character of a written value: no white space, no closing
    bracket. *)
Definition value_start (c : ascii) : Prop :=
  Json.is_ws c = false /\ Ascii.eqb c "]" = false /\ Ascii.eqb c "}" = false.

(** With fuel for its text, the reader gives the value back and stops right
    after the text. *)
Definition reads_back (v : Json.value) : Prop :=
  forall fuel level rest,
    (String.length (Json.dumps_at level v) <= fuel)%nat -> number_end rest ->
    Json.parse_value fuel (Json.dumps_at level v +:+ rest) = Some (v, rest).

(** The analysis stored with every master character is the analysis of its
    personality text. *)
Definition analysis_current (data : document) : Prop :=
  forall c, c ∈ Master.characters (master data) ->
    Character.personality_analysis c = analyze_personality_text (Character.personality c).

(** The id of the book at position [i] starts with "book_", the number
    [i + 1] and "_", as [create_book] writes it. *)
Definition book_ids_positional (data : document) : Prop :=
  forall i b, books data !! i = Some b ->
    exists ts, Book.id b = "book_" +:+ Py.str_int (Z.of_nat i + 1) +:+ "_" +:+ Py.str_int ts.

(** No book has a theme tag. *)
Definition no_themes (data : document) : Prop :=
  forall b, b ∈ books data -> Book.themes b = [].



(** The number of ids listed in the dict of names. *)
Fixpoint total_ids (d : list (string * list string)) : nat :=
  match d with
  | [] => 0%nat
  | (_, ids) :: d' => (length ids + total_ids d')%nat
  end.

(** ** Sample data *)

Definition sample_book : Book.t :=
  Book.mk "book_1_1700000000" "The Start" (Some 1) "A beginning." None [] [] ∅ [] []
          "2023-11-14T22:13:20".

Definition sample_document : document :=
  create_book (default_document "2023-11-14T22:13:20") "The Start" "1" "A beginning." ""
              1700000000 "2023-11-14T22:13:20".

(** One master character, and a book that refers to it twice. *)
Definition sample_character : Character.t :=
  Character.mk "char_1_1700000000" "Ava" "Hero" "kind" agreeable_sentence "" ""
               "2023-11-14T22:13:20".



(** The character, referred to once by a book that holds its profile. *)
Definition referenced_document : document :=
  mkDocument (Meta.mk "2023-11-14T22:13:20") None
    [Book.set_book_char_profiles {[ "char_1_1700000000" := Profile.empty ]}
       (Book.set_characters ["char_1_1700000000"] sample_book)]
    (Master.mk [sample_character] [] []) [].

(** Two master characters whose names differ in case only, and no book. *)
Definition rex_document : document :=
  create_master_character
    (create_master_character (default_document "2023-11-14T22:13:20")
       "Rex" "Hero" "" "" "" 1700000000 "2023-11-14T22:13:20")
    "rex" "Rival" "" "" "" 1700000005 "2023-11-14T22:13:25".

(** The name of a master character occurs in the lower-cased query, case
    being ignored. *)
Definition occurs_in (qlower name : string) : Prop :=
  Py.contains (Py.lower name) qlower = true.

#[global] Instance occurs_in_dec (qlower name : string) : Decision (occurs_in qlower name).
Proof. unfold occurs_in. apply _. Defined.

(** "Ava" created before "Kade". *)
Definition ava_kade_document : document :=
  create_master_character
    (create_master_character (default_document "2023-11-14T22:13:20")
       "Ava" "Hero" "" "" "" 1700000000 "2023-11-14T22:13:20")
    "Kade" "Rival" "" "" "" 1700000005 "2023-11-14T22:13:25".

(** Two master characters that are both called "Ava". *)
Definition two_avas_document : document :=
  create_master_character
    (create_master_character (default_document "2023-11-14T22:13:20")
       "Ava" "Hero" "" "" "" 1700000000 "2023-11-14T22:13:20")
    "Ava" "Rival" "" "" "" 1700000005 "2023-11-14T22:13:25".

(** Four books; "betrayal" is a theme of the second one only, "hope" of
    the first three. *)
Definition with_themes (ts : list string) (b : Book.t) : Book.t :=
  Book.mk (Book.id b) (Book.title b) (Book.number b) (Book.logline b) (Book.planned_length b)
          (Book.plot_outline b) (Book.characters b) (Book.book_char_profiles b)
          (Book.timeline b) ts (Book.created_at b).

Definition four_books_document : document :=
  mkDocument (Meta.mk "2023-11-14T22:13:20") None
    [with_themes ["Hope"] sample_book; with_themes ["hope"; "Betrayal"] sample_book;
     with_themes ["HOPE"] sample_book; with_themes [] sample_book]
    (Master.mk [] [] []) [].



(** "Ava" is created, a book is created, and "Ava" is added to the book. *)
Definition ava_in_book_document : document :=
  add_existing_character
    (create_book
       (create_master_character (default_document "2023-11-14T22:13:20")
          "Ava" "Hero" "" "" "" 1700000000 "2023-11-14T22:13:20")
       "The Start" "" "" "" 1700000001 "2023-11-14T22:13:21")
    0 "1".


(** * Properties *)

(** ** Facts about the text primitives *)

Section TextFacts.

Lemma append_cons c a b : String c a +:+ b = String c (a +:+ b).
Proof. reflexivity. Qed.

Lemma append_nil_r s : s +:+ "" = s.
Proof. induction s as [|c s IH]; [reflexivity|]. rewrite append_cons, IH. reflexivity. Qed.

Lemma append_assoc a b c : (a +:+ b) +:+ c = a +:+ b +:+ c.
Proof.
  induction a as [|x a IH]; [reflexivity|].
  rewrite !append_cons, IH. reflexivity.
Qed.

Lemma startswith_append p s : Py.startswith p (p +:+ s) = true.
Proof.
  induction p as [|c p IH]; [reflexivity|].
  rewrite append_cons. simpl. rewrite Ascii.eqb_refl. exact IH.
Qed.

Lemma startswith_inv p s : Py.startswith p s = true -> exists r, s = p +:+ r.
Proof.
  revert s. induction p as [|c p IH]; intros s H.
  - exists s. reflexivity.
  - destruct s as [|d s]; [discriminate|]. simpl in H.
    apply andb_true_iff in H as [Hc Hp].
    apply Ascii.eqb_eq in Hc as ->.
    destruct (IH _ Hp) as [r ->]. exists r. reflexivity.
Qed.

Lemma contains_intro a n b : Py.contains n (a +:+ n +:+ b) = true.
Proof.
  induction a as [|c a IH].
  - change ("" +:+ n +:+ b) with (n +:+ b).
    destruct (n +:+ b) eqn:E; simpl; rewrite <- E, startswith_append; reflexivity.
  - rewrite append_cons. simpl. rewrite IH. apply orb_true_r.
Qed.

Lemma contains_inv n h : Py.contains n h = true -> exists a b, h = a +:+ n +:+ b.
Proof.
  induction h as [|c h IH]; simpl; intros H.
  - rewrite orb_false_r in H. apply startswith_inv in H as [r ->].
    exists "", r. reflexivity.
  - apply orb_true_iff in H as [H|H].
    + apply startswith_inv in H as [r ->]. exists "", r. reflexivity.
    + destruct (IH H) as (a & b & ->). exists (String c a), b. reflexivity.
Qed.

Lemma contains_spec n h : Py.contains n h = true <-> exists a b, h = a +:+ n +:+ b.
Proof.
  split; [apply contains_inv|]. intros (a & b & ->). apply contains_intro.
Qed.

Lemma contains_refl s : Py.contains s s = true.
Proof.
  apply contains_spec. exists "", "". change ("" +:+ s +:+ "") with (s +:+ "").
  symmetry. apply append_nil_r.
Qed.

Lemma contains_trans a b c :
  Py.contains a b = true -> Py.contains b c = true -> Py.contains a c = true.
Proof.
  intros (x & y & ->)%contains_spec (u & v & ->)%contains_spec.
  apply contains_spec. exists (u +:+ x), (y +:+ v).
  rewrite !append_assoc. reflexivity.
Qed.

Lemma lower_append a b : Py.lower (a +:+ b) = Py.lower a +:+ Py.lower b.
Proof.
  induction a as [|c a IH]; [reflexivity|].
  rewrite append_cons. simpl. rewrite IH. reflexivity.
Qed.

Lemma contains_lower n h :
  Py.contains n h = true -> Py.contains (Py.lower n) (Py.lower h) = true.
Proof.
  intros (a & b & ->)%contains_spec. rewrite !lower_append. apply contains_intro.
Qed.

Lemma join_cons sep x y l : Py.join sep (x :: y :: l) = x +:+ sep +:+ Py.join sep (y :: l).
Proof. reflexivity. Qed.

Lemma contains_join sep x l : In x l -> Py.contains x (Py.join sep l) = true.
Proof.
  induction l as [|y l IH]; [intros []|].
  intros [->|Hin].
  - destruct l as [|z l].
    + apply contains_refl.
    + rewrite join_cons. apply (contains_intro "").
  - destruct l as [|z l]; [destruct Hin|].
    rewrite join_cons. specialize (IH Hin).
    apply contains_spec in IH as (a & b & ->).
    apply contains_spec. exists (y +:+ sep +:+ a), b.
    rewrite !append_assoc. reflexivity.
Qed.

End TextFacts.

(** ** Personality analysis *)

Lemma in_append_if_new c s l : c = true -> In s (append_if c s l).
Proof. intros ->. unfold append_if. apply in_or_app. right. left. reflexivity. Qed.

Lemma in_append_if_old c s x l : In x l -> In x (append_if c s l).
Proof. intros H. unfold append_if. destruct c; [apply in_or_app; left|]; exact H. Qed.

(** Whatever was appended stays in the final list of traits. *)
Lemma conscientious_in_traits t :
  (Py.contains "conscientious" t || Py.contains "conscientiousness" t
   || Py.contains "organized" t)%bool = true ->
  In conscientious_sentence (personality_traits t).
Proof.
  intros H. unfold personality_traits.
  do 6 apply in_append_if_old. apply in_append_if_new. exact H.
Qed.

Lemma agreeable_in_traits t :
  (Py.contains "agreeable" t || Py.contains "kind" t || Py.contains "friendly" t)%bool = true ->
  In agreeable_sentence (personality_traits t).
Proof.
  intros H. unfold personality_traits.
  do 5 apply in_append_if_old. apply in_append_if_new. exact H.
Qed.

Lemma low_agreeable_in_traits t :
  (Py.contains "low agree" t || Py.contains "not agreeable" t || Py.contains "blunt" t)%bool = true ->
  In low_agreeable_sentence (personality_traits t).
Proof.
  intros H. unfold personality_traits.
  do 4 apply in_append_if_old. apply in_append_if_new. exact H.
Qed.

(** A trait that was collected is a part of the returned text. *)
Lemma analyze_contains_trait text s :
  In s (personality_traits (Py.lower text)) ->
  Py.contains s (analyze_personality_text text) = true.
Proof.
  intros H. unfold analyze_personality_text.
  destruct (personality_traits (Py.lower text)) as [|x l] eqn:E; [destruct H|].
  apply contains_join. exact H.
Qed.

(** The keyword may be typed in any case: the test is made on the lower-cased
    text. *)
Lemma organized_any_case text :
  Py.contains "organized" (Py.lower text) = true ->
  Py.contains conscientious_sentence (analyze_personality_text text) = true.
Proof.
  intros H. apply analyze_contains_trait, conscientious_in_traits.
  rewrite H. apply orb_true_r.
Qed.

(** C7. [analyze_personality_text] is a function of its input text alone:
    two calls on the same text return the same string; and a text that
    contains "organized" yields a string that contains the conscientiousness
    sentence, whatever else the text holds. *)
Theorem analyze_personality_text_pure_and_organized :
  (forall text1 text2 : string,
      text1 = text2 -> analyze_personality_text text1 = analyze_personality_text text2) /\
  (forall text : string,
      Py.contains "organized" text = true ->
      Py.contains conscientious_sentence (analyze_personality_text text) = true).
Proof.
  split.
  - intros text1 text2 ->. reflexivity.
  - intros text H. apply organized_any_case.
    apply contains_lower in H. exact H.
Qed.

Lemma analyze_personality_text_organized_witness :
  Py.contains "organized" "a kind but blunt, organized introvert" = true /\
  Py.contains conscientious_sentence
    (analyze_personality_text "a kind but blunt, organized introvert") = true.
Proof.
  split; [reflexivity|].
  apply (proj2 analyze_personality_text_pure_and_organized). reflexivity.
Defined.

(** C10. When the lower-cased text contains "not agreeable", the result
    contains the high-agreeableness sentence and the low-agreeableness
    sentence: the two tests are separate substring tests, and "agreeable"
    occurs inside "not agreeable". *)
Theorem not_agreeable_yields_both_sentences (text : string) :
  Py.contains "not agreeable" (Py.lower text) = true ->
  Py.contains agreeable_sentence (analyze_personality_text text) = true /\
  Py.contains low_agreeable_sentence (analyze_personality_text text) = true.
Proof.
  intros H. split; apply analyze_contains_trait.
  - apply agreeable_in_traits.
    assert (Hsub : Py.contains "agreeable" "not agreeable" = true) by reflexivity.
    rewrite (contains_trans _ _ _ Hsub H). reflexivity.
  - apply low_agreeable_in_traits. rewrite H. rewrite orb_true_r. reflexivity.
Qed.

Lemma not_agreeable_yields_both_sentences_witness :
  Py.contains agreeable_sentence (analyze_personality_text "He is Not Agreeable at all") = true /\
  Py.contains low_agreeable_sentence (analyze_personality_text "He is Not Agreeable at all") = true.
Proof.
  apply (not_agreeable_yields_both_sentences "He is Not Agreeable at all"). reflexivity.
Defined.

(** ** Numbers typed at a prompt *)

Lemma digit_not_space c : Py.is_digit_char c = true -> Py.isspace c = false.
Proof. destruct c as [[] [] [] [] [] [] [] []]; vm_compute; congruence. Qed.

Lemma digit_not_sign c :
  Py.is_digit_char c = true -> Ascii.eqb c "-" = false /\ Ascii.eqb c "+" = false.
Proof. destruct c as [[] [] [] [] [] [] [] []]; vm_compute; intuition congruence. Qed.

Lemma digit_val_of_digit c : Py.is_digit_char c = true -> exists d, Py.digit_val c = Some d.
Proof. unfold Py.is_digit_char. destruct (Py.digit_val c) as [d|]; [eauto | discriminate]. Qed.

Lemma rstrip_all_digits s : Py.all_digits s = true -> Py.rstrip s = s.
Proof.
  induction s as [|c s IH]; [reflexivity|]. simpl.
  intros [Hc Hs]%andb_true_iff. rewrite (IH Hs).
  destruct s; [|reflexivity]. rewrite (digit_not_space _ Hc). reflexivity.
Qed.

Lemma strip_isdigit s : Py.isdigit s = true -> Py.strip s = s.
Proof.
  destruct s as [|c s]; [discriminate|]. simpl. intros H.
  assert (Hc : Py.is_digit_char c = true) by (apply andb_true_iff in H; tauto).
  unfold Py.strip. simpl Py.lstrip. rewrite (digit_not_space _ Hc).
  apply rstrip_all_digits. exact H.
Qed.

Lemma int_digits_all_digits s acc :
  Py.all_digits s = true -> Py.int_digits acc true s = Some (Py.digits_value acc s).
Proof.
  revert acc. induction s as [|c s IH]; intros acc; [reflexivity|]. simpl.
  intros [Hc Hs]%andb_true_iff. destruct (digit_val_of_digit _ Hc) as [d ->].
  apply IH, Hs.
Qed.

(** On a string of digits [int] succeeds, with the number the digits denote. *)
Lemma int_of_isdigit s : Py.isdigit s = true -> Py.int s = Some (Py.digits_value 0 s).
Proof.
  intros H. unfold Py.int. rewrite (strip_isdigit _ H).
  destruct s as [|c s]; [discriminate|]. simpl in H.
  apply andb_true_iff in H as [Hc Hs].
  destruct (digit_not_sign _ Hc) as [-> ->].
  simpl. destruct (digit_val_of_digit _ Hc) as [d ->].
  apply int_digits_all_digits, Hs.
Qed.

Lemma int_if_isdigit_spec x default :
  int_if_isdigit x default = if Py.isdigit x then Some (Py.digits_value 0 x) else default.
Proof.
  unfold int_if_isdigit. destruct (Py.isdigit x) eqn:E; [|reflexivity].
  rewrite (int_of_isdigit _ E). reflexivity.
Qed.


(** ** Editing the basic information of a book *)

(** On ASCII text the call with the builtins is the call of the model: it
    returns, and the book is the one that [edit_basic_info] gives. *)
Lemma edit_basic_info_run_ascii book title_in num_in logline_in :
  edit_basic_info_run ascii_builtins book title_in num_in logline_in
  = Returned (edit_basic_info book title_in num_in logline_in).
Proof.
  unfold edit_basic_info_run, edit_basic_info, int_if_isdigit_run, int_if_isdigit. simpl.
  destruct (Py.isdigit num_in) eqn:E; [|reflexivity].
  rewrite (int_of_isdigit _ E). reflexivity.
Qed.




(** The same edit seen from the document: the chosen book is replaced by the
    edited one and the other books stay. *)
Lemma edit_book_basic_info_lookup data bidx book title_in num_in logline_in :
  books data !! bidx = Some book ->
  books (edit_book_basic_info data bidx title_in num_in logline_in) !! bidx
    = Some (edit_basic_info book title_in num_in logline_in) /\
  forall j, j <> bidx ->
    books (edit_book_basic_info data bidx title_in num_in logline_in) !! j = books data !! j.
Proof.
  intros H. unfold edit_book_basic_info. rewrite H. simpl. split.
  - apply list_lookup_insert_eq. eapply lookup_lt_Some, H.
  - intros j Hj. apply list_lookup_insert_ne. congruence.
Qed.

(** ** Creating master entries *)

Lemma create_master_character_characters data name_in role_in personality_in series_arc_in notes_in ts iso :
  Master.characters (master (create_master_character data name_in role_in personality_in
                                                     series_arc_in notes_in ts iso))
  = Master.characters (master data) ++
    [Character.mk ("char_" +:+ Py.str_int (Z.of_nat (length (Master.characters (master data))) + 1)
                   +:+ "_" +:+ Py.str_int ts)
                  (Py.strip name_in) (Py.strip role_in) (Py.strip personality_in)
                  (analyze_personality_text (Py.strip personality_in))
                  (Py.strip series_arc_in) (Py.strip notes_in) iso].
Proof. reflexivity. Qed.

Lemma create_master_character_books data name_in role_in personality_in series_arc_in notes_in ts iso :
  books (create_master_character data name_in role_in personality_in series_arc_in notes_in ts iso)
  = books data.
Proof. reflexivity. Qed.

(** Branch [3] of the book-character menu changes no book at all, whatever
    is typed. *)
Lemma create_and_add_character_books data bidx name_in role_in personality_in series_arc_in notes_in ts iso :
  books (create_and_add_character data bidx name_in role_in personality_in series_arc_in
                                  notes_in ts iso)
  = books data.
Proof. reflexivity. Qed.

(** C1, the code at a failing input. In a document with one book, the menu
    entry "Create new master character and add it" creates the character
    "char_1_1700000001" in the master collection, and the book is left as it
    was: its reference list is still empty and its profile map has no entry
    for the new id. *)
Theorem create_and_add_character_does_not_add :
  let data' := create_and_add_character sample_document 0 "Ava" "Hero" "kind" "" ""
                                        1700000001 "2023-11-14T22:13:21" in
  map Character.id (Master.characters (master data')) = ["char_1_1700000001"] /\
  books data' = books sample_document /\
  map Book.characters (books data') = [[]] /\
  map (fun b => Book.book_char_profiles b !! "char_1_1700000001") (books data') = [None].
Proof. cbv zeta. repeat split; vm_compute; reflexivity. Qed.

(** C2, the code at a failing input. Two characters are created, the first
    one is deleted, and a third one is created, all within the second
    1700000000: the collection then has length 1 again, so the new id is
    "char_2_1700000000", the id that "Kade" already has. The same happens in
    the locations and in the lore collection. *)
Theorem create_after_delete_reuses_id :
  let iso := "2023-11-14T22:13:20" in
  let ts := 1700000000 in
  let d0 := default_document iso in
  let c1 := create_master_character d0 "Ava" "Hero" "" "" "" ts iso in
  let c2 := create_master_character c1 "Kade" "Rival" "" "" "" ts iso in
  let c3 := delete_master_character c2 "1" in
  let c4 := create_master_character c3 "Rex" "Mentor" "" "" "" ts iso in
  let l4 := create_master_location
              (delete_master_location
                 (create_master_location (create_master_location d0 "Keep" "" "" ts iso)
                                         "Port" "" "" ts iso) "1")
              "Moor" "" "" ts iso in
  let r4 := create_master_lore
              (delete_master_lore
                 (create_master_lore (create_master_lore d0 "Oath" "" ts iso) "Tide" "" ts iso) "1")
              "Rune" "" ts iso in
  map (fun c => (Character.id c, Character.name c)) (Master.characters (master c4))
    = [("char_2_1700000000", "Kade"); ("char_2_1700000000", "Rex")] /\
  map (fun l => (Location.id l, Location.name l)) (Master.locations (master l4))
    = [("loc_2_1700000000", "Port"); ("loc_2_1700000000", "Moor")] /\
  map (fun l => (Lore.id l, Lore.title l)) (Master.lore (master r4))
    = [("lore_2_1700000000", "Tide"); ("lore_2_1700000000", "Rune")].
Proof. cbv zeta. repeat split; vm_compute; reflexivity. Qed.

(** ** Deleting a master character *)

Lemma str_in_elem_of x (l : list string) : str_in x l = true <-> x ∈ l.
Proof.
  unfold str_in. rewrite existsb_exists, list_elem_of_In. split.
  - intros (y & Hy & ->%String.eqb_eq). exact Hy.
  - intros H. exists x. split; [exact H | apply String.eqb_refl].
Qed.

Lemma str_in_false x (l : list string) : str_in x l = false <-> x ∉ l.
Proof.
  rewrite <- str_in_elem_of. destruct (str_in x l); split; congruence.
Qed.

Lemma filter_other_id (x : string) (l : list string) : x ∉ l -> filter (fun y => y <> x) l = l.
Proof.
  induction l as [|y l IH]; [reflexivity|].
  intros [Hy Hl]%not_elem_of_cons.
  rewrite filter_cons_True by congruence. rewrite (IH Hl). reflexivity.
Qed.

(** With at most one occurrence, dropping the first occurrence drops them
    all and keeps the rest in order. *)
Lemma list_remove_first_NoDup x (l : list string) :
  NoDup l -> list_remove_first x l = filter (fun y => y <> x) l.
Proof.
  induction l as [|y l IH]; [reflexivity|].
  intros [Hy Hl]%NoDup_cons. simpl.
  destruct (String.eqb_spec y x) as [->|Hne].
  - rewrite filter_cons_False by (intros H; apply H; reflexivity).
    symmetry. apply filter_other_id, Hy.
  - rewrite filter_cons_True by exact Hne. rewrite (IH Hl). reflexivity.
Qed.

(** What the loop body does to a book whose list and map agree. *)
Lemma remove_reference_in_sync cid b :
  book_in_sync b ->
  Book.characters (remove_reference cid b) = filter (fun y => y <> cid) (Book.characters b) /\
  Book.book_char_profiles (remove_reference cid b) = delete cid (Book.book_char_profiles b).
Proof.
  intros [Hnd Hkeys]. unfold remove_reference.
  destruct (str_in cid (Book.characters b)) eqn:E; simpl.
  - split; [apply list_remove_first_NoDup, Hnd | reflexivity].
  - apply str_in_false in E. split.
    + symmetry. apply filter_other_id, E.
    + symmetry. apply delete_id.
      destruct (Book.book_char_profiles b !! cid) eqn:L; [|reflexivity].
      exfalso. apply E, Hkeys. rewrite L. eauto.
Qed.

(** The loop body touches the reference list and the profile map only. *)
Lemma remove_reference_frame cid b :
  Book.id (remove_reference cid b) = Book.id b /\
  Book.title (remove_reference cid b) = Book.title b /\
  Book.number (remove_reference cid b) = Book.number b /\
  Book.logline (remove_reference cid b) = Book.logline b /\
  Book.planned_length (remove_reference cid b) = Book.planned_length b /\
  Book.plot_outline (remove_reference cid b) = Book.plot_outline b /\
  Book.timeline (remove_reference cid b) = Book.timeline b /\
  Book.themes (remove_reference cid b) = Book.themes b /\
  Book.created_at (remove_reference cid b) = Book.created_at b.
Proof.
  unfold remove_reference. destruct (str_in cid (Book.characters b)); repeat split.
Qed.

(** A book that does not refer to the character is not touched. *)
Lemma remove_reference_unreferenced cid b :
  cid ∉ Book.characters b -> remove_reference cid b = b.
Proof. intros H%str_in_false. unfold remove_reference. rewrite H. reflexivity. Qed.

Lemma remove_reference_keeps_sync cid b :
  book_in_sync b -> book_in_sync (remove_reference cid b).
Proof.
  intros Hs. destruct (remove_reference_in_sync cid b Hs) as [Hc Hp].
  destruct Hs as [Hnd Hkeys]. split.
  - rewrite Hc. apply NoDup_filter, Hnd.
  - intros x. rewrite Hc, Hp. intros [p Hx].
    apply lookup_delete_Some in Hx as [Hne Hx].
    apply list_elem_of_filter. split; [congruence|]. apply Hkeys. eauto.
Qed.

Lemma choose_from_list_lt items answer idx :
  choose_from_list items answer = Some idx -> (idx < length items)%nat.
Proof.
  unfold choose_from_list. destruct items as [|x items]; [discriminate|].
  destruct (String.eqb (Py.strip answer) ""); [discriminate|].
  destruct (Py.int (Py.strip answer)) as [n|]; [|discriminate].
  destruct ((0 <=? n - 1) && (n - 1 <? Z.of_nat (length (x :: items))))%bool eqn:E; [|discriminate].
  intros [= <-]. apply andb_true_iff in E as [H0 H1].
  apply Z.leb_le in H0. apply Z.ltb_lt in H1. lia.
Qed.




(** ** The reference list and the profile map stay in agreement

    Every operation of the program keeps [books_in_sync], and the default
    document has it: the documents that the program itself produces satisfy
    the hypothesis under which deleting a master character cascades. *)

Lemma books_in_sync_default iso : books_in_sync (default_document iso).
Proof. intros b Hb. inversion Hb. Qed.

Lemma books_in_sync_insert data bidx book' :
  books_in_sync data -> book_in_sync book' ->
  books_in_sync (set_books (<[bidx := book']> (books data)) data).
Proof.
  intros Hs Hb b Hin. simpl in Hin.
  apply list_elem_of_lookup in Hin as [i Hi].
  apply list_lookup_insert_Some in Hi as [(_ & <- & _)|[_ Hi]]; [exact Hb|].
  apply Hs. eapply list_elem_of_lookup_2, Hi.
Qed.

Lemma books_in_sync_create_book data title_in number_in brief_in planned_length_in ts iso :
  books_in_sync data ->
  books_in_sync (create_book data title_in number_in brief_in planned_length_in ts iso).
Proof.
  intros Hs b Hin. unfold create_book in Hin. simpl in Hin.
  apply elem_of_app in Hin as [Hin|Hin]; [apply Hs, Hin|].
  apply list_elem_of_singleton in Hin as ->. split; simpl.
  - constructor.
  - intros cid [p Hp]. rewrite lookup_empty in Hp. discriminate.
Qed.

Lemma book_in_sync_edit_basic_info book title_in num_in logline_in :
  book_in_sync book -> book_in_sync (edit_basic_info book title_in num_in logline_in).
Proof. intros H. exact H. Qed.

Lemma books_in_sync_edit_book_basic_info data bidx title_in num_in logline_in :
  books_in_sync data ->
  books_in_sync (edit_book_basic_info data bidx title_in num_in logline_in).
Proof.
  intros Hs. unfold edit_book_basic_info.
  destruct (books data !! bidx) as [book|] eqn:E; [|exact Hs].
  apply books_in_sync_insert; [exact Hs|].
  apply book_in_sync_edit_basic_info, Hs. eapply list_elem_of_lookup_2, E.
Qed.

Lemma books_in_sync_add_existing_character data bidx answer :
  books_in_sync data -> books_in_sync (add_existing_character data bidx answer).
Proof.
  intros Hs. unfold add_existing_character.
  destruct (books data !! bidx) as [book|] eqn:E; [|exact Hs].
  destruct (choose_from_list _ answer) as [idx|]; [|exact Hs].
  destruct (Master.characters (master data) !! idx) as [c|]; [|exact Hs].
  destruct (str_in (Character.id c) (Book.characters book)) eqn:Hin; [exact Hs|].
  simpl. apply books_in_sync_insert; [exact Hs|].
  apply str_in_false in Hin.
  destruct (Hs book) as [Hnd Hkeys]; [eapply list_elem_of_lookup_2, E|].
  split; simpl.
  - apply NoDup_app. split; [exact Hnd|]. split; [|apply NoDup_singleton].
    intros x Hx ->%list_elem_of_singleton. exact (Hin Hx).
  - intros cid Hcid. apply elem_of_app.
    destruct (decide (cid = Character.id c)) as [->|Hne]; [right; left|]. left.
    apply Hkeys. destruct (Book.book_char_profiles book !! Character.id c); [exact Hcid|].
    rewrite lookup_insert_ne in Hcid by congruence. exact Hcid.
Qed.

Lemma books_in_sync_create_and_add_character data bidx name_in role_in personality_in
    series_arc_in notes_in ts iso :
  books_in_sync data ->
  books_in_sync (create_and_add_character data bidx name_in role_in personality_in
                                          series_arc_in notes_in ts iso).
Proof. intros Hs. exact Hs. Qed.

Lemma books_in_sync_edit_book_character_profile data bidx answer role_in notes_in :
  books_in_sync data ->
  books_in_sync (edit_book_character_profile data bidx answer role_in notes_in).
Proof.
  intros Hs. unfold edit_book_character_profile.
  destruct (books data !! bidx) as [book|] eqn:E; [|exact Hs].
  destruct (choose_from_list _ answer) as [sel|]; [|exact Hs].
  destruct (Book.characters book !! sel) as [cid|] eqn:Ec; [|exact Hs].
  apply books_in_sync_insert; [exact Hs|].
  destruct (Hs book) as [Hnd Hkeys]; [eapply list_elem_of_lookup_2, E|].
  split; simpl; [exact Hnd|].
  intros k Hk. destruct (decide (k = cid)) as [->|Hne].
  - eapply list_elem_of_lookup_2, Ec.
  - apply Hkeys. rewrite lookup_insert_ne in Hk by congruence. exact Hk.
Qed.

Lemma elem_of_delete_other (l : list string) sel cid k :
  l !! sel = Some cid -> k ∈ l -> k <> cid -> k ∈ delete sel l.
Proof.
  revert sel. induction l as [|x l IH]; intros sel Hsel Hk Hne; [inversion Hk|].
  destruct sel as [|sel]; simpl in *.
  - injection Hsel as ->. apply elem_of_cons in Hk as [?|?]; [congruence | assumption].
  - apply elem_of_cons in Hk as [->|Hk]; [left | right; eapply IH; eassumption].
Qed.

Lemma books_in_sync_remove_book_character data bidx answer :
  books_in_sync data -> books_in_sync (remove_book_character data bidx answer).
Proof.
  intros Hs. unfold remove_book_character.
  destruct (books data !! bidx) as [book|] eqn:E; [|exact Hs].
  destruct (choose_from_list _ answer) as [sel|]; [|exact Hs].
  destruct (Book.characters book !! sel) as [cid|] eqn:Ec; [|exact Hs].
  apply books_in_sync_insert; [exact Hs|].
  destruct (Hs book) as [Hnd Hkeys]; [eapply list_elem_of_lookup_2, E|].
  split; simpl.
  - exact (sublist_NoDup _ _ Hnd (sublist_delete _ sel)).
  - intros k [p Hk]. apply lookup_delete_Some in Hk as [Hne Hk].
    eapply elem_of_delete_other; [exact Ec | apply Hkeys; eauto | congruence].
Qed.

Lemma books_in_sync_delete_master_character data answer :
  books_in_sync data -> books_in_sync (delete_master_character data answer).
Proof.
  intros Hs. unfold delete_master_character.
  destruct (choose_from_list _ answer) as [idx|]; [|exact Hs].
  unfold delete_master_character_at.
  destruct (Master.characters (master data) !! idx) as [c|]; [|exact Hs].
  intros b' Hb'. simpl in Hb'.
  apply list_elem_of_In, in_map_iff in Hb' as (b & <- & Hb).
  apply remove_reference_keeps_sync, Hs, list_elem_of_In, Hb.
Qed.

Lemma books_in_sync_create_master_character data name_in role_in personality_in
    series_arc_in notes_in ts iso :
  books_in_sync data ->
  books_in_sync (create_master_character data name_in role_in personality_in
                                         series_arc_in notes_in ts iso).
Proof. intros Hs. exact Hs. Qed.

(** Every operation on the books keeps the agreement between reference lists
    and profile maps. *)
Theorem books_in_sync_preserved (data : document) :
  books_in_sync data ->
  (forall t n b p ts iso, books_in_sync (create_book data t n b p ts iso)) /\
  (forall bidx t n l, books_in_sync (edit_book_basic_info data bidx t n l)) /\
  (forall bidx answer, books_in_sync (add_existing_character data bidx answer)) /\
  (forall bidx n r p a o ts iso,
      books_in_sync (create_and_add_character data bidx n r p a o ts iso)) /\
  (forall bidx answer r n, books_in_sync (edit_book_character_profile data bidx answer r n)) /\
  (forall bidx answer, books_in_sync (remove_book_character data bidx answer)) /\
  (forall answer, books_in_sync (delete_master_character data answer)) /\
  (forall n r p a o ts iso, books_in_sync (create_master_character data n r p a o ts iso)).
Proof.
  intros Hs.
  split; [intros; apply books_in_sync_create_book, Hs|].
  split; [intros; apply books_in_sync_edit_book_basic_info, Hs|].
  split; [intros; apply books_in_sync_add_existing_character, Hs|].
  split; [intros; apply books_in_sync_create_and_add_character, Hs|].
  split; [intros; apply books_in_sync_edit_book_character_profile, Hs|].
  split; [intros; apply books_in_sync_remove_book_character, Hs|].
  split; [intros; apply books_in_sync_delete_master_character, Hs|].
  intros; apply books_in_sync_create_master_character, Hs.
Qed.

Lemma books_in_sync_preserved_witness :
  books_in_sync (create_book (default_document "2023-11-14T22:13:20") "The Start" "1"
                             "A beginning." "" 1700000000 "2023-11-14T22:13:20").
Proof.
  apply (proj1 (books_in_sync_preserved (default_document "2023-11-14T22:13:20")
                  (books_in_sync_default "2023-11-14T22:13:20"))).
Defined.

(** ** Adding a master character to a book *)

(** Branch [2] of the book-character menu: a character that the book does
    not refer to yet is appended to the reference list and gets the empty
    profile, unless the map already holds a profile for it; nothing else in
    the book changes and the other books stay. *)
Theorem add_existing_character_adds (data : document) (bidx : nat) (answer : string)
    (book : Book.t) (idx : nat) (c : Character.t) :
  books data !! bidx = Some book ->
  choose_from_list (map Character.name (Master.characters (master data))) answer = Some idx ->
  Master.characters (master data) !! idx = Some c ->
  Character.id c ∉ Book.characters book ->
  exists book',
    books (add_existing_character data bidx answer) !! bidx = Some book' /\
    Book.characters book' = Book.characters book ++ [Character.id c] /\
    Book.book_char_profiles book' !! Character.id c
      = Some (match Book.book_char_profiles book !! Character.id c with
              | Some p => p
              | None => Profile.empty
              end) /\
    (forall cid, cid <> Character.id c ->
       Book.book_char_profiles book' !! cid = Book.book_char_profiles book !! cid) /\
    (forall j, j <> bidx -> books (add_existing_character data bidx answer) !! j = books data !! j).
Proof.
  intros Hb Hsel Hc Hnew. unfold add_existing_character.
  rewrite Hb, Hsel, Hc. apply str_in_false in Hnew. rewrite Hnew. simpl.
  eexists. split; [apply list_lookup_insert_eq; eapply lookup_lt_Some, Hb|].
  simpl. split; [reflexivity|]. split; [|split].
  - destruct (Book.book_char_profiles book !! Character.id c) eqn:E;
      [exact E | apply lookup_insert_eq].
  - intros cid Hne. destruct (Book.book_char_profiles book !! Character.id c);
      [reflexivity | apply lookup_insert_ne; congruence].
  - intros j Hj. apply list_lookup_insert_ne. congruence.
Qed.

Lemma add_existing_character_adds_witness :
  exists book',
    books ava_in_book_document !! 0%nat = Some book' /\
    Book.characters book' = ["char_1_1700000000"] /\
    Book.book_char_profiles book' !! "char_1_1700000000" = Some Profile.empty.
Proof.
  pose (d := create_book
       (create_master_character (default_document "2023-11-14T22:13:20")
          "Ava" "Hero" "" "" "" 1700000000 "2023-11-14T22:13:20")
       "The Start" "" "" "" 1700000001 "2023-11-14T22:13:21").
  assert (Hb : exists book, books d !! 0%nat = Some book /\ Book.characters book = [] /\
                            Book.book_char_profiles book = ∅)
    by (eexists; repeat split; reflexivity).
  destruct Hb as (book & Hb & Hcs & Hps).
  assert (Hc : exists c, Master.characters (master d) !! 0%nat = Some c /\
                         Character.id c = "char_1_1700000000")
    by (eexists; split; reflexivity).
  destruct Hc as (c & Hc & Hid).
  assert (Hnew : Character.id c ∉ Book.characters book).
  { rewrite Hcs. intros H. inversion H. }
  destruct (add_existing_character_adds d 0 "1" book 0 c Hb eq_refl Hc Hnew)
    as (book' & H1 & H2 & H3 & _).
  exists book'. split; [exact H1|]. rewrite Hid, Hcs in H2. rewrite Hid, Hps in H3.
  split; [exact H2 | exact H3].
Defined.

(** The scenario of the specification: "Ava" is created, a book is created,
    "Ava" is added to the book and then deleted from the master collection.
    The book no longer refers to her id and holds no profile for it. *)
Example scenario_add_then_delete :
  let data := delete_master_character ava_in_book_document "1" in
  Master.characters (master data) = [] /\
  map Book.characters (books data) = [[]] /\
  map (fun b => Book.book_char_profiles b !! "char_1_1700000000") (books data) = [None].
Proof. cbv zeta. repeat split; vm_compute; reflexivity. Qed.


(** ** Continuity check *)

Lemma master_ids_lookup_from cs (m : gmap string Character.t) cid :
  foldl (fun m c => <[Character.id c := c]> m) m cs !! cid = None <->
  m !! cid = None /\ ~ In cid (map Character.id cs).
Proof.
  revert m. induction cs as [|c cs IH]; intros m; simpl.
  - tauto.
  - rewrite IH, lookup_insert_None. intuition congruence.
Qed.

(** [cid not in master_ids] says that no master character has the id. *)
Lemma master_ids_lookup cs cid :
  master_ids cs !! cid = None <-> ~ In cid (map Character.id cs).
Proof.
  unfold master_ids. rewrite master_ids_lookup_from, lookup_empty. tauto.
Qed.

Lemma missing_in_book_nil ids b :
  (forall cid, cid ∈ Book.characters b -> is_Some (ids !! cid)) ->
  missing_in_book ids b = [].
Proof.
  unfold missing_in_book. intros H.
  induction (Book.characters b) as [|cid l IH]; [reflexivity|]. simpl.
  destruct (H cid) as [c ->]; [left|]. simpl. apply IH.
  intros x Hx. apply H. right. exact Hx.
Qed.

Lemma setdefault_append_fresh key cid d :
  ~ In key (map fst d) -> setdefault_append key cid d = d ++ [(key, [cid])].
Proof.
  induction d as [|[k ids] d IH]; [reflexivity|]. simpl. intros H.
  destruct (String.eqb_spec k key) as [->|Hne]; [tauto|].
  rewrite IH by tauto. reflexivity.
Qed.

Lemma name_to_ids_from cs d :
  NoDup (map fst d ++ map (fun c => Py.lower (Character.name c)) cs) ->
  foldl (fun d c => setdefault_append (Py.lower (Character.name c)) (Character.id c) d) d cs
  = d ++ map (fun c => (Py.lower (Character.name c), [Character.id c])) cs.
Proof.
  revert d. induction cs as [|c cs IH]; intros d Hnd; simpl.
  - rewrite app_nil_r. reflexivity.
  - assert (Hfresh : ~ In (Py.lower (Character.name c)) (map fst d)).
    { apply NoDup_app in Hnd as (_ & Hdis & _). intros Hin%list_elem_of_In.
      apply (Hdis _ Hin). left. }
    rewrite (setdefault_append_fresh _ _ _ Hfresh), IH.
    + rewrite <- app_assoc. reflexivity.
    + rewrite map_app. simpl. rewrite <- app_assoc. exact Hnd.
Qed.

(** With names that differ even when lower-cased, every name gets an entry
    of its own, holding one id. *)
Lemma name_to_ids_unique cs :
  NoDup (map (fun c => Py.lower (Character.name c)) cs) ->
  name_to_ids cs = map (fun c => (Py.lower (Character.name c), [Character.id c])) cs.
Proof. intros H. unfold name_to_ids. rewrite name_to_ids_from; [reflexivity | exact H]. Qed.

Lemma shared_names_singletons cs :
  shared_names (map (fun c => (Py.lower (Character.name c), [Character.id c])) cs) = [].
Proof. unfold shared_names. induction cs as [|c cs IH]; [reflexivity | exact IH]. Qed.

(** C4, as amended. On a document in which every character id referred to
    by a book is the id of a master character, and in which no two master
    characters have names that are equal once lower-cased, the list of issues
    is empty. *)
Theorem continuity_check_clean (data : document) :
  references_resolve data ->
  names_unique_ignoring_case data ->
  continuity_check data = [].
Proof.
  intros Href Hnames. unfold continuity_check.
  rewrite (name_to_ids_unique _ Hnames), shared_names_singletons, app_nil_r.
  assert (H : forall b, b ∈ books data ->
              missing_in_book (master_ids (Master.characters (master data))) b = []).
  { intros b Hb. apply missing_in_book_nil. intros cid Hcid.
    destruct (Href b cid Hb Hcid) as (c & Hc & <-).
    destruct (master_ids (Master.characters (master data)) !! Character.id c) eqn:E; [eauto|].
    exfalso. apply master_ids_lookup in E. apply E, in_map, list_elem_of_In, Hc. }
  induction (books data) as [|b bs IH]; [reflexivity|]. simpl.
  rewrite (H b) by left. apply IH. intros b' Hb'. apply H. right. exact Hb'.
Qed.

Lemma continuity_check_clean_witness : continuity_check referenced_document = [].
Proof.
  apply (continuity_check_clean referenced_document).
  - intros b cid ->%list_elem_of_singleton ->%list_elem_of_singleton.
    exists sample_character. split; [left | reflexivity].
  - apply NoDup_singleton.
Defined.

(** C4, the claim as stated fails: "Rex" and "rex" are two different
    names, no book refers to anything, and yet the check reports one issue,
    because the names are grouped after lower-casing. *)
Lemma continuity_check_flags_case_variants :
  references_resolve rex_document /\
  names_unique rex_document /\
  continuity_check rex_document
    = [SharedName "rex" ["char_1_1700000000"; "char_2_1700000005"]].
Proof.
  split; [|split].
  - intros b cid Hb. vm_compute in Hb. inversion Hb.
  - unfold names_unique. apply (bool_decide_unpack _). vm_compute. exact I.
  - vm_compute. reflexivity.
Qed.

(** The scenario of the specification: two master characters called "Rex",
    made by two creations. The check reports one issue, which names both
    ids. *)
Example scenario_rex_twice :
  let iso := "2023-11-14T22:13:20" in
  let data := create_master_character
                (create_master_character (default_document iso)
                   "Rex" "Hero" "" "" "" 1700000000 iso)
                "Rex" "Rival" "" "" "" 1700000009 iso in
  continuity_check data = [SharedName "rex" ["char_1_1700000000"; "char_2_1700000009"]].
Proof. cbv zeta. vm_compute. reflexivity. Qed.

(** ** The Oracle's advice *)

Lemma filter_none {A} (P : A -> Prop) `{forall x, Decision (P x)} (l : list A) :
  (forall x, x ∈ l -> ~ P x) -> filter P l = [].
Proof.
  induction l as [|x l IH]; [reflexivity|]. intros Hl.
  rewrite filter_cons_False by (apply Hl; left). apply IH.
  intros y Hy. apply Hl. right. exact Hy.
Qed.

(** The names that are found are the master names that occur in the query,
    in the order of the master collection. *)
Lemma mentioned_spec data qlower name :
  name ∈ mentioned data qlower <->
  occurs_in qlower name /\ name ∈ map Character.name (Master.characters (master data)).
Proof. unfold mentioned. apply list_elem_of_filter. Qed.

Lemma mentioned_sublist data qlower :
  sublist (mentioned data qlower) (map Character.name (Master.characters (master data))).
Proof. unfold mentioned. apply sublist_filter. Qed.

(** When the first two matching characters are [a] and [b], the list of
    found names starts with [a] and [b]. *)
Lemma mentioned_first_two data qlower pre a mid b post :
  map Character.name (Master.characters (master data)) = pre ++ a :: mid ++ b :: post ->
  occurs_in qlower a -> occurs_in qlower b ->
  (forall x, x ∈ pre ++ mid -> ~ occurs_in qlower x) ->
  exists rest, mentioned data qlower = a :: b :: rest.
Proof.
  intros Hnames Ha Hb Hnone. unfold mentioned. rewrite Hnames.
  rewrite filter_app, (filter_none _ pre); cycle 1.
  { intros x Hx. apply Hnone, elem_of_app. left. exact Hx. }
  rewrite filter_cons_True by exact Ha.
  rewrite filter_app, (filter_none _ mid); cycle 1.
  { intros x Hx. apply Hnone, elem_of_app. right. exact Hx. }
  rewrite filter_cons_True by exact Hb. simpl. eauto.
Qed.

(** C6, as amended. Let the query, stripped of surrounding white space, be
    non-empty and contain "conflict" and "between" when lower-cased.
    - If the first two master characters whose lower-cased name occurs in
      the lower-cased query are named [a] and [b] (in the order of the master
      collection; the two may bear the same name), the response is the
      conflict template for [a] and [b].
    - If fewer than two master characters have such a name, the response is
      the couldn't-identify message. *)
Theorem oracle_conflict_response (data : document) (line : string) :
  let q := Py.strip line in
  let qlower := Py.lower q in
  let names := map Character.name (Master.characters (master data)) in
  q <> "" ->
  Py.contains "conflict" qlower = true ->
  Py.contains "between" qlower = true ->
  (forall pre a mid b post,
      names = pre ++ a :: mid ++ b :: post ->
      occurs_in qlower a -> occurs_in qlower b ->
      (forall x, x ∈ pre ++ mid -> ~ occurs_in qlower x) ->
      oracles_advice data line = oracle_header ++ conflict_template a b) /\
  ((length (filter (occurs_in qlower) names) < 2)%nat ->
      oracles_advice data line = oracle_header ++ [Print no_two_names_message]).
Proof.
  cbv zeta. intros Hq Hc Hb.
  assert (Hresp : oracle_response data line =
            match mentioned data (Py.lower (Py.strip line)) with
            | a :: b :: _ => conflict_template a b
            | _ => [Print no_two_names_message]
            end).
  { unfold oracle_response. destruct (String.eqb_spec (Py.strip line) ""); [contradiction|].
    rewrite Hc, Hb. reflexivity. }
  unfold oracles_advice. rewrite Hresp. split.
  - intros pre a mid b post Hnames Ha Hb' Hnone.
    destruct (mentioned_first_two data _ pre a mid b post Hnames Ha Hb' Hnone) as [rest ->].
    reflexivity.
  - intros Hlen. unfold mentioned.
    change (fun name => Py.contains (Py.lower name) (Py.lower (Py.strip line)) = true)
      with (occurs_in (Py.lower (Py.strip line))).
    destruct (filter _ _) as [|a [|b rest]]; [reflexivity | reflexivity | simpl in Hlen; lia].
Qed.

Lemma oracle_conflict_response_witness :
  oracles_advice ava_kade_document "What conflicts could arise between Ava and Kade?"
  = oracle_header ++ conflict_template "Ava" "Kade".
Proof.
  refine (proj1 (oracle_conflict_response ava_kade_document
                   "What conflicts could arise between Ava and Kade?" _ _ _)
                [] "Ava" [] "Kade" [] _ _ _ _).
  - vm_compute. congruence.
  - reflexivity.
  - reflexivity.
  - reflexivity.
  - reflexivity.
  - reflexivity.
  - intros x Hx. inversion Hx.
Defined.

(** The order is that of the master collection, not that of the query. *)
Example oracle_master_order :
  oracles_advice ava_kade_document "Any conflict between Kade and Ava?"
  = oracle_header ++ conflict_template "Ava" "Kade".
Proof. vm_compute. reflexivity. Qed.

(** C6, the claim as stated fails: with two master characters that are both
    called "Ava", the query names one master name only ("Kade" is not in
    the collection), so the claim expects the couldn't-identify message; the
    code counts two matching entries and answers with the template for "Ava"
    and "Ava". *)
Lemma oracle_same_name_twice :
  let line := "What conflicts could arise between Ava and Kade?" in
  remove_dups (mentioned two_avas_document (Py.lower (Py.strip line))) = ["Ava"] /\
  oracles_advice two_avas_document line = oracle_header ++ conflict_template "Ava" "Ava" /\
  oracles_advice two_avas_document line <> oracle_header ++ [Print no_two_names_message].
Proof.
  cbv zeta. split; [vm_compute; reflexivity|]. split; [vm_compute; reflexivity|].
  vm_compute. congruence.
Qed.

(** ** Thematic cohesion *)






Lemma theme_counts_flat_from bs d :
  foldl (fun d b => foldl (fun d t => bump (Py.lower t) d) d (Book.themes b)) d bs
  = foldl (fun d t => bump (Py.lower t) d) d (flat_map Book.themes bs).
Proof.
  revert d. induction bs as [|b bs IH]; intros d; [reflexivity|].
  simpl. rewrite foldl_app. apply IH.
Qed.

Lemma theme_counts_flat bs : theme_counts bs = count_tags (flat_map Book.themes bs).
Proof. apply theme_counts_flat_from. Qed.






Lemma flat_map_themes_nil (bs : list Book.t) :
  flat_map Book.themes bs = [] <-> forall b, b ∈ bs -> Book.themes b = [].
Proof.
  induction bs as [|b bs IH]; simpl.
  - split; [intros _ b H; inversion H | reflexivity].
  - split.
    + intros [Hb Hbs]%app_eq_nil b' [->|Hin]%elem_of_cons; [exact Hb | apply IH; assumption].
    + intros H. rewrite (H b) by left. apply IH. intros b' Hb'. apply H. right. exact Hb'.
Qed.














(** The scenario of the four books: "betrayal" occurs once and is flagged,
    "hope" occurs three times and is not. *)
Example thematic_cohesion_four_books :
  occurrences "betrayal" (books four_books_document) = 1%nat /\
  occurrences "hope" (books four_books_document) = 3%nat /\
  missing_themes four_books_document = ["betrayal"].
Proof. repeat split; vm_compute; reflexivity. Qed.

(** ** The JSON text: reading back what was written *)

Section JsonFacts.

Import Json.

Lemma value_ind_nested (P : value -> Prop) :
  P Null -> (forall b, P (Bool b)) -> (forall n, P (Int n)) -> (forall s, P (Str s)) ->
  (forall l, Forall P l -> P (Arr l)) ->
  (forall m, Forall (fun kv => P (snd kv)) m -> P (Obj m)) ->
  forall v, P v.
Proof.
  intros HN HB HI HS HA HO. fix IH 1. intros [ |b|n|s|l|m].
  - exact HN.
  - apply HB.
  - apply HI.
  - apply HS.
  - apply HA. induction l as [|x l IHl]; constructor; [apply IH | exact IHl].
  - apply HO. induction m as [|[k x] m IHm]; constructor; [apply IH | exact IHm].
Qed.

(** *** String literals *)

Lemma scanstring_escape_char c rest :
  scanstring (escape_char c +:+ rest) = prepend c (scanstring rest).
Proof. destruct c as [[] [] [] [] [] [] [] []]; reflexivity. Qed.

Lemma scanstring_escape s rest :
  scanstring (escape s +:+ String dq rest) = Some (s, rest).
Proof.
  induction s as [|c s IH]; [reflexivity|].
  simpl. rewrite append_assoc, scanstring_escape_char, IH. reflexivity.
Qed.

Lemma encode_str_append s rest :
  encode_str s +:+ rest = String dq (escape s +:+ String dq rest).
Proof. unfold encode_str. rewrite append_cons, append_assoc. reflexivity. Qed.

(** *** Numbers *)

Lemma digit_val_pretty_char d :
  (d < 10)%N -> Py.digit_val (pretty_N_char d) = Some (Z.of_N d).
Proof.
  intros H.
  assert (d = 0 \/ d = 1 \/ d = 2 \/ d = 3 \/ d = 4 \/ d = 5 \/ d = 6 \/ d = 7 \/ d = 8 \/ d = 9)%N
    as Hd by lia.
  repeat destruct Hd as [->|Hd]; try subst d; reflexivity.
Qed.

Lemma pretty_N_go_append x s rest : pretty_N_go x s +:+ rest = pretty_N_go x (s +:+ rest).
Proof.
  revert s. induction (N.lt_wf_0 x) as [x _ IH]. intros s.
  destruct (decide (x = 0)%N) as [->|Hx]; [reflexivity|].
  rewrite (pretty_N_go_step x s), (pretty_N_go_step x (s +:+ rest)) by lia.
  rewrite IH by (apply N.div_lt; lia). reflexivity.
Qed.

Lemma read_digits_step d acc s :
  (d < 10)%N ->
  read_digits acc (String (pretty_N_char d) s) = read_digits (10 * acc + d) s.
Proof. intros H. simpl. rewrite (digit_val_pretty_char _ H), N2Z.id. reflexivity. Qed.

(** The digits of a positive number start with a digit that is not 0, and
    reading them gives the number back. *)
Lemma pretty_N_go_first x s :
  (0 < x)%N ->
  exists c tail d,
    pretty_N_go x s = String c tail /\ Py.digit_val c = Some (Z.of_N d) /\ (0 < d)%N /\
    read_digits d tail = read_digits x s.
Proof.
  revert s. induction (N.lt_wf_0 x) as [x _ IH]. intros s Hx.
  rewrite pretty_N_go_step by exact Hx.
  destruct (decide (x / 10 = 0)%N) as [E|E].
  - rewrite E, pretty_N_go_0.
    assert (x < 10)%N by (apply N.div_small_iff in E; lia).
    rewrite N.mod_small by assumption.
    exists (pretty_N_char x), s, x. repeat split; [apply digit_val_pretty_char|]; assumption.
  - destruct (IH (x / 10)%N) with (s := String (pretty_N_char (x mod 10)) s)
      as (c & tail & d & -> & Hc & Hd & Hr);
      [apply N.div_lt; lia | apply N.neq_0_lt_0, E |].
    exists c, tail, d. repeat split; try assumption.
    rewrite Hr, read_digits_step by (apply N.mod_lt; lia).
    f_equal. rewrite (N.div_mod x 10) at 3 by lia. lia.
Qed.

Lemma read_digits_end acc s : number_end s -> read_digits acc s = (acc, s).
Proof. destruct s as [|c s]; [reflexivity|]. simpl. intros [-> _]. reflexivity. Qed.

Lemma float_tail_end s : number_end s -> float_tail s = false.
Proof. destruct s; [reflexivity|]. intros [_ H]. exact H. Qed.

Lemma scan_nat_pretty (x : N) rest :
  number_end rest -> scan_nat (pretty x +:+ rest) = Some (x, rest).
Proof.
  intros Hend. unfold pretty, pretty_N. case_decide as Hx.
  - subst x. reflexivity.
  - rewrite pretty_N_go_append. change ("" +:+ rest) with rest.
    destruct (pretty_N_go_first x rest) as (c & tail & d & -> & Hc & Hd & Hr); [lia|].
    unfold scan_nat. rewrite Hc. destruct (Z.eqb_spec (Z.of_N d) 0); [lia|].
    rewrite N2Z.id, Hr, (read_digits_end _ _ Hend). reflexivity.
Qed.

Lemma digit_not_minus c d : Py.digit_val c = Some d -> Ascii.eqb c "-" = false.
Proof. destruct c as [[] [] [] [] [] [] [] []]; vm_compute; congruence. Qed.

Lemma pretty_N_first_digit (x : N) rest :
  exists c tail d, pretty x +:+ rest = String c tail /\ Py.digit_val c = Some d.
Proof.
  unfold pretty, pretty_N. case_decide as Hx.
  - exists "0"%char, rest, 0. split; reflexivity.
  - rewrite pretty_N_go_append.
    destruct (pretty_N_go_first x ("" +:+ rest)) as (c & tail & d & -> & Hc & _); [lia|].
    eauto.
Qed.

Lemma scan_number_pretty n rest :
  number_end rest -> scan_number (Py.str_int n +:+ rest) = Some (Int n, rest).
Proof.
  intros Hend. unfold Py.str_int, pretty, pretty_Z. destruct n as [|p|p].
  - change ("0" +:+ rest) with (String "0" rest). simpl.
    rewrite (float_tail_end _ Hend). reflexivity.
  - destruct (pretty_N_first_digit (N.pos p) rest) as (c & tail & d & E & Hc).
    change (pretty p) with (pretty (N.pos p)).
    assert (Hs := scan_nat_pretty (N.pos p) rest Hend). rewrite E in *.
    unfold scan_number. rewrite (digit_not_minus _ _ Hc), Hs, (float_tail_end _ Hend).
    reflexivity.
  - change (pretty p) with (pretty (N.pos p)). rewrite append_assoc.
    change ("-" +:+ pretty (N.pos p) +:+ rest) with (String "-" (pretty (N.pos p) +:+ rest)).
    unfold scan_number. rewrite Ascii.eqb_refl, (scan_nat_pretty _ _ Hend), (float_tail_end _ Hend).
    reflexivity.
Qed.


(** *** White space and first characters *)

Lemma skip_ws_spaces n s : skip_ws (spaces n +:+ s) = skip_ws s.
Proof. induction n as [|n IH]; [reflexivity | exact IH]. Qed.

Lemma skip_ws_newline_indent level s : skip_ws (newline_indent level +:+ s) = skip_ws s.
Proof. unfold newline_indent. rewrite append_cons. simpl. apply skip_ws_spaces. Qed.

Lemma digit_value_start c d : Py.digit_val c = Some d -> value_start c.
Proof. destruct c as [[] [] [] [] [] [] [] []]; vm_compute; intuition congruence. Qed.

Lemma dumps_at_first v level rest :
  exists c tail, dumps_at level v +:+ rest = String c tail /\ value_start c.
Proof.
  destruct v as [ |[]|n|s|[|x l]|[|kv m]];
    try (eexists _, _; split; [reflexivity | repeat split]).
  destruct n as [|p|p].
  - eexists _, _; split; [reflexivity | repeat split].
  - destruct (pretty_N_first_digit (N.pos p) rest) as (c & tail & d & E & Hc).
    exists c, tail. split; [exact E | eapply digit_value_start, Hc].
  - exists "-"%char, (pretty (N.pos p) +:+ rest). split; [|repeat split].
    simpl. unfold Py.str_int, pretty, pretty_Z. rewrite append_assoc. reflexivity.
Qed.

Lemma skip_ws_dumps_at v level rest :
  skip_ws (dumps_at level v +:+ rest) = dumps_at level v +:+ rest.
Proof.
  destruct (dumps_at_first v level rest) as (c & tail & -> & Hws & _).
  simpl. rewrite Hws. reflexivity.
Qed.

Lemma length_dumps_at_pos v level : (1 <= String.length (dumps_at level v))%nat.
Proof.
  destruct (dumps_at_first v level "") as (c & tail & E & _).
  rewrite append_nil_r in E. rewrite E. simpl. lia.
Qed.

Lemma number_end_comma s : number_end ("," +:+ s).
Proof. split; reflexivity. Qed.

Lemma number_end_newline_indent level s : number_end (newline_indent level +:+ s).
Proof. split; reflexivity. Qed.

Lemma number_end_items dump level l rest : number_end (dumps_items dump level l +:+ rest).
Proof.
  destruct l; unfold dumps_items; rewrite append_assoc;
    [apply number_end_newline_indent | apply number_end_comma].
Qed.

Lemma number_end_members dump level m rest : number_end (dumps_members dump level m +:+ rest).
Proof.
  destruct m; unfold dumps_members; rewrite append_assoc;
    [apply number_end_newline_indent | apply number_end_comma].
Qed.

(** *** One step of the reader *)

Lemma parse_value_number fuel c tail :
  (Ascii.eqb c "-" = true \/ exists d, Py.digit_val c = Some d) ->
  parse_value (S fuel) (String c tail) = scan_number (String c tail).
Proof.
  destruct c as [[] [] [] [] [] [] [] []]; intros [H|[d H]];
    try reflexivity; vm_compute in H; congruence.
Qed.

Lemma parse_value_string fuel tail :
  parse_value (S fuel) (String dq tail) =
    match scanstring tail with
    | Some (x, rest) => Some (Str x, rest)
    | None => None
    end.
Proof. reflexivity. Qed.

Lemma parse_value_items fuel s c tail :
  skip_ws s = String c tail -> value_start c ->
  parse_value (S fuel) (String "[" s) =
    match parse_items fuel (String c tail) with
    | Some (l, rest) => Some (Arr l, rest)
    | None => None
    end.
Proof.
  intros E (_ & Hb & _). cbn [parse_value]. simpl Ascii.eqb. cbv iota.
  rewrite E, Hb. reflexivity.
Qed.

Lemma parse_value_members fuel s tail :
  skip_ws s = String dq tail ->
  parse_value (S fuel) (String "{" s) =
    match parse_members fuel (String dq tail) with
    | Some (l, rest) => Some (Obj (dict_of_pairs l), rest)
    | None => None
    end.
Proof. intros E. cbn [parse_value]. simpl Ascii.eqb. cbv iota. rewrite E. reflexivity. Qed.

Lemma parse_items_step fuel s :
  parse_items (S fuel) s =
    match parse_value fuel s with
    | None => None
    | Some (v, r) =>
        match skip_ws r with
        | EmptyString => None
        | String c r' =>
            if Ascii.eqb c "," then
              match parse_items fuel (skip_ws r') with
              | Some (l, rest) => Some (v :: l, rest)
              | None => None
              end
            else if Ascii.eqb c "]" then Some ([v], r')
            else None
        end
    end.
Proof. reflexivity. Qed.

Lemma parse_members_step fuel k tail :
  parse_members (S fuel) (encode_str k +:+ ": " +:+ tail) =
    match parse_value fuel (skip_ws tail) with
    | None => None
    | Some (v, r2) =>
        match skip_ws r2 with
        | EmptyString => None
        | String c2 r3 =>
            if Ascii.eqb c2 "," then
              match parse_members fuel (skip_ws r3) with
              | Some (l, rest) => Some ((k, v) :: l, rest)
              | None => None
              end
            else if Ascii.eqb c2 "}" then Some ([(k, v)], r3)
            else None
        end
    end.
Proof.
  rewrite encode_str_append. cbn [parse_members]. rewrite Ascii.eqb_refl.
  rewrite scanstring_escape. reflexivity.
Qed.

Lemma str_int_first n rest :
  exists c tail, Py.str_int n +:+ rest = String c tail /\
    (Ascii.eqb c "-" = true \/ exists d, Py.digit_val c = Some d).
Proof.
  destruct n as [|p|p].
  - exists "0"%char, rest. split; [reflexivity | right; eexists; reflexivity].
  - destruct (pretty_N_first_digit (N.pos p) rest) as (c & tail & d & E & Hc).
    exists c, tail. split; [exact E | eauto].
  - exists "-"%char, (pretty (N.pos p) +:+ rest). split; [|left; reflexivity].
    unfold Py.str_int, pretty, pretty_Z. rewrite append_assoc. reflexivity.
Qed.

Lemma length_append a b :
  String.length (a +:+ b) = (String.length a + String.length b)%nat.
Proof. induction a as [|c a IH]; [reflexivity|]. rewrite append_cons. simpl. rewrite IH. reflexivity. Qed.

Lemma dict_put_fresh k v d : ~ In k (map fst d) -> dict_put k v d = d ++ [(k, v)].
Proof.
  induction d as [|[k' v'] d IH]; [reflexivity|]. simpl. intros H.
  destruct (String.eqb_spec k' k) as [->|Hne]; [tauto|].
  rewrite IH by tauto. reflexivity.
Qed.

Lemma dict_of_pairs_from l d :
  NoDup (map fst d ++ map fst l) ->
  foldl (fun d kv => dict_put (fst kv) (snd kv) d) d l = d ++ l.
Proof.
  revert d. induction l as [|[k v] l IH]; intros d Hnd; simpl.
  - rewrite app_nil_r. reflexivity.
  - rewrite dict_put_fresh.
    + rewrite IH; [rewrite <- app_assoc; reflexivity|].
      rewrite map_app. simpl. rewrite <- app_assoc. exact Hnd.
    + apply NoDup_app in Hnd as (_ & Hdis & _). intros Hin%list_elem_of_In.
      apply (Hdis _ Hin). left.
Qed.

(** Members with distinct keys make the dict that lists them in order. *)
Lemma dict_of_pairs_NoDup l : NoDup (map fst l) -> dict_of_pairs l = l.
Proof. intros H. unfold dict_of_pairs. rewrite dict_of_pairs_from; [reflexivity | exact H]. Qed.


Lemma length_dumps_items_pos dump level l : (1 <= String.length (dumps_items dump level l))%nat.
Proof. destruct l; unfold dumps_items; rewrite length_append; simpl; lia. Qed.

Lemma length_dumps_members_pos dump level m :
  (1 <= String.length (dumps_members dump level m))%nat.
Proof. destruct m; unfold dumps_members; rewrite length_append; simpl; lia. Qed.

Lemma dumps_items_cons dump level y l :
  dumps_items dump level (y :: l)
  = "," +:+ newline_indent (S level) +:+ dump y +:+ dumps_items dump level l.
Proof. reflexivity. Qed.

Lemma dumps_members_cons dump level kv m :
  dumps_members dump level (kv :: m)
  = "," +:+ newline_indent (S level) +:+ encode_str (fst kv) +:+ ": "
    +:+ dump (snd kv) +:+ dumps_members dump level m.
Proof. reflexivity. Qed.

Lemma parse_items_comma fuel s v r :
  parse_value fuel s = Some (v, String "," r) ->
  parse_items (S fuel) s =
    match parse_items fuel (skip_ws r) with
    | Some (l, rest) => Some (v :: l, rest)
    | None => None
    end.
Proof. intros H. rewrite parse_items_step, H. reflexivity. Qed.

Lemma parse_items_close fuel s v r r' :
  parse_value fuel s = Some (v, r) -> skip_ws r = String "]" r' ->
  parse_items (S fuel) s = Some ([v], r').
Proof. intros H E. rewrite parse_items_step, H, E. reflexivity. Qed.

Lemma parse_members_comma fuel k tail v r :
  parse_value fuel (skip_ws tail) = Some (v, String "," r) ->
  parse_members (S fuel) (encode_str k +:+ ": " +:+ tail) =
    match parse_members fuel (skip_ws r) with
    | Some (l, rest) => Some ((k, v) :: l, rest)
    | None => None
    end.
Proof. intros H. rewrite parse_members_step, H. reflexivity. Qed.

Lemma parse_members_close fuel k tail v r r' :
  parse_value fuel (skip_ws tail) = Some (v, r) -> skip_ws r = String "}" r' ->
  parse_members (S fuel) (encode_str k +:+ ": " +:+ tail) = Some ([(k, v)], r').
Proof. intros H E. rewrite parse_members_step, H, E. reflexivity. Qed.

Lemma parse_items_dumps l :
  forall x fuel level rest,
    reads_back x -> Forall reads_back l ->
    (String.length (dumps_at (S level) x)
     + String.length (dumps_items (dumps_at (S level)) level l) <= fuel)%nat ->
    parse_items fuel (dumps_at (S level) x +:+ dumps_items (dumps_at (S level)) level l +:+ rest)
    = Some (x :: l, rest).
Proof.
  induction l as [|y l IH]; intros x fuel level rest Hx Hl Hfuel.
  - pose proof (length_dumps_at_pos x (S level)).
    pose proof (length_dumps_items_pos (dumps_at (S level)) level []).
    destruct fuel as [|fuel]; [lia|].
    eapply parse_items_close.
    + apply Hx; [lia | apply number_end_items].
    + unfold dumps_items. rewrite append_assoc, skip_ws_newline_indent. reflexivity.
  - pose proof (length_dumps_at_pos x (S level)).
    rewrite dumps_items_cons in *. rewrite !length_append in Hfuel. simpl in Hfuel.
    destruct fuel as [|fuel]; [lia|].
    inversion Hl as [|? ? Hy Hl']; subst.
    erewrite parse_items_comma; cycle 1.
    + rewrite !append_assoc. apply Hx; [lia | apply number_end_comma].
    + rewrite skip_ws_newline_indent, skip_ws_dumps_at.
      rewrite IH; [reflexivity | assumption | assumption | lia].
Qed.

Lemma parse_members_dumps m :
  forall k x fuel level rest,
    reads_back x -> Forall (fun kv => reads_back (snd kv)) m ->
    (String.length (dumps_at (S level) x)
     + String.length (dumps_members (dumps_at (S level)) level m) <= fuel)%nat ->
    parse_members fuel (encode_str k +:+ ": " +:+ dumps_at (S level) x
                        +:+ dumps_members (dumps_at (S level)) level m +:+ rest)
    = Some ((k, x) :: m, rest).
Proof.
  induction m as [|[k' y] m IH]; intros k x fuel level rest Hx Hm Hfuel.
  - pose proof (length_dumps_at_pos x (S level)).
    pose proof (length_dumps_members_pos (dumps_at (S level)) level []).
    destruct fuel as [|fuel]; [lia|].
    eapply parse_members_close.
    + rewrite skip_ws_dumps_at. apply Hx; [lia | apply number_end_members].
    + unfold dumps_members. rewrite append_assoc, skip_ws_newline_indent. reflexivity.
  - pose proof (length_dumps_at_pos x (S level)).
    rewrite dumps_members_cons in *. rewrite !length_append in Hfuel. simpl in Hfuel.
    destruct fuel as [|fuel]; [lia|].
    inversion Hm as [|? ? Hy Hm']; subst. simpl fst in *. simpl snd in *.
    erewrite parse_members_comma; cycle 1.
    + rewrite skip_ws_dumps_at, !append_assoc. apply Hx; [lia | apply number_end_comma].
    + rewrite skip_ws_newline_indent.
      assert (Hk : forall t, skip_ws (encode_str k' +:+ t) = encode_str k' +:+ t).
      { intros t. rewrite encode_str_append. reflexivity. }
      rewrite Hk, IH; [reflexivity | assumption | assumption | lia].
Qed.

(** Every value whose dicts have distinct keys is read back from its text. *)
Lemma parse_value_dumps v : distinct_keys v -> reads_back v.
Proof.
  induction v as [ |b|n|s|l IHl|m IHm] using value_ind_nested; intros Hwf fuel level rest Hfuel Hend.
  - destruct fuel; [simpl in Hfuel; lia | reflexivity].
  - destruct fuel; [destruct b; simpl in Hfuel; lia | destruct b; reflexivity].
  - pose proof (length_dumps_at_pos (Int n) level).
    destruct fuel as [|fuel]; [lia|]. simpl dumps_at.
    destruct (str_int_first n rest) as (c & tail & E & Hc).
    rewrite E, (parse_value_number _ _ _ Hc), <- E. apply scan_number_pretty, Hend.
  - destruct fuel as [|fuel]; [simpl in Hfuel; lia|]. simpl dumps_at.
    rewrite encode_str_append, parse_value_string, scanstring_escape. reflexivity.
  - destruct l as [|x l].
    + destruct fuel; [simpl in Hfuel; lia | reflexivity].
    + inversion Hwf as [| | | |? Hall|]; subst.
      inversion Hall as [|? ? Hwx Hwl]; subst. inversion IHl as [|? ? Hx Hl]; subst.
      assert (Hl' : Forall reads_back l).
      { clear -Hwl Hl. induction Hl as [|y l Hy Hl IH]; constructor;
          inversion Hwl; subst; auto. }
      simpl dumps_at in *. rewrite !length_append in Hfuel.
      destruct fuel as [|fuel]; [simpl in Hfuel; lia|].
      rewrite !append_assoc. change ("[" +:+ ?s) with (String "[" s).
      destruct (dumps_at_first x (S level)
                  (dumps_items (dumps_at (S level)) level l +:+ rest)) as (c & tail & E & Hc).
      erewrite parse_value_items;
        [|rewrite skip_ws_newline_indent, skip_ws_dumps_at; exact E | exact Hc].
      rewrite <- E, parse_items_dumps; [reflexivity | auto | exact Hl' | simpl in Hfuel; lia].
  - destruct m as [|[k x] m].
    + destruct fuel; [simpl in Hfuel; lia | reflexivity].
    + inversion Hwf as [| | | | |? Hnd Hall]; subst.
      inversion Hall as [|? ? Hwx Hwm]; subst. inversion IHm as [|? ? Hx Hm]; subst.
      simpl in Hwx, Hx.
      assert (Hm' : Forall (fun kv => reads_back (snd kv)) m).
      { clear -Hwm Hm. induction Hm as [|y m Hy Hm IH]; constructor;
          inversion Hwm; subst; auto. }
      simpl dumps_at in *. rewrite !length_append in Hfuel.
      destruct fuel as [|fuel]; [simpl in Hfuel; lia|].
      rewrite !append_assoc. change ("{" +:+ ?s) with (String "{" s).
      erewrite parse_value_members;
        [|rewrite skip_ws_newline_indent, encode_str_append; reflexivity].
      rewrite <- encode_str_append, parse_members_dumps;
        [|auto | exact Hm' | simpl in Hfuel; lia].
      rewrite (dict_of_pairs_NoDup _ Hnd). reflexivity.
Qed.

(** Reading the text of a value gives the value. *)
Lemma loads_dumps v : distinct_keys v -> loads (dumps v) = Some v.
Proof.
  intros Hwf. unfold loads, dumps.
  pose proof (parse_value_dumps v Hwf (S (String.length (dumps_at 0 v))) 0%nat "") as H.
  rewrite append_nil_r in H.
  assert (E : skip_ws (dumps_at 0 v) = dumps_at 0 v).
  { rewrite <- (append_nil_r (dumps_at 0 v)) at 1 2. apply skip_ws_dumps_at. }
  rewrite E, H; [reflexivity | lia | exact I].
Qed.

End JsonFacts.

(** ** Saving and loading *)

Ltac wf_keys := apply (bool_decide_unpack _); vm_compute; exact I.

Lemma wf_json_opt_int o : distinct_keys (json_opt_int o).
Proof. destruct o; constructor. Qed.

Lemma wf_json_opt_str o : distinct_keys (json_opt_str o).
Proof. destruct o; constructor. Qed.

Lemma wf_json_strs l : distinct_keys (json_strs l).
Proof. constructor. induction l; constructor; [constructor | assumption]. Qed.

Lemma wf_Arr_map {A} (f : A -> Json.value) l : (forall x, distinct_keys (f x)) -> distinct_keys (Json.Arr (map f l)).
Proof. intros H. constructor. induction l; constructor; [apply H | assumption]. Qed.

Create HintDb wf_json.

#[local] Hint Resolve wf_json_opt_int wf_json_opt_str wf_json_strs : wf_json.
#[local] Hint Constructors distinct_keys Forall : wf_json.

Lemma wf_profile p : distinct_keys (profile_to_json p).
Proof. constructor; [wf_keys | repeat constructor]. Qed.

Lemma wf_event e : distinct_keys (event_to_json e).
Proof. constructor; [wf_keys | repeat constructor]. Qed.

Lemma wf_profiles m : distinct_keys (profiles_to_json m).
Proof.
  constructor.
  - rewrite map_map. simpl. apply (NoDup_fst_map_to_list m).
  - induction (map_to_list m) as [|kp l IH]; constructor; [apply wf_profile | exact IH].
Qed.

Lemma wf_book b : distinct_keys (book_to_json b).
Proof.
  constructor; [wf_keys|].
  repeat (constructor; simpl; auto using wf_profiles, wf_Arr_map, wf_event with wf_json).
Qed.

Lemma wf_character c : distinct_keys (character_to_json c).
Proof. constructor; [wf_keys | repeat constructor]. Qed.

Lemma wf_location l : distinct_keys (location_to_json l).
Proof. constructor; [wf_keys | repeat constructor]. Qed.

Lemma wf_lore l : distinct_keys (lore_to_json l).
Proof. constructor; [wf_keys | repeat constructor]. Qed.

Lemma wf_master_event e : distinct_keys (master_event_to_json e).
Proof. constructor; [wf_keys | repeat (constructor; simpl; auto with wf_json)]. Qed.

Lemma wf_series s : distinct_keys (series_to_json s).
Proof. constructor; [wf_keys | repeat (constructor; simpl; auto with wf_json)]. Qed.

Lemma wf_master m : distinct_keys (master_to_json m).
Proof.
  constructor; [wf_keys|].
  repeat (constructor; simpl;
          auto using wf_Arr_map, wf_character, wf_location, wf_lore with wf_json).
Qed.

(** The dict of a document has no key twice, at any depth. *)
Lemma wf_to_json data : distinct_keys (to_json data).
Proof.
  constructor; [wf_keys|].
  constructor; [simpl; constructor; [wf_keys | repeat constructor]|].
  constructor; [simpl; destruct (series data); [apply wf_series | constructor]|].
  constructor; [simpl; apply wf_Arr_map, wf_book|].
  constructor; [simpl; apply wf_master|].
  constructor; [simpl; apply wf_Arr_map, wf_master_event|].
  constructor.
Qed.

(** *** Different documents have different dicts *)

Lemma map_inj {A B} (f : A -> B) l1 l2 :
  (forall x y, f x = f y -> x = y) -> map f l1 = map f l2 -> l1 = l2.
Proof.
  intros Hf. revert l2. induction l1 as [|x l1 IH]; intros [|y l2] H; try discriminate.
  - reflexivity.
  - simpl in H. injection H as Hx Hl. f_equal; [apply Hf, Hx | apply IH, Hl].
Qed.

Lemma json_opt_int_inj o1 o2 : json_opt_int o1 = json_opt_int o2 -> o1 = o2.
Proof. destruct o1, o2; simpl; congruence. Qed.

Lemma json_opt_str_inj o1 o2 : json_opt_str o1 = json_opt_str o2 -> o1 = o2.
Proof. destruct o1, o2; simpl; congruence. Qed.

Lemma json_strs_inj l1 l2 : json_strs l1 = json_strs l2 -> l1 = l2.
Proof. unfold json_strs. intros [= H]. eapply map_inj, H. congruence. Qed.

Lemma profile_to_json_inj p1 p2 : profile_to_json p1 = profile_to_json p2 -> p1 = p2.
Proof. destruct p1, p2. unfold profile_to_json. simpl. congruence. Qed.

Lemma event_to_json_inj e1 e2 : event_to_json e1 = event_to_json e2 -> e1 = e2.
Proof. destruct e1, e2. unfold event_to_json. simpl. congruence. Qed.

Lemma profile_members_inj (m1 m2 : gmap string Profile.t) :
  map (fun kp => (fst kp, profile_to_json (snd kp))) (map_to_list m1)
  = map (fun kp => (fst kp, profile_to_json (snd kp))) (map_to_list m2) ->
  m1 = m2.
Proof.
  intros H. apply map_to_list_inj.
  assert (E : map_to_list m1 = map_to_list m2); [|rewrite E; reflexivity].
  eapply map_inj; [|exact H].
  intros [k1 p1] [k2 p2]. simpl. intros Hkp.
  assert (Hk : k1 = k2) by congruence.
  assert (Hp : profile_to_json p1 = profile_to_json p2) by congruence.
  apply profile_to_json_inj in Hp. congruence.
Qed.

Lemma strs_inj l1 l2 : map Json.Str l1 = map Json.Str l2 -> l1 = l2.
Proof. apply map_inj. congruence. Qed.

(** Equal members give equal fields. *)
Ltac fields_inj :=
  repeat match goal with
    | H : json_opt_int _ = json_opt_int _ |- _ => apply json_opt_int_inj in H
    | H : json_opt_str _ = json_opt_str _ |- _ => apply json_opt_str_inj in H
    | H : json_strs _ = json_strs _ |- _ => apply json_strs_inj in H
    | H : map Json.Str _ = map Json.Str _ |- _ => apply strs_inj in H
    | H : map _ (map_to_list _) = map _ (map_to_list _) |- _ => apply profile_members_inj in H
    end.

Lemma book_to_json_inj b1 b2 : book_to_json b1 = book_to_json b2 -> b1 = b2.
Proof.
  destruct b1, b2. unfold book_to_json, Book.id, Book.title, Book.number, Book.logline,
    Book.planned_length, Book.plot_outline, Book.characters, Book.book_char_profiles,
    Book.timeline, Book.themes, Book.created_at.
  intros H. injection H as. fields_inj.
  match goal with H : map event_to_json _ = _ |- _ =>
    apply (map_inj _ _ _ event_to_json_inj) in H end.
  congruence.
Qed.

Lemma character_to_json_inj c1 c2 : character_to_json c1 = character_to_json c2 -> c1 = c2.
Proof. destruct c1, c2. unfold character_to_json. simpl. congruence. Qed.

Lemma location_to_json_inj l1 l2 : location_to_json l1 = location_to_json l2 -> l1 = l2.
Proof. destruct l1, l2. unfold location_to_json. simpl. congruence. Qed.

Lemma lore_to_json_inj l1 l2 : lore_to_json l1 = lore_to_json l2 -> l1 = l2.
Proof. destruct l1, l2. unfold lore_to_json. simpl. congruence. Qed.

Lemma master_event_to_json_inj e1 e2 :
  master_event_to_json e1 = master_event_to_json e2 -> e1 = e2.
Proof.
  destruct e1, e2. unfold master_event_to_json, MasterEvent.when, MasterEvent.desc,
    MasterEvent.book_id.
  intros H. injection H as. fields_inj. congruence.
Qed.

Lemma series_to_json_inj s1 s2 : series_to_json s1 = series_to_json s2 -> s1 = s2.
Proof.
  destruct s1, s2. unfold series_to_json, Series.title, Series.genre, Series.logline,
    Series.planned_books, Series.interconnection_style, Series.protagonist_overall_arc,
    Series.updated_at.
  intros H. injection H as. fields_inj. congruence.
Qed.

Lemma master_to_json_inj m1 m2 : master_to_json m1 = master_to_json m2 -> m1 = m2.
Proof.
  destruct m1, m2. unfold master_to_json, Master.characters, Master.locations, Master.lore.
  intros H. injection H as Hc Hl Hr.
  apply (map_inj _ _ _ character_to_json_inj) in Hc.
  apply (map_inj _ _ _ location_to_json_inj) in Hl.
  apply (map_inj _ _ _ lore_to_json_inj) in Hr. congruence.
Qed.

(** Two documents with the same dict are the same document. *)
Lemma to_json_inj data1 data2 : to_json data1 = to_json data2 -> data1 = data2.
Proof.
  destruct data1 as [[m1] s1 b1 ma1 t1], data2 as [[m2] s2 b2 ma2 t2].
  unfold to_json, meta, series, books, master, timeline, Meta.created_at.
  intros H.
  assert (Hm : m1 = m2) by congruence.
  assert (Hs : match s1 with Some s => series_to_json s | None => Json.Null end
               = match s2 with Some s => series_to_json s | None => Json.Null end)
    by congruence.
  assert (Hb : map book_to_json b1 = map book_to_json b2) by congruence.
  assert (Hma : master_to_json ma1 = master_to_json ma2) by congruence.
  assert (Ht : map master_event_to_json t1 = map master_event_to_json t2) by congruence.
  apply (map_inj _ _ _ book_to_json_inj) in Hb.
  apply master_to_json_inj in Hma.
  apply (map_inj _ _ _ master_event_to_json_inj) in Ht.
  assert (s1 = s2).
  { destruct s1, s2; try discriminate; [|reflexivity].
    f_equal. apply series_to_json_inj, Hs. }
  congruence.
Qed.

(** The text that [save_data] writes is read back by [load_data] as the dict
    that was written. *)
Lemma load_data_after_save data d iso :
  load_data iso (save_data data d) = Some (to_json data, save_data data d).
Proof.
  unfold save_data, load_data. rewrite (loads_dumps _ (wf_to_json data)). reflexivity.
Qed.

(** C8. A document that is saved and then loaded comes back as the dict of
    that very document, from whatever state the file was in before; the file
    keeps the text that was saved. No other document has the same dict. *)
Theorem save_then_load_round_trip (data : document) (d : disk) (iso : string) :
  load_data iso (save_data data d) = Some (to_json data, save_data data d) /\
  (forall data', to_json data' = to_json data -> data' = data).
Proof.
  split.
  - apply load_data_after_save.
  - intros data'. apply to_json_inj.
Qed.

(** On the first run the default document is made and saved; loading again
    gives the same document. *)
Lemma load_data_first_run iso iso' :
  load_data iso None = Some (to_json (default_document iso), save_data (default_document iso) None) /\
  load_data iso' (save_data (default_document iso) None)
    = Some (to_json (default_document iso), save_data (default_document iso) None).
Proof. split; [reflexivity | apply load_data_after_save]. Qed.

(** ** Numbers written and read back: [int(str(n))] *)

Lemma all_digits_pretty_N_go x s :
  Py.all_digits s = true -> Py.all_digits (pretty_N_go x s) = true.
Proof.
  revert s. induction (N.lt_wf_0 x) as [x _ IH]. intros s Hs.
  destruct (decide (x = 0)%N) as [->|Hx]; [exact Hs|].
  rewrite pretty_N_go_step by lia. apply IH; [apply N.div_lt; lia|].
  simpl. rewrite Hs, andb_true_r. unfold Py.is_digit_char.
  rewrite digit_val_pretty_char by (apply N.mod_lt; lia). reflexivity.
Qed.

Lemma pretty_N_go_nonempty x s : (0 < x)%N -> pretty_N_go x s <> "".
Proof.
  intros Hx E. destruct (pretty_N_go_first x s Hx) as (c & tail & d & E' & _).
  congruence.
Qed.

(** The decimal text of a natural number is a non-empty string of digits. *)
Lemma isdigit_pretty_N (x : N) : Py.isdigit (pretty x) = true.
Proof.
  unfold pretty, pretty_N. case_decide as Hx; [reflexivity|].
  assert (Hd := all_digits_pretty_N_go x "" eq_refl).
  destruct (pretty_N_go x "") eqn:E; [|exact Hd].
  exfalso. apply (pretty_N_go_nonempty x ""); [lia | exact E].
Qed.

Lemma digits_value_step d acc s :
  (d < 10)%N ->
  Py.digits_value acc (String (pretty_N_char d) s) = Py.digits_value (10 * acc + Z.of_N d) s.
Proof. intros H. simpl. rewrite (digit_val_pretty_char _ H). reflexivity. Qed.

Lemma digits_value_pretty_N_go x s :
  Py.digits_value 0 (pretty_N_go x s) = Py.digits_value (Z.of_N x) s.
Proof.
  revert s. induction (N.lt_wf_0 x) as [x _ IH]. intros s.
  destruct (decide (x = 0)%N) as [->|Hx]; [reflexivity|].
  rewrite pretty_N_go_step by lia. rewrite IH by (apply N.div_lt; lia).
  rewrite digits_value_step by (apply N.mod_lt; lia). f_equal.
  rewrite (N.div_mod x 10) at 3 by lia. lia.
Qed.

Lemma digits_value_pretty_N (x : N) : Py.digits_value 0 (pretty x) = Z.of_N x.
Proof.
  unfold pretty, pretty_N. case_decide as Hx; [subst; reflexivity|].
  apply digits_value_pretty_N_go.
Qed.

Lemma int_digits_isdigit s :
  Py.isdigit s = true -> Py.int_digits 0 false s = Some (Py.digits_value 0 s).
Proof.
  destruct s as [|c s]; [discriminate|]. simpl.
  intros [Hc Hs]%andb_true_iff. destruct (digit_val_of_digit _ Hc) as [d ->].
  apply int_digits_all_digits, Hs.
Qed.

Lemma lstrip_first c s : Py.isspace c = false -> Py.lstrip (String c s) = String c s.
Proof. intros H. simpl. rewrite H. reflexivity. Qed.

Lemma rstrip_cons c s : Py.rstrip s <> "" -> Py.rstrip (String c s) = String c (Py.rstrip s).
Proof. simpl. destruct (Py.rstrip s); [congruence | reflexivity]. Qed.

(** [int(str(n)) == n] *)
Lemma int_str_int n : Py.int (Py.str_int n) = Some n.
Proof.
  unfold Py.str_int, pretty, pretty_Z. destruct n as [|p|p].
  - reflexivity.
  - change (pretty p) with (pretty (N.pos p)).
    rewrite (int_of_isdigit _ (isdigit_pretty_N _)), digits_value_pretty_N. reflexivity.
  - change (pretty p) with (pretty (N.pos p)).
    pose proof (isdigit_pretty_N (N.pos p)) as Hd.
    assert (Hstrip : Py.strip ("-" +:+ pretty (N.pos p)) = "-" +:+ pretty (N.pos p)).
    { change ("-" +:+ ?s) with (String "-" s). unfold Py.strip.
      rewrite lstrip_first by reflexivity.
      assert (Hr : Py.rstrip (pretty (N.pos p)) = pretty (N.pos p)).
      { apply rstrip_all_digits. destruct (pretty (N.pos p)); [discriminate | exact Hd]. }
      rewrite rstrip_cons; rewrite Hr; [reflexivity|].
      destruct (pretty (N.pos p)); [discriminate | congruence]. }
    unfold Py.int. rewrite Hstrip. change ("-" +:+ ?s) with (String "-" s).
    simpl Ascii.eqb. cbv iota.
    rewrite (int_digits_isdigit _ Hd), digits_value_pretty_N. reflexivity.
Qed.

Lemma strip_str_int n : Py.strip (Py.str_int n) = Py.str_int n.
Proof.
  unfold Py.str_int, pretty, pretty_Z.
  destruct n as [|p|p].
  - reflexivity.
  - change (pretty p) with (pretty (N.pos p)). apply strip_isdigit, isdigit_pretty_N.
  - change (pretty p) with (pretty (N.pos p)).
    pose proof (isdigit_pretty_N (N.pos p)) as Hd.
    change ("-" +:+ ?s) with (String "-" s). unfold Py.strip.
    rewrite lstrip_first by reflexivity.
    assert (Hr : Py.rstrip (pretty (N.pos p)) = pretty (N.pos p)).
    { apply rstrip_all_digits. destruct (pretty (N.pos p)); [discriminate | exact Hd]. }
    rewrite rstrip_cons; rewrite Hr; [reflexivity|].
    destruct (pretty (N.pos p)); [discriminate | congruence].
Qed.

Lemma str_int_nonempty n : Py.str_int n <> "".
Proof.
  intros E. pose proof (int_str_int n) as H. rewrite E in H. discriminate H.
Qed.

(** ** Choosing from a numbered list *)

Lemma choose_from_list_iff (items : list string) answer idx :
  choose_from_list items answer = Some idx <->
  (idx < length items)%nat /\ Py.strip answer <> "" /\
  Py.int (Py.strip answer) = Some (Z.of_nat idx + 1).
Proof.
  unfold choose_from_list.
  destruct items as [|x items].
  { split; [discriminate | simpl; lia]. }
  destruct (String.eqb_spec (Py.strip answer) "") as [E|E].
  { split; [discriminate | tauto]. }
  destruct (Py.int (Py.strip answer)) as [n|]; [|split; [discriminate | intros (_ & _ & ?); discriminate]].
  destruct ((0 <=? n - 1) && (n - 1 <? Z.of_nat (length (x :: items))))%bool eqn:B.
  - apply andb_true_iff in B as [H0%Z.leb_le H1%Z.ltb_lt]. split.
    + intros [= <-]. repeat split; [lia | exact E | f_equal; lia].
    + intros (_ & _ & [= ->]). f_equal. lia.
  - split; [discriminate|]. intros (Hlt & _ & [= ->]).
    apply andb_false_iff in B as [B%Z.leb_gt | B%Z.ltb_ge]; lia.
Qed.

(** Typing the number shown next to an item selects that item. *)
Lemma choose_from_list_number (items : list string) idx :
  (idx < length items)%nat ->
  choose_from_list items (Py.str_int (Z.of_nat idx + 1)) = Some idx.
Proof.
  intros Hlt. apply choose_from_list_iff. rewrite strip_str_int.
  split; [exact Hlt|]. split; [apply str_int_nonempty | apply int_str_int].
Qed.

(** [choose_from_list] answers [idx] exactly when the list has an item at
    [idx] and the answer, stripped, is not empty and reads as the integer
    [idx + 1]; typing the number shown next to an item selects that item. *)
Theorem choose_from_list_spec (items : list string) :
  (forall answer idx,
      choose_from_list items answer = Some idx <->
      (idx < length items)%nat /\ Py.strip answer <> "" /\
      Py.int (Py.strip answer) = Some (Z.of_nat idx + 1)) /\
  (forall idx, (idx < length items)%nat ->
      choose_from_list items (Py.str_int (Z.of_nat idx + 1)) = Some idx).
Proof.
  split; [intros answer idx; apply choose_from_list_iff | apply choose_from_list_number].
Qed.

Lemma choose_from_list_spec_witness :
  choose_from_list ["Ava"; "Kade"; "Rex"] "2" = Some 1%nat.
Proof.
  apply (proj2 (choose_from_list_spec ["Ava"; "Kade"; "Rex"]) 1%nat). simpl. lia.
Defined.

(** ** Continuity check: when the list of issues is empty *)

Lemma name_to_ids_snoc cs c :
  name_to_ids (cs ++ [c])
  = setdefault_append (Py.lower (Character.name c)) (Character.id c) (name_to_ids cs).
Proof. unfold name_to_ids. rewrite foldl_app. reflexivity. Qed.

Lemma setdefault_append_keys key cid d k :
  In k (map fst (setdefault_append key cid d)) <-> k = key \/ In k (map fst d).
Proof.
  induction d as [|[k' ids] d IH]; simpl.
  - intuition congruence.
  - destruct (String.eqb_spec k' key) as [->|Hne]; simpl; [intuition congruence|].
    rewrite IH. tauto.
Qed.

Lemma total_ids_setdefault_append key cid d :
  total_ids (setdefault_append key cid d) = S (total_ids d).
Proof.
  induction d as [|[k ids] d IH]; simpl; [reflexivity|].
  destruct (String.eqb_spec k key); simpl; [rewrite length_app; simpl; lia | rewrite IH; lia].
Qed.

Lemma setdefault_append_NoDup key cid d :
  NoDup (map fst d) -> NoDup (map fst (setdefault_append key cid d)).
Proof.
  induction d as [|[k ids] d IH]; simpl.
  - intros _. apply NoDup_singleton.
  - intros [Hk Hd]%NoDup_cons. destruct (String.eqb_spec k key) as [->|Hne]; simpl.
    + apply NoDup_cons. tauto.
    + apply NoDup_cons. split; [|apply IH, Hd].
      rewrite list_elem_of_In, setdefault_append_keys, <- list_elem_of_In. intuition congruence.
Qed.

(** The dict of names: its keys are distinct, they are the lower-cased names
    of the characters, and the ids listed under them are as many as the
    characters. *)
Lemma name_to_ids_spec cs :
  NoDup (map fst (name_to_ids cs)) /\
  total_ids (name_to_ids cs) = length cs /\
  (forall k, In k (map fst (name_to_ids cs)) <->
             In k (map (fun c => Py.lower (Character.name c)) cs)).
Proof.
  induction cs as [|c cs (Hnd & Htot & Hkeys)] using rev_ind.
  - split; [constructor|]. split; reflexivity.
  - rewrite name_to_ids_snoc. split; [apply setdefault_append_NoDup, Hnd|]. split.
    + rewrite total_ids_setdefault_append, Htot, length_app. simpl. lia.
    + intros k. rewrite setdefault_append_keys, Hkeys, map_app, in_app_iff. simpl.
      intuition congruence.
Qed.

(** When no entry lists two ids, there are at least as many keys as ids. *)
Lemma shared_names_nil_total d :
  shared_names d = [] -> (total_ids d <= length d)%nat.
Proof.
  unfold shared_names. induction d as [|[k ids] d IH]; simpl; [lia|].
  destruct (Nat.ltb_spec 1 (length ids)) as [Hlt|Hle]; [discriminate|]. simpl.
  intros Hd. specialize (IH Hd). lia.
Qed.

Lemma names_unique_of_no_shared cs :
  shared_names (name_to_ids cs) = [] ->
  NoDup (map (fun c => Py.lower (Character.name c)) cs).
Proof.
  intros H. destruct (name_to_ids_spec cs) as (Hnd & Htot & Hkeys).
  apply shared_names_nil_total in H. rewrite Htot in H.
  apply NoDup_ListNoDup.
  apply List.NoDup_incl_NoDup with (l := map fst (name_to_ids cs)).
  - apply NoDup_ListNoDup, Hnd.
  - rewrite !length_map. exact H.
  - intros k Hk. apply Hkeys, Hk.
Qed.

Lemma missing_in_book_nil_inv ids b :
  missing_in_book ids b = [] ->
  forall cid, cid ∈ Book.characters b -> is_Some (ids !! cid).
Proof.
  unfold missing_in_book. induction (Book.characters b) as [|x l IH]; simpl.
  - intros _ cid H. inversion H.
  - intros H cid Hin. apply app_eq_nil in H as [Hx Hl].
    apply elem_of_cons in Hin as [->|Hin]; [|apply IH; assumption].
    destruct (ids !! x); [eauto | discriminate].
Qed.

Lemma flat_map_nil_inv {A B} (f : A -> list B) l :
  flat_map f l = [] -> forall x, In x l -> f x = [].
Proof.
  induction l as [|y l IH]; simpl; [intros _ x []|].
  intros [Hy Hl]%app_eq_nil x [->|Hx]; [exact Hy | apply IH; assumption].
Qed.

(** The list of issues is empty exactly when every character id that a book
    refers to is the id of a master character and no two master characters
    have names that are equal once lower-cased. *)
Theorem continuity_check_empty_iff (data : document) :
  continuity_check data = [] <->
  references_resolve data /\ names_unique_ignoring_case data.
Proof.
  split.
  - unfold continuity_check. intros [Hmiss Hshared]%app_eq_nil. split.
    + intros b cid Hb Hcid.
      pose proof (flat_map_nil_inv _ _ Hmiss b (proj1 (list_elem_of_In _ _) Hb)) as Hbm.
      destruct (missing_in_book_nil_inv _ _ Hbm cid Hcid) as [c Hc].
      destruct (decide (cid ∈ map Character.id (Master.characters (master data))))
        as [Hin|Hout].
      * apply list_elem_of_In, in_map_iff in Hin as (c' & Hid & Hc'). exists c'.
        split; [apply list_elem_of_In, Hc' | exact Hid].
      * rewrite list_elem_of_In in Hout. apply master_ids_lookup in Hout. congruence.
    + apply names_unique_of_no_shared, Hshared.
  - intros [Href Hnames].
    unfold continuity_check.
    rewrite (name_to_ids_unique _ Hnames), shared_names_singletons, app_nil_r.
    assert (H : forall b, b ∈ books data ->
                missing_in_book (master_ids (Master.characters (master data))) b = []).
    { intros b Hb. apply missing_in_book_nil. intros cid Hcid.
      destruct (Href b cid Hb Hcid) as (c & Hc & <-).
      destruct (master_ids (Master.characters (master data)) !! Character.id c) eqn:E; [eauto|].
      exfalso. apply master_ids_lookup in E. apply E, in_map, list_elem_of_In, Hc. }
    induction (books data) as [|b bs IH]; [reflexivity|]. simpl.
    rewrite (H b) by left. apply IH. intros b' Hb'. apply H. right. exact Hb'.
Qed.

(** * The menus as a whole *)

(** ** What one action does to the books and to the master characters *)

Lemma map_id_insert (cs : list Character.t) idx c c' :
  cs !! idx = Some c -> Character.id c' = Character.id c ->
  map Character.id (<[idx := c']> cs) = map Character.id cs.
Proof.
  intros Hc Hid. rewrite list_fmap_insert, Hid.
  apply list_insert_id. rewrite list_lookup_fmap, Hc. reflexivity.
Qed.

(** The action left the books and the master characters as they were. *)
Local Ltac same := left; split; [reflexivity | left; reflexivity].

(** The action replaced the book [b] by [b']. *)
Local Ltac one_book b b' E :=
  left; split; [reflexivity | right; right; eexists _, b, b';
                split; [exact E | split; [reflexivity | split; [reflexivity | split; [reflexivity|]]]]].

(** An action either works on the books and leaves the master characters
    (a new book without characters at the end, or one book replaced by a
    book with the same id and themes whose new references are ids of master
    characters), or works on the master characters and leaves the books (a
    character with a current analysis at the end, or one character replaced
    by a character with the same id and a current analysis), or is the
    deletion of a master character with its loop over the books. *)
Lemma perform_effect (data : document) (a : action) :
  (Master.characters (master (perform data a)) = Master.characters (master data) /\
   (books (perform data a) = books data \/
    (exists b, books (perform data a) = books data ++ [b] /\
               Book.characters b = [] /\ Book.book_char_profiles b = ∅ /\
               Book.themes b = [] /\
               exists ts, Book.id b = "book_" +:+ Py.str_int (Z.of_nat (length (books data)) + 1)
                                              +:+ "_" +:+ Py.str_int ts) \/
    (exists bidx book book',
        books data !! bidx = Some book /\
        books (perform data a) = <[bidx := book']> (books data) /\
        Book.id book' = Book.id book /\ Book.themes book' = Book.themes book /\
        forall cid, cid ∈ Book.characters book' ->
                    cid ∈ Book.characters book \/ cid ∈ map Character.id (Master.characters (master data))))) \/
  (books (perform data a) = books data /\
   ((exists c, Master.characters (master (perform data a))
               = Master.characters (master data) ++ [c] /\
               Character.personality_analysis c
               = analyze_personality_text (Character.personality c)) \/
    (exists idx c c',
        Master.characters (master data) !! idx = Some c /\
        Master.characters (master (perform data a))
        = <[idx := c']> (Master.characters (master data)) /\
        Character.id c' = Character.id c /\
        Character.personality_analysis c'
        = analyze_personality_text (Character.personality c')))) \/
  (exists idx c,
      Master.characters (master data) !! idx = Some c /\
      Master.characters (master (perform data a)) = delete idx (Master.characters (master data)) /\
      books (perform data a) = map (remove_reference (Character.id c)) (books data)).
Proof.
  destruct a; simpl.
  - unfold edit_series_overview. destruct (String.eqb _ _); same.
  - left. split; [reflexivity|]. right; left. eexists. split; [reflexivity|].
    simpl. repeat split. eexists. reflexivity.
  - unfold edit_book_basic_info. destruct (books data !! bidx) as [book|] eqn:E; [|same].
    one_book book (edit_basic_info book title num logline) E. intros cid H. left. exact H.
  - unfold manage_book_plot. destruct (books data !! bidx) as [book|] eqn:E; [|same].
    simpl. destruct (String.eqb _ "1").
    { one_book book (set_plot_outline (Book.plot_outline book ++ [line]) book) E.
      intros cid H. left. exact H. }
    destruct (String.eqb _ "2"); [|same].
    destruct (choose_from_list _ _) as [i|]; [|same].
    one_book book (set_plot_outline (delete i (Book.plot_outline book)) book) E.
    intros cid H. left. exact H.
  - unfold manage_book_timeline. destruct (books data !! bidx) as [book|] eqn:E; [|same].
    simpl. destruct (String.eqb _ "1").
    { one_book book (set_book_timeline
                       (Book.timeline book ++ [Event.mk (Py.strip line1) (Py.strip line2)]) book) E.
      intros cid H. left. exact H. }
    destruct (String.eqb _ "2"); [|same].
    destruct (Book.timeline book) as [|e es] eqn:Et; [same|].
    destruct (choose_from_list _ _) as [i|]; [|same].
    one_book book (set_book_timeline (delete i (e :: es)) book) E.
    intros cid H. left. exact H.
  - unfold add_existing_character. destruct (books data !! bidx) as [book|] eqn:E; [|same].
    destruct (choose_from_list _ _) as [idx|]; [|same].
    destruct (Master.characters (master data) !! idx) as [c|] eqn:Ec; [|same].
    destruct (str_in _ _); simpl; [same|].
    left; split; [reflexivity | right; right]. eexists _, book, _.
    split; [exact E|]. split; [reflexivity|]. split; [reflexivity|]. split; [reflexivity|].
    simpl. intros cid [H| ->%list_elem_of_singleton]%elem_of_app; [left; exact H | right].
    apply list_elem_of_lookup. exists idx. rewrite list_lookup_fmap, Ec. reflexivity.
  - right; left. split; [reflexivity|]. left. eexists. split; [reflexivity | reflexivity].
  - unfold edit_book_character_profile. destruct (books data !! bidx) as [book|] eqn:E; [|same].
    destruct (choose_from_list _ _) as [sel|]; [|same].
    destruct (Book.characters book !! sel) as [cid|]; [|same].
    left; split; [reflexivity | right; right]. eexists _, book, _.
    split; [exact E|]. split; [reflexivity|]. split; [reflexivity|]. split; [reflexivity|].
    intros x H. left. exact H.
  - unfold remove_book_character. destruct (books data !! bidx) as [book|] eqn:E; [|same].
    destruct (choose_from_list _ _) as [sel|]; [|same].
    destruct (Book.characters book !! sel) as [cid|]; [|same].
    left; split; [reflexivity | right; right]. eexists _, book, _.
    split; [exact E|]. split; [reflexivity|]. split; [reflexivity|]. split; [reflexivity|].
    simpl. intros x H. left. eapply list_elem_of_delete_inv, H.
  - right; left. split; [reflexivity|]. left. eexists. split; [reflexivity | reflexivity].
  - unfold edit_master_character. destruct (choose_from_list _ _) as [idx|]; [|same].
    destruct (Master.characters (master data) !! idx) as [c|] eqn:Ec; [|same].
    right; left. split; [reflexivity|]. right. eexists idx, c, _.
    split; [exact Ec|]. split; [reflexivity|]. split; reflexivity.
  - unfold delete_master_character. destruct (choose_from_list _ _) as [idx|]; [|same].
    unfold delete_master_character_at.
    destruct (Master.characters (master data) !! idx) as [c|] eqn:Ec; [|same].
    right; right. exists idx, c. split; [exact Ec|]. split; reflexivity.
  - same.
  - unfold edit_master_location. destruct (choose_from_list _ _) as [idx|]; [|same].
    destruct (Master.locations (master data) !! idx); same.
  - unfold delete_master_location. destruct (choose_from_list _ _); same.
  - same.
  - unfold edit_master_lore. destruct (choose_from_list _ _) as [idx|]; [|same].
    destruct (Master.lore (master data) !! idx); same.
  - unfold delete_master_lore. destruct (choose_from_list _ _); same.
  - same.
  - unfold edit_master_event. destruct (timeline data); [same|].
    destruct (choose_from_list _ _) as [idx|]; [|same].
    destruct (_ !! idx); same.
  - unfold remove_master_event. destruct (choose_from_list _ _); same.
Qed.

(** ** Invariants of the menus *)

Lemma session_snoc data acts a : session data (acts ++ [a]) = perform (session data acts) a.
Proof. unfold session. rewrite foldl_app. reflexivity. Qed.

(** What every action keeps is kept by a whole session. *)
Lemma session_invariant (P : document -> Prop) :
  (forall data a, P data -> P (perform data a)) ->
  forall data acts, P data -> P (session data acts).
Proof.
  intros Hstep data acts. revert data.
  induction acts as [|a acts IH]; intros data H; [exact H|].
  apply IH, Hstep, H.
Qed.

Lemma book_in_sync_same_characters b b' :
  Book.characters b' = Book.characters b ->
  Book.book_char_profiles b' = Book.book_char_profiles b ->
  book_in_sync b -> book_in_sync b'.
Proof. unfold book_in_sync. intros -> ->. tauto. Qed.

Lemma books_in_sync_same_books data data' :
  books data' = books data -> books_in_sync data -> books_in_sync data'.
Proof. unfold books_in_sync. intros ->. tauto. Qed.

Lemma books_in_sync_lookup data bidx book :
  books_in_sync data -> books data !! bidx = Some book -> book_in_sync book.
Proof. intros Hs E. apply Hs. eapply list_elem_of_lookup_2, E. Qed.

Lemma books_in_sync_perform data a : books_in_sync data -> books_in_sync (perform data a).
Proof.
  intros Hs.
  assert (Hsame : forall data', books data' = books data -> books_in_sync data')
    by (intros data' E; exact (books_in_sync_same_books _ _ E Hs)).
  destruct a; simpl.
  - apply Hsame. unfold edit_series_overview. destruct (String.eqb _ _); reflexivity.
  - apply books_in_sync_create_book, Hs.
  - apply books_in_sync_edit_book_basic_info, Hs.
  - unfold manage_book_plot. destruct (books data !! bidx) as [book|] eqn:E; [|exact Hs].
    pose proof (books_in_sync_lookup _ _ _ Hs E) as Hb. simpl.
    destruct (String.eqb _ "1").
    { apply books_in_sync_insert; [exact Hs|].
      apply (book_in_sync_same_characters book); [reflexivity | reflexivity | exact Hb]. }
    destruct (String.eqb _ "2"); [|exact Hs].
    destruct (choose_from_list _ _) as [i|]; [|exact Hs].
    apply books_in_sync_insert; [exact Hs|].
    apply (book_in_sync_same_characters book); [reflexivity | reflexivity | exact Hb].
  - unfold manage_book_timeline. destruct (books data !! bidx) as [book|] eqn:E; [|exact Hs].
    pose proof (books_in_sync_lookup _ _ _ Hs E) as Hb. simpl.
    destruct (String.eqb _ "1").
    { apply books_in_sync_insert; [exact Hs|].
      apply (book_in_sync_same_characters book); [reflexivity | reflexivity | exact Hb]. }
    destruct (String.eqb _ "2"); [|exact Hs].
    destruct (Book.timeline book) as [|e es]; [exact Hs|].
    destruct (choose_from_list _ _) as [i|]; [|exact Hs].
    apply books_in_sync_insert; [exact Hs|].
    apply (book_in_sync_same_characters book); [reflexivity | reflexivity | exact Hb].
  - apply books_in_sync_add_existing_character, Hs.
  - apply books_in_sync_create_and_add_character, Hs.
  - apply books_in_sync_edit_book_character_profile, Hs.
  - apply books_in_sync_remove_book_character, Hs.
  - apply books_in_sync_create_master_character, Hs.
  - apply Hsame. unfold edit_master_character.
    destruct (choose_from_list _ _) as [idx|]; [|reflexivity].
    destruct (_ !! idx); reflexivity.
  - apply books_in_sync_delete_master_character, Hs.
  - apply Hsame. reflexivity.
  - apply Hsame. unfold edit_master_location.
    destruct (choose_from_list _ _) as [idx|]; [|reflexivity].
    destruct (_ !! idx); reflexivity.
  - apply Hsame. unfold delete_master_location. destruct (choose_from_list _ _); reflexivity.
  - apply Hsame. reflexivity.
  - apply Hsame. unfold edit_master_lore.
    destruct (choose_from_list _ _) as [idx|]; [|reflexivity].
    destruct (_ !! idx); reflexivity.
  - apply Hsame. unfold delete_master_lore. destruct (choose_from_list _ _); reflexivity.
  - apply Hsame. reflexivity.
  - apply Hsame. unfold edit_master_event. destruct (timeline data); [reflexivity|].
    destruct (choose_from_list _ _) as [idx|]; [|reflexivity].
    destruct (_ !! idx); reflexivity.
  - apply Hsame. unfold remove_master_event. destruct (choose_from_list _ _); reflexivity.
Qed.

(** [references_resolve] in terms of the list of ids. *)
Lemma references_resolve_ids data :
  references_resolve data <->
  forall b cid, b ∈ books data -> cid ∈ Book.characters b ->
                cid ∈ map Character.id (Master.characters (master data)).
Proof.
  unfold references_resolve. split; intros H b cid Hb Hcid.
  - destruct (H b cid Hb Hcid) as (c & Hc & <-). apply list_elem_of_fmap_2, Hc.
  - pose proof (H b cid Hb Hcid) as Hin.
    apply list_elem_of_fmap in Hin as (c & -> & Hc). eauto.
Qed.

Lemma elem_of_delete_other_id (cs : list Character.t) idx c cid :
  cs !! idx = Some c -> cid <> Character.id c ->
  cid ∈ map Character.id cs -> cid ∈ map Character.id (delete idx cs).
Proof.
  revert idx. induction cs as [|x cs IH]; intros idx Hc Hne Hin; [inversion Hin|].
  destruct idx as [|idx]; simpl in *.
  - injection Hc as ->. apply elem_of_cons in Hin as [?|?]; [congruence | assumption].
  - apply elem_of_cons in Hin as [->|Hin]; [left | right; eapply IH; eassumption].
Qed.

Lemma references_resolve_perform data a :
  books_in_sync data -> references_resolve data -> references_resolve (perform data a).
Proof.
  rewrite !references_resolve_ids. intros Hs Hr.
  destruct (perform_effect data a)
    as [[Hm [Hb | [(b & Hb & Hcs & _) | (bidx & book & book' & E & Hb & _ & _ & Hnew)]]]
       | [[Hb [(c & Hm & _) | (idx & c & c' & Ec & Hm & Hid & _)]]
         | (idx & c & Ec & Hm & Hb)]];
    rewrite ?Hm, ?Hb.
  - exact Hr.
  - intros b' cid [H| ->%list_elem_of_singleton]%elem_of_app Hcid; [eauto|].
    rewrite Hcs in Hcid. inversion Hcid.
  - intros b' cid Hb' Hcid. apply list_elem_of_lookup in Hb' as [i Hi].
    apply list_lookup_insert_Some in Hi as [(_ & <- & _)|[_ Hi]].
    + destruct (Hnew cid Hcid) as [H|H]; [|exact H].
      eapply Hr; [eapply list_elem_of_lookup_2, E | exact H].
    + eapply Hr; [eapply list_elem_of_lookup_2, Hi | exact Hcid].
  - intros b cid Hin Hcid. rewrite map_app. apply elem_of_app. left. eauto.
  - rewrite (map_id_insert _ _ _ _ Ec Hid). exact Hr.
  - intros b' cid Hb' Hcid. apply list_elem_of_fmap in Hb' as (b & -> & Hin).
    destruct (remove_reference_in_sync (Character.id c) b (Hs b Hin)) as [Hcs _].
    rewrite Hcs in Hcid. apply list_elem_of_filter in Hcid as [Hne Hcid].
    apply (elem_of_delete_other_id _ _ c); [exact Ec | exact Hne | eauto].
Qed.

Lemma analysis_current_perform data a :
  analysis_current data -> analysis_current (perform data a).
Proof.
  unfold analysis_current. intros Ha.
  destruct (perform_effect data a)
    as [[Hm _] | [[_ [(c & Hm & Hc) | (idx & c & c' & Ec & Hm & _ & Hc)]]
                 | (idx & c & _ & Hm & _)]];
    rewrite Hm.
  - exact Ha.
  - intros x [H| ->%list_elem_of_singleton]%elem_of_app; [apply Ha, H | exact Hc].
  - intros x Hx. apply list_elem_of_lookup in Hx as [i Hi].
    apply list_lookup_insert_Some in Hi as [(_ & <- & _)|[_ Hi]]; [exact Hc|].
    eapply Ha, list_elem_of_lookup_2, Hi.
  - intros x Hx. eapply Ha, list_elem_of_delete_inv, Hx.
Qed.

Lemma no_themes_perform data a : no_themes data -> no_themes (perform data a).
Proof.
  unfold no_themes. intros Ht.
  destruct (perform_effect data a)
    as [[_ [Hb | [(b & Hb & _ & _ & Hth & _) | (bidx & book & book' & E & Hb & _ & Hth & _)]]]
       | [[Hb _] | (idx & c & _ & _ & Hb)]];
    rewrite Hb.
  - exact Ht.
  - intros x [H| ->%list_elem_of_singleton]%elem_of_app; [apply Ht, H | exact Hth].
  - intros x Hx. apply list_elem_of_lookup in Hx as [i Hi].
    apply list_lookup_insert_Some in Hi as [(_ & <- & _)|[_ Hi]].
    + rewrite Hth. eapply Ht, list_elem_of_lookup_2, E.
    + eapply Ht, list_elem_of_lookup_2, Hi.
  - exact Ht.
  - intros x Hx. apply list_elem_of_fmap in Hx as (b & -> & Hin).
    destruct (remove_reference_frame (Character.id c) b) as (_ & _ & _ & _ & _ & _ & _ & Hth & _).
    rewrite Hth. apply Ht, Hin.
Qed.

(** ** No book refers to a character that is gone *)

Lemma flat_map_nil_intro {A B} (f : A -> list B) l :
  (forall x, In x l -> f x = []) -> flat_map f l = [].
Proof.
  induction l as [|y l IH]; intros H; [reflexivity|]. simpl.
  rewrite (H y) by (left; reflexivity). apply IH. intros x Hx. apply H. right. exact Hx.
Qed.

(** Whatever is done in the menus, from a document whose books agree with
    their profile maps and refer to master characters only, every reference
    of a book is still the id of a master character afterwards, the books
    still agree with their profile maps, and the continuity check reports no
    missing character. *)
Theorem no_dangling_reference (data : document) (acts : list action) :
  books_in_sync data -> references_resolve data ->
  books_in_sync (session data acts) /\
  references_resolve (session data acts) /\
  forall title cid, MissingCharacter title cid ∉ continuity_check (session data acts).
Proof.
  intros Hs Hr.
  assert (H : books_in_sync (session data acts) /\ references_resolve (session data acts)).
  { apply (session_invariant (fun d => books_in_sync d /\ references_resolve d));
      [|split; assumption].
    intros d a [Hs' Hr']. split;
      [apply books_in_sync_perform, Hs' | apply references_resolve_perform; assumption]. }
  destruct H as [Hs' Hr']. split; [exact Hs'|]. split; [exact Hr'|].
  intros title cid. unfold continuity_check.
  replace (flat_map _ (books (session data acts))) with (@nil issue).
  - simpl. unfold shared_names. intros Hin.
    apply list_elem_of_In, in_flat_map in Hin as ([name l] & _ & Hin).
    simpl in Hin. destruct (_ <? _)%nat in Hin; [|inversion Hin].
    destruct Hin as [Hin|[]]. discriminate Hin.
  - symmetry. apply flat_map_nil_intro. intros b Hb.
    apply missing_in_book_nil. intros x Hx.
    destruct (Hr' b x (proj2 (list_elem_of_In _ _) Hb) Hx) as (c & Hc & <-).
    destruct (master_ids _ !! Character.id c) eqn:E; [eauto|].
    exfalso. apply master_ids_lookup in E. apply E, in_map, list_elem_of_In, Hc.
Qed.

Lemma no_dangling_reference_witness :
  let acts := [ CreateMasterCharacter "Ava" "Hero" "kind" "" "" 1700000000 "2023-11-14T22:13:20";
                CreateBook "The Start" "1" "A beginning." "" 1700000001 "2023-11-14T22:13:21";
                AddExistingCharacter 0 "1";
                DeleteMasterCharacter "1" ] in
  books_in_sync (session (default_document "2023-11-14T22:13:20") acts) /\
  references_resolve (session (default_document "2023-11-14T22:13:20") acts) /\
  forall title cid,
    MissingCharacter title cid ∉ continuity_check (session (default_document "2023-11-14T22:13:20") acts).
Proof.
  apply (no_dangling_reference (default_document "2023-11-14T22:13:20")).
  - apply books_in_sync_default.
  - intros b cid Hb. inversion Hb.
Defined.

(** ** The stored analysis is the analysis of the stored personality *)

(** Creating and editing a master character both compute the analysis from
    the personality text they store, and nothing else writes either field:
    whatever is done in the menus, every master character carries the
    analysis of its current personality text. *)
Theorem analysis_always_current (data : document) (acts : list action) :
  analysis_current data -> analysis_current (session data acts).
Proof. apply (session_invariant analysis_current), analysis_current_perform. Qed.

Lemma analysis_always_current_witness :
  analysis_current
    (session (default_document "2023-11-14T22:13:20")
       [ CreateMasterCharacter "Ava" "Hero" "kind" "" "" 1700000000 "2023-11-14T22:13:20";
         EditMasterCharacter "1" "" "" "blunt and curious" "" "" ]).
Proof.
  apply (analysis_always_current (default_document "2023-11-14T22:13:20")).
  intros c Hc. inversion Hc.
Defined.

(** ** Themes cannot be entered *)

(** No branch of any menu writes the theme list of a book, and a new book
    has none: from a document without theme tags, whatever is done in the
    menus, the thematic cohesion analysis prints its heading and the
    no-themes message. *)
Theorem themes_never_recorded (data : document) (acts : list action) :
  no_themes data ->
  no_themes (session data acts) /\
  thematic_cohesion (session data acts)
  = [Print (nl +:+ "--- Thematic Cohesion Analysis ---"); Print no_themes_message].
Proof.
  intros Ht.
  assert (Ht' : no_themes (session data acts))
    by (revert Ht; apply (session_invariant no_themes), no_themes_perform).
  split; [exact Ht'|]. unfold thematic_cohesion.
  rewrite theme_counts_flat. apply flat_map_themes_nil in Ht'. rewrite Ht'. reflexivity.
Qed.

Lemma themes_never_recorded_witness :
  let data := session (default_document "2023-11-14T22:13:20")
                [ CreateBook "The Start" "1" "A beginning." "" 1700000001 "2023-11-14T22:13:21";
                  EditBookBasicInfo 0 "The Start: courage" "" "courage and loss" ] in
  no_themes data /\
  thematic_cohesion data
  = [Print (nl +:+ "--- Thematic Cohesion Analysis ---"); Print no_themes_message].
Proof.
  apply (themes_never_recorded (default_document "2023-11-14T22:13:20")).
  intros b Hb. inversion Hb.
Defined.

(** ** The ids of the books *)

(** Two texts made of digits that are followed by an underscore are equal
    when the whole texts are. *)
Lemma digits_before_underscore s1 s2 r1 r2 :
  Py.all_digits s1 = true -> Py.all_digits s2 = true ->
  s1 +:+ "_" +:+ r1 = s2 +:+ "_" +:+ r2 -> s1 = s2.
Proof.
  revert s2. induction s1 as [|c s1 IH]; intros [|c2 s2] H1 H2 E.
  - reflexivity.
  - exfalso. injection E as Ec _. subst c2. discriminate H2.
  - exfalso. injection E as Ec _. subst c. discriminate H1.
  - injection E as -> E. apply andb_true_iff in H1 as [_ H1].
    apply andb_true_iff in H2 as [_ H2]. f_equal. exact (IH _ H1 H2 E).
Qed.

Lemma str_int_inj a b : Py.str_int a = Py.str_int b -> a = b.
Proof.
  intros E. pose proof (int_str_int a) as Ha. rewrite E, int_str_int in Ha. congruence.
Qed.

Lemma all_digits_str_int n : 0 <= n -> Py.all_digits (Py.str_int n) = true.
Proof.
  intros Hn. unfold Py.str_int, pretty, pretty_Z. destruct n as [|p|p]; [reflexivity | | lia].
  change (pretty p) with (pretty (N.pos p)).
  pose proof (isdigit_pretty_N (N.pos p)) as H.
  destruct (pretty (N.pos p)); [discriminate | exact H].
Qed.

Lemma book_ids_positional_perform data a :
  book_ids_positional data -> book_ids_positional (perform data a).
Proof.
  unfold book_ids_positional. intros Hp.
  destruct (perform_effect data a)
    as [[_ [Hb | [(b & Hb & _ & _ & _ & ts & Hid) | (bidx & book & book' & E & Hb & Hid & _)]]]
       | [[Hb _] | (idx & c & _ & _ & Hb)]];
    rewrite Hb.
  - exact Hp.
  - intros i x Hi. apply lookup_app_Some in Hi as [Hi|[Hlen Hi]]; [eauto|].
    apply list_lookup_singleton_Some in Hi as [Hi ->].
    exists ts. rewrite Hid. repeat f_equal. lia.
  - intros i x Hi.
    apply list_lookup_insert_Some in Hi as [(-> & <- & _)|[_ Hi]]; [|eauto].
    rewrite Hid. eauto.
  - exact Hp.
  - intros i x Hi. rewrite list_lookup_fmap in Hi.
    destruct (books data !! i) as [b|] eqn:E; [|discriminate]. injection Hi as <-.
    destruct (remove_reference_frame (Character.id c) b) as (Hid & _). rewrite Hid. eauto.
Qed.

Lemma book_ids_positional_NoDup data :
  book_ids_positional data -> NoDup (map Book.id (books data)).
Proof.
  intros Hp. apply NoDup_alt. intros i j x Hi Hj.
  rewrite list_lookup_fmap in Hi, Hj.
  destruct (books data !! i) as [bi|] eqn:Ei; [|discriminate].
  destruct (books data !! j) as [bj|] eqn:Ej; [|discriminate].
  simpl in Hi, Hj. injection Hi as Hi. injection Hj as Hj.
  destruct (Hp _ _ Ei) as [ti Hti]. destruct (Hp _ _ Ej) as [tj Htj].
  rewrite Hti in Hi. rewrite Htj, <- Hi in Hj.
  change ("book_" +:+ ?s) with (String "b" (String "o" (String "o" (String "k" (String "_" s))))) in Hj.
  injection Hj as Hj.
  apply digits_before_underscore in Hj; [|apply all_digits_str_int; lia ..].
  apply str_int_inj in Hj. lia.
Qed.

(** Books are only ever added at the end and [create_book] numbers the id
    by the position: whatever is done in the menus, from a document whose
    book ids are the ones [create_book] wrote, no two books have the same
    id, also when they are made within the same second. *)
Theorem book_ids_distinct (data : document) (acts : list action) :
  book_ids_positional data ->
  book_ids_positional (session data acts) /\ NoDup (map Book.id (books (session data acts))).
Proof.
  intros Hp.
  assert (Hp' : book_ids_positional (session data acts))
    by (revert Hp; apply (session_invariant book_ids_positional), book_ids_positional_perform).
  split; [exact Hp' | apply book_ids_positional_NoDup, Hp'].
Qed.

Lemma book_ids_distinct_witness :
  let data := session (default_document "2023-11-14T22:13:20")
                [ CreateBook "The Start" "1" "" "" 1700000000 "2023-11-14T22:13:20";
                  CreateBook "The End" "2" "" "" 1700000000 "2023-11-14T22:13:20" ] in
  book_ids_positional data /\ NoDup (map Book.id (books data)).
Proof.
  apply (book_ids_distinct (default_document "2023-11-14T22:13:20")).
  intros i b Hi. discriminate Hi.
Defined.

(** * Undoing an addition *)

Lemma set_books_same data : set_books (books data) data = data.
Proof. destruct data. reflexivity. Qed.

Lemma set_timeline_same data : set_timeline (timeline data) data = data.
Proof. destruct data. reflexivity. Qed.

Lemma set_master_characters_same data :
  set_master_characters (Master.characters (master data)) data = data.
Proof. destruct data as [? ? ? [] ?]. reflexivity. Qed.

Lemma set_master_locations_same data :
  set_master_locations (Master.locations (master data)) data = data.
Proof. destruct data as [? ? ? [] ?]. reflexivity. Qed.

Lemma set_master_lore_same data : set_master_lore (Master.lore (master data)) data = data.
Proof. destruct data as [? ? ? [] ?]. reflexivity. Qed.

Lemma delete_last {A} (l : list A) x : delete (length l) (l ++ [x]) = l.
Proof. induction l as [|y l IH]; [reflexivity|]. simpl. rewrite IH. reflexivity. Qed.

(** The number shown next to the entry that was added last selects it. *)
Lemma choose_last (items : list string) x :
  choose_from_list (items ++ [x]) (Py.str_int (Z.of_nat (length items) + 1))
  = Some (length items).
Proof. apply choose_from_list_number. rewrite length_app. simpl. lia. Qed.

Lemma choose_last_of (items : list string) x n :
  n = length items ->
  choose_from_list (items ++ [x]) (Py.str_int (Z.of_nat n + 1)) = Some n.
Proof. intros ->. apply choose_last. Qed.

Lemma set_books_insert_back data bidx book book' :
  books data !! bidx = Some book ->
  set_books (<[bidx := book]> (books (set_books (<[bidx := book']> (books data)) data)))
            (set_books (<[bidx := book']> (books data)) data) = data.
Proof.
  intros E. destruct data as [m s bs ma t]. unfold set_books. simpl in *.
  rewrite list_insert_insert_eq, (list_insert_id _ _ _ E). reflexivity.
Qed.

(** In each of the five collections that are plain lists (the plot beats
    and the events of a book, the master time line, the locations and the
    lore), adding an entry and then removing the entry with the last number
    gives back the document as it was, whatever was typed for the entry. *)
Theorem add_then_remove_last (data : document) :
  (forall bidx book beat,
      books data !! bidx = Some book ->
      manage_book_plot (manage_book_plot data bidx "1" beat) bidx "2"
        (Py.str_int (Z.of_nat (length (Book.plot_outline book)) + 1)) = data) /\
  (forall bidx book when desc,
      books data !! bidx = Some book ->
      manage_book_timeline (manage_book_timeline data bidx "1" when desc) bidx "2"
        (Py.str_int (Z.of_nat (length (Book.timeline book)) + 1)) "" = data) /\
  (forall when desc book_id,
      remove_master_event (add_master_event data when desc book_id)
        (Py.str_int (Z.of_nat (length (timeline data)) + 1)) = data) /\
  (forall name brief evolution ts iso,
      delete_master_location (create_master_location data name brief evolution ts iso)
        (Py.str_int (Z.of_nat (length (Master.locations (master data))) + 1)) = data) /\
  (forall title summary ts iso,
      delete_master_lore (create_master_lore data title summary ts iso)
        (Py.str_int (Z.of_nat (length (Master.lore (master data))) + 1)) = data).
Proof.
  split; [|split; [|split; [|split]]].
  - intros bidx book beat E. unfold manage_book_plot at 2. rewrite E. simpl.
    unfold manage_book_plot. simpl.
    rewrite list_lookup_insert_eq by (eapply lookup_lt_Some, E). simpl.
    rewrite choose_last, delete_last.
    replace (set_plot_outline _ _) with book by (destruct book; reflexivity).
    apply set_books_insert_back, E.
  - intros bidx book when desc E. unfold manage_book_timeline at 2. rewrite E. simpl.
    unfold manage_book_timeline. simpl.
    rewrite list_lookup_insert_eq by (eapply lookup_lt_Some, E). simpl.
    destruct (Book.timeline book ++ _) as [|e es] eqn:Et;
      [destruct (Book.timeline book); discriminate Et|].
    rewrite <- Et, map_app. simpl.
    replace (length (Book.timeline book)) with (length (map event_label (Book.timeline book)))
      by apply length_map.
    rewrite choose_last, length_map, delete_last.
    replace (set_book_timeline _ _) with book by (destruct book; reflexivity).
    apply set_books_insert_back, E.
  - intros when desc book_id. unfold remove_master_event, add_master_event. simpl.
    rewrite map_app. simpl.
    replace (length (timeline data)) with (length (map master_event_label (timeline data)))
      by apply length_map.
    rewrite choose_last, length_map, delete_last.
    destruct data. reflexivity.
  - intros name brief evolution ts iso. unfold delete_master_location, create_master_location.
    simpl. rewrite map_app. simpl.
    replace (length (Master.locations (master data)))
      with (length (map Location.name (Master.locations (master data)))) by apply length_map.
    rewrite choose_last, length_map, delete_last.
    destruct data as [? ? ? [] ?]. reflexivity.
  - intros title summary ts iso. unfold delete_master_lore, create_master_lore.
    simpl. rewrite map_app. simpl.
    replace (length (Master.lore (master data)))
      with (length (map Lore.title (Master.lore (master data)))) by apply length_map.
    rewrite choose_last, length_map, delete_last.
    destruct data as [? ? ? [] ?]. reflexivity.
Qed.

Lemma add_then_remove_last_witness :
  let data := create_book (default_document "2023-11-14T22:13:20") "The Start" "1" "" ""
                          1700000000 "2023-11-14T22:13:20" in
  manage_book_plot (manage_book_plot data 0 "1" "The storm breaks.") 0 "2" "1" = data.
Proof.
  intros data.
  exact (proj1 (add_then_remove_last data) 0%nat _ "The storm breaks." eq_refl).
Defined.

Lemma map_remove_reference_unreferenced cid (bs : list Book.t) :
  (forall b, b ∈ bs -> cid ∉ Book.characters b) -> map (remove_reference cid) bs = bs.
Proof.
  induction bs as [|b bs IH]; intros H; [reflexivity|]. simpl.
  rewrite remove_reference_unreferenced by (apply H; left).
  rewrite IH; [reflexivity|]. intros b' Hb'. apply H. right. exact Hb'.
Qed.

(** Creating a master character and then deleting the entry with the last
    number gives back the document as it was, provided no book refers to
    the id that the new character received (the loop of the delete branch
    removes such references, which then belonged to an older character with
    the same id). *)
Theorem create_then_delete_master_character (data : document)
    (name role personality series_arc notes : string) (ts : Z) (iso : string) :
  (forall b, b ∈ books data ->
     "char_" +:+ Py.str_int (Z.of_nat (length (Master.characters (master data))) + 1)
             +:+ "_" +:+ Py.str_int ts ∉ Book.characters b) ->
  delete_master_character
    (create_master_character data name role personality series_arc notes ts iso)
    (Py.str_int (Z.of_nat (length (Master.characters (master data))) + 1)) = data.
Proof.
  intros Hfree. unfold delete_master_character, create_master_character. simpl.
  rewrite map_app. simpl.
  set (label := fun c => Character.name c +:+ " (" +:+ Character.role c +:+ ")").
  rewrite (choose_last_of _ _ (length (Master.characters (master data))))
    by (rewrite length_map; reflexivity).
  unfold delete_master_character_at. simpl.
  rewrite lookup_app_r by lia. rewrite Nat.sub_diag. simpl.
  rewrite delete_last, (map_remove_reference_unreferenced _ _ Hfree).
  destruct data as [? ? ? [] ?]. reflexivity.
Qed.

Lemma create_then_delete_master_character_witness :
  let data := create_book (default_document "2023-11-14T22:13:20") "The Start" "1" "" ""
                          1700000000 "2023-11-14T22:13:20" in
  delete_master_character
    (create_master_character data "Ava" "Hero" "kind" "" "" 1700000001 "2023-11-14T22:13:21")
    "1" = data.
Proof.
  intros data.
  apply (create_then_delete_master_character data "Ava" "Hero" "kind" "" "" 1700000001
                                             "2023-11-14T22:13:21").
  intros b [->|Hb]%elem_of_cons; [|inversion Hb]. simpl. apply not_elem_of_nil.
Defined.

(** Adding a master character to a book and then removing the character
    with the last number from the book gives back the document as it was,
    when the book did not refer to the character and has profiles for its
    references only. *)
Theorem add_then_remove_book_character (data : document) (bidx : nat) (answer : string)
    (book : Book.t) (idx : nat) (c : Character.t) :
  books data !! bidx = Some book ->
  book_in_sync book ->
  choose_from_list (map Character.name (Master.characters (master data))) answer = Some idx ->
  Master.characters (master data) !! idx = Some c ->
  Character.id c ∉ Book.characters book ->
  remove_book_character (add_existing_character data bidx answer) bidx
    (Py.str_int (Z.of_nat (length (Book.characters book)) + 1)) = data.
Proof.
  intros E [_ Hkeys] Hsel Hc Hnew. unfold add_existing_character.
  rewrite E, Hsel, Hc. rewrite (proj2 (str_in_false _ _) Hnew). simpl.
  assert (Hnone : Book.book_char_profiles book !! Character.id c = None).
  { destruct (Book.book_char_profiles book !! Character.id c) eqn:Ep; [|reflexivity].
    exfalso. apply Hnew, Hkeys. rewrite Ep. eauto. }
  rewrite Hnone. unfold remove_book_character. simpl.
  rewrite list_lookup_insert_eq by (eapply lookup_lt_Some, E). simpl.
  rewrite map_app. simpl.
  set (label := fun cid => match find_master_character _ cid with
                           | Some m => Character.name m
                           | None => "(missing:" +:+ cid +:+ ")"
                           end).
  rewrite (choose_last_of _ _ (length (Book.characters book)))
    by (rewrite length_map; reflexivity).
  rewrite lookup_app_r by lia. rewrite Nat.sub_diag. simpl.
  rewrite delete_last, delete_insert_eq, (delete_id _ _ Hnone).
  replace (Book.set_book_char_profiles _ _) with book by (destruct book; reflexivity).
  apply set_books_insert_back, E.
Qed.

Lemma add_then_remove_book_character_witness :
  let data := session (default_document "2023-11-14T22:13:20")
                [ CreateMasterCharacter "Ava" "Hero" "kind" "" "" 1700000000 "2023-11-14T22:13:20";
                  CreateBook "The Start" "1" "" "" 1700000001 "2023-11-14T22:13:21" ] in
  remove_book_character (add_existing_character data 0 "1") 0 "1" = data.
Proof.
  intros data.
  apply (add_then_remove_book_character data 0 "1"
           (Book.mk "book_1_1700000001" "The Start" (Some 1) "" None [] [] ∅ [] []
                    "2023-11-14T22:13:21")
           0
           (Character.mk "char_1_1700000000" "Ava" "Hero" "kind"
                         (analyze_personality_text "kind") "" "" "2023-11-14T22:13:20")).
  - reflexivity.
  - split; [apply NoDup_nil_2|]. simpl. intros cid [p Hp]. rewrite lookup_empty in Hp.
    discriminate Hp.
  - vm_compute. reflexivity.
  - reflexivity.
  - simpl. apply not_elem_of_nil.
Defined.

(** * Looking up and reporting master characters *)

Lemma find_master_character_in_first cs cid :
  match find_master_character_in cs cid with
  | Some c =>
      exists i, cs !! i = Some c /\ Character.id c = cid /\
                forall j c', (j < i)%nat -> cs !! j = Some c' -> Character.id c' <> cid
  | None => forall c, c ∈ cs -> Character.id c <> cid
  end.
Proof.
  induction cs as [|x cs IH]; simpl.
  - intros c Hc. inversion Hc.
  - destruct (String.eqb_spec (Character.id x) cid) as [E|E].
    + exists 0%nat. split; [reflexivity|]. split; [exact E|]. intros j c' Hj. lia.
    + destruct (find_master_character_in cs cid) as [c|].
      * destruct IH as (i & Hi & Hid & Hfirst). exists (S i).
        split; [exact Hi|]. split; [exact Hid|].
        intros [|j] c' Hj Hc'; simpl in Hc'; [congruence|].
        apply (Hfirst j); [lia | exact Hc'].
      * intros c [->|Hc]%elem_of_cons; [exact E | apply IH, Hc].
Qed.

(** [find_master_character] gives the first master character with the id,
    and [None] exactly when no master character has the id, which is exactly
    when the dict [master_ids] of the continuity check has no such key: the
    book-character menu shows "(missing:...)" for the very references that
    the continuity check reports. *)
Theorem find_master_character_spec (data : document) (cid : string) :
  match find_master_character data cid with
  | Some c =>
      exists i, Master.characters (master data) !! i = Some c /\ Character.id c = cid /\
                forall j c', (j < i)%nat -> Master.characters (master data) !! j = Some c' ->
                             Character.id c' <> cid
  | None => forall c, c ∈ Master.characters (master data) -> Character.id c <> cid
  end /\
  (find_master_character data cid = None <->
   master_ids (Master.characters (master data)) !! cid = None).
Proof.
  unfold find_master_character.
  pose proof (find_master_character_in_first (Master.characters (master data)) cid) as H.
  split; [exact H|]. rewrite master_ids_lookup.
  destruct (find_master_character_in _ cid) as [c|].
  - destruct H as (i & Hi & Hid & _). split; [discriminate|]. intros Hno. exfalso.
    apply Hno. rewrite <- Hid. apply in_map, list_elem_of_In. eapply list_elem_of_lookup_2, Hi.
  - split; [|reflexivity]. intros _ Hin. apply in_map_iff in Hin as (c & Hid & Hc).
    apply (H c); [apply list_elem_of_In, Hc | exact Hid].
Qed.

(** ** The character arc report *)

Lemma numbered_from_first i items o :
  o ∈ numbered_from i items -> exists rest, o = Print (String " " rest).
Proof.
  revert i. induction items as [|it items IH]; intros i Ho; [inversion Ho|].
  simpl in Ho. apply elem_of_cons in Ho as [->|Ho]; [|eapply IH, Ho].
  eexists. reflexivity.
Qed.

Lemma choose_from_list_shown_first items o :
  o ∈ choose_from_list_shown items -> exists rest, o = Print (String " " rest).
Proof.
  destruct items as [|it items]; simpl.
  - intros ->%list_elem_of_singleton. eexists. reflexivity.
  - apply (numbered_from_first 1 (it :: items)).
Qed.

Lemma appearances_books (bs : list Book.t) cid :
  flat_map (fun b =>
              if str_in cid (Book.characters b) then
                match Book.book_char_profiles b !! cid with
                | Some prof => [(Book.title b, Profile.role_in_book prof, Profile.notes prof)]
                | None => [(Book.title b, "", "")]
                end
              else []) bs
  = map (fun b => match Book.book_char_profiles b !! cid with
                  | Some prof => (Book.title b, Profile.role_in_book prof, Profile.notes prof)
                  | None => (Book.title b, "", "")
                  end)
        (filter (fun b => cid ∈ Book.characters b) bs).
Proof.
  induction bs as [|b bs IH]; [reflexivity|]. simpl. rewrite IH.
  destruct (str_in cid (Book.characters b)) eqn:E.
  - rewrite filter_cons_True by (apply str_in_elem_of, E). simpl.
    destruct (Book.book_char_profiles b !! cid); reflexivity.
  - rewrite filter_cons_False by (apply str_in_false, E). reflexivity.
Qed.

(** The report on a selected master character lists the books that refer
    to the character, in the order of the books, each with the role and the
    notes of the profile that the book keeps for the character (empty when
    it keeps none); it prints the not-assigned line exactly when no book
    refers to the character, and the appearances heading exactly when some
    book does. *)
Theorem character_arc_report_appearances (data : document) (answer : string)
    (idx : nat) (c : Character.t) :
  choose_from_list (map Character.name (Master.characters (master data))) answer = Some idx ->
  Master.characters (master data) !! idx = Some c ->
  appearances data (Character.id c)
  = map (fun b => match Book.book_char_profiles b !! Character.id c with
                  | Some prof => (Book.title b, Profile.role_in_book prof, Profile.notes prof)
                  | None => (Book.title b, "", "")
                  end)
        (filter (fun b => Character.id c ∈ Book.characters b) (books data)) /\
  (Print not_assigned_message ∈ character_arc_report data answer <->
   forall b, b ∈ books data -> Character.id c ∉ Book.characters b) /\
  (Print "Appearances by book:" ∈ character_arc_report data answer <->
   exists b, b ∈ books data /\ Character.id c ∈ Book.characters b) /\
  (forall b, b ∈ books data -> Character.id c ∈ Book.characters b ->
     exists role notes,
       Print ("- " +:+ Book.title b +:+ ": role: " +:+ role +:+ "; notes: " +:+ notes)
       ∈ character_arc_report data answer).
Proof.
  intros Hsel Hc.
  pose proof (appearances_books (books data) (Character.id c)) as Happ.
  fold (appearances data (Character.id c)) in Happ.
  split; [exact Happ|].
  assert (Hnil : appearances data (Character.id c) = [] <->
                 forall b, b ∈ books data -> Character.id c ∉ Book.characters b).
  { rewrite Happ. split.
    - intros H%fmap_nil_inv b Hb Hin.
      assert (Hf : b ∈ filter (fun b => Character.id c ∈ Book.characters b) (books data))
        by (apply list_elem_of_filter; split; assumption).
      rewrite H in Hf. inversion Hf.
    - intros H. destruct (filter _ (books data)) as [|b bs] eqn:E; [reflexivity|].
      assert (Hb : b ∈ filter (fun b => Character.id c ∈ Book.characters b) (books data))
        by (rewrite E; left).
      apply list_elem_of_filter in Hb as [Hin Hb]. destruct (H b Hb Hin). }
  unfold character_arc_report. rewrite Hsel, Hc.
  split; [|split].
  - rewrite <- Hnil. split.
    + intros [H|H]%elem_of_cons; [discriminate H|].
      apply elem_of_app in H as [H|H].
      { apply choose_from_list_shown_first in H as [rest H]. discriminate H. }
      apply elem_of_app in H as [H|H].
      { repeat (apply elem_of_cons in H as [H|H]; [discriminate H|]). inversion H. }
      destruct (appearances data (Character.id c)) as [|a apps]; [reflexivity|].
      apply elem_of_cons in H as [H|H]; [discriminate H|].
      apply list_elem_of_fmap in H as (x & H & _). discriminate H.
    + intros ->. right. apply elem_of_app. right. apply elem_of_app. right. left.
  - split.
    + intros [H|H]%elem_of_cons; [discriminate H|].
      apply elem_of_app in H as [H|H].
      { apply choose_from_list_shown_first in H as [rest H]. discriminate H. }
      apply elem_of_app in H as [H|H].
      { repeat (apply elem_of_cons in H as [H|H]; [discriminate H|]). inversion H. }
      destruct (appearances data (Character.id c)) as [|a apps] eqn:E.
      { apply list_elem_of_singleton in H. discriminate H. }
      destruct (filter (fun b => Character.id c ∈ Book.characters b) (books data))
        as [|b bs] eqn:Ef; [discriminate Happ|].
      assert (Hb : b ∈ filter (fun b => Character.id c ∈ Book.characters b) (books data))
        by (rewrite Ef; left).
      apply list_elem_of_filter in Hb as [Hin Hb]. exists b. split; assumption.
    + intros (b & Hb & Hin). right. apply elem_of_app. right. apply elem_of_app. right.
      destruct (appearances data (Character.id c)) as [|a apps] eqn:E; [|left].
      exfalso. exact (proj1 Hnil eq_refl b Hb Hin).
  - intros b Hb Hin.
    assert (Hf : b ∈ filter (fun b => Character.id c ∈ Book.characters b) (books data))
      by (apply list_elem_of_filter; split; assumption).
    exists (match Book.book_char_profiles b !! Character.id c with
            | Some prof => Profile.role_in_book prof
            | None => ""
            end),
           (match Book.book_char_profiles b !! Character.id c with
            | Some prof => Profile.notes prof
            | None => ""
            end).
    right. apply elem_of_app. right. apply elem_of_app. right.
    destruct (appearances data (Character.id c)) as [|a apps] eqn:E.
    { exfalso. exact (proj1 Hnil eq_refl b Hb Hin). }
    right. rewrite Happ, <- list_fmap_compose.
    apply list_elem_of_fmap. exists b. split; [|exact Hf].
    simpl. destruct (Book.book_char_profiles b !! Character.id c); reflexivity.
Qed.

Lemma character_arc_report_appearances_witness :
  let data := session (default_document "2023-11-14T22:13:20")
                [ CreateMasterCharacter "Ava" "Hero" "kind" "" "" 1700000000 "2023-11-14T22:13:20";
                  CreateBook "The Start" "1" "" "" 1700000001 "2023-11-14T22:13:21";
                  AddExistingCharacter 0 "1" ] in
  Print "Appearances by book:" ∈ character_arc_report data "1" <->
  exists b, b ∈ books data /\ "char_1_1700000000" ∈ Book.characters b.
Proof.
  intros data.
  refine (proj1 (proj2 (proj2
            (character_arc_report_appearances data "1" 0
               (Character.mk "char_1_1700000000" "Ava" "Hero" "kind"
                             (analyze_personality_text "kind") "" "" "2023-11-14T22:13:20")
               _ _)))).
  - vm_compute. reflexivity.
  - reflexivity.
Defined.
